(** * PyWPS: a shallow embedding of [pywps/app.py] and [pywps/storage.py]

    The development follows the two source files: Python text and the
    path helpers the code calls, the exception taxonomy, the XML trees
    built with the element makers, the file storage, request parsing, the
    response document, the process executor and the service facade.

    Modelling conventions
    - Python text is a list of Unicode code points ([pystr]); [py] embeds
      a literal of the source.
    - Python integers are [Z].
    - A Python dict is a [gmap]; keys are [option pystr] because the
      parsers use [element.text] as a key, which may be [None].
    - An exception raised by the code is a value of [PyException]: the
      instances of Python's [Exception] class (the class the [except]
      clauses of the source name), and [BaseExceptionOnly] for the
      exceptions user code may raise that such a clause lets through
      ([SystemExit], [KeyboardInterrupt]); a function that may raise
      returns a [result].
    - Code that touches the filesystem, the process table or the handler
      threads a [World] explicitly through the [Py] monad.
    - The running interpreter is Python 3 ([PY2] is false).
    - What the two files import is a parameter ([Env]): configuration,
      clock, network, the serializer, the renderings of inputs and
      outputs.

    Covered: [FileStorage], the request parsers, [parse_complex_inputs],
    [parse_literal_inputs], [WPSRequest], [WPSResponse],
    [Process.capabilities_xml], [Process.describe_xml],
    [Process.execute], [Process._run_process], [xml_response] and
    [Service] with its four methods and [__call__]. *)

From Stdlib Require Import ZArith NArith Ascii String Lia.
From stdpp Require Import base option list gmap strings pretty.

Local Open Scope Z_scope.

(* ================================================================== *)
(** * Python text *)
(* ================================================================== *)

Definition pystr := list N.

Fixpoint py (s : string) : pystr :=
  match s with
  | EmptyString => []
  | String a s' => N_of_ascii a :: py s'
  end.

Global Arguments py : simpl never.

(** [str(n)] / ['%i' % n] for an integer. *)
Definition str_of_Z (n : Z) : pystr := py (pretty n).

(** [s.lower()], on the letters A to Z. *)
Definition lower (s : pystr) : pystr :=
  map (fun c => if (65 <=? c)%N && (c <=? 90)%N then (c + 32)%N else c) s.

(** ['%r' % s], without the escapes. *)
Definition repr (v : option pystr) : pystr :=
  match v with
  | Some s => py "'" ++ s ++ py "'"
  | None => py "None"
  end.

(** [s.split(sep)] for a separator of one character. *)
Fixpoint split_on (sep : N) (s : pystr) (cur : pystr) : list pystr :=
  match s with
  | [] => [rev cur]
  | c :: s' =>
      if N.eqb c sep then rev cur :: split_on sep s' []
      else split_on sep s' (c :: cur)
  end.

Definition split (sep : string) (s : pystr) : list pystr :=
  match py sep with
  | [c] => split_on c s []
  | _ => [s]
  end.

Definition slash : N := 47%N.
Definition dot : N := 46%N.

(** [p.rfind(c)]: the index of the last occurrence, [-1] if there is none. *)
Fixpoint rfind_from (c : N) (p : pystr) (i : Z) (last : Z) : Z :=
  match p with
  | [] => last
  | x :: p' => rfind_from c p' (i + 1) (if N.eqb x c then i else last)
  end.

Definition rfind (c : N) (p : pystr) : Z := rfind_from c p 0 (-1).

Definition slice_to (p : pystr) (i : Z) : pystr := take (Z.to_nat i) p.
Definition slice_from (p : pystr) (i : Z) : pystr := drop (Z.to_nat i) p.

(** [head.rstrip('/')] *)
Fixpoint rstrip_slash_rev (r : pystr) : pystr :=
  match r with
  | x :: r' => if N.eqb x slash then rstrip_slash_rev r' else r
  | [] => []
  end.

Definition rstrip_slash (p : pystr) : pystr := rev (rstrip_slash_rev (rev p)).

Definition all_slashes (p : pystr) : bool := forallb (N.eqb slash) p.

(** [posixpath.split]. *)
Definition os_path_split (p : pystr) : pystr * pystr :=
  let i := rfind slash p + 1 in
  let head := slice_to p i in
  let tail := slice_from p i in
  let head' := if all_slashes head then head else rstrip_slash head in
  (head', tail).

Definition os_path_basename (p : pystr) : pystr :=
  slice_from p (rfind slash p + 1).

Definition startswith_slash (p : pystr) : bool :=
  match p with
  | x :: _ => N.eqb x slash
  | [] => false
  end.

Definition endswith_slash (p : pystr) : bool :=
  match rev p with
  | x :: _ => N.eqb x slash
  | [] => false
  end.

(** [posixpath.join] of two components. *)
Definition os_path_join (a b : pystr) : pystr :=
  if startswith_slash b then b
  else if (bool_decide (a = [])) || endswith_slash a then a ++ b
  else a ++ [slash] ++ b.

(** The loop of [genericpath._splitext] that skips leading dots. *)
Fixpoint splitext_scan (p : pystr) (filenameIndex : Z) (dotIndex : Z)
    (fuel : nat) : pystr * pystr :=
  match fuel with
  | O => (p, [])
  | S fuel' =>
      if filenameIndex <? dotIndex then
        match p !! Z.to_nat filenameIndex with
        | Some x =>
            if N.eqb x dot
            then splitext_scan p (filenameIndex + 1) dotIndex fuel'
            else (slice_to p dotIndex, slice_from p dotIndex)
        | None => (p, [])
        end
      else (p, [])
  end.

(** [posixpath.splitext]. *)
Definition os_path_splitext (p : pystr) : pystr * pystr :=
  let sepIndex := rfind slash p in
  let dotIndex := rfind dot p in
  if sepIndex <? dotIndex
  then splitext_scan p (sepIndex + 1) dotIndex (S (List.length p))
  else (p, []).

(** ** UTF-8 *)

(** The bytes of one code point; [None] is Python 3's
    [UnicodeEncodeError] (a lone surrogate, or no code point at all). *)
Definition utf8_encode_char (c : N) : option (list N) :=
  (if c <? 128 then Some [c]
   else if c <? 2048 then
     Some [N.lor 192 (N.shiftr c 6); N.lor 128 (N.land c 63)]
   else if c <? 65536 then
     if (55296 <=? c) && (c <=? 57343) then None
     else Some [N.lor 224 (N.shiftr c 12);
                N.lor 128 (N.land (N.shiftr c 6) 63);
                N.lor 128 (N.land c 63)]
   else if c <? 1114112 then
     Some [N.lor 240 (N.shiftr c 18);
           N.lor 128 (N.land (N.shiftr c 12) 63);
           N.lor 128 (N.land (N.shiftr c 6) 63);
           N.lor 128 (N.land c 63)]
   else None)%N.

(** [s.encode('utf-8')]. *)
Fixpoint encode_utf8 (s : pystr) : option (list N) :=
  match s with
  | [] => Some []
  | c :: s' =>
      match utf8_encode_char c, encode_utf8 s' with
      | Some b, Some bs => Some (b ++ bs)
      | _, _ => None
      end
  end.

(* ================================================================== *)
(** * XML trees ([lxml.etree]) *)
(* ================================================================== *)

(** The namespaces of [pywps.NAMESPACES] the element makers [WPS], [OWS]
    and [E] (no namespace) qualify a tag with. *)
Inductive Namespace := NS_wps | NS_ows | NS_none | NS_other (uri : string).

Record QName := { qn_ns : Namespace; qn_local : string }.

Definition WPS (name : string) : QName := {| qn_ns := NS_wps; qn_local := name |}.
Definition OWS (name : string) : QName := {| qn_ns := NS_ows; qn_local := name |}.
Definition E (name : string) : QName := {| qn_ns := NS_none; qn_local := name |}.

#[global] Instance Namespace_eq_dec : EqDecision Namespace.
Proof. solve_decision. Defined.

#[global] Instance QName_eq_dec : EqDecision QName.
Proof. solve_decision. Defined.

(** An element: tag, [attrib], [text] and children.  Attribute names are
    written as the source writes them (Clark notation when qualified). *)
#[warnings="-register-all"] Inductive Element :=
| Elem (tag : QName) (attrib : gmap string pystr) (text : option pystr)
       (children : list Element).

Definition tag (e : Element) : QName := let 'Elem t _ _ _ := e in t.
Definition attrib (e : Element) : gmap string pystr := let 'Elem _ a _ _ := e in a.
Definition text (e : Element) : option pystr := let 'Elem _ _ t _ := e in t.
Definition children (e : Element) : list Element := let 'Elem _ _ _ c := e in c.

(** [el.attrib.get(key, dflt)] *)
Definition attrib_get (e : Element) (key : string) (dflt : pystr) : pystr :=
  match attrib e !! key with
  | Some v => v
  | None => dflt
  end.

(** [doc.attrib[key] = value] *)
Definition attrib_set (key : string) (value : pystr) (e : Element) : Element :=
  let 'Elem t a x c := e in Elem t (<[key := value]> a) x c.

(** [doc.append(child)] *)
Definition append (child : Element) (e : Element) : Element :=
  let 'Elem t a x c := e in Elem t a x (c ++ [child]).

Definition extend (cs : list Element) (e : Element) : Element :=
  let 'Elem t a x c := e in Elem t a x (c ++ cs).

(** One location step [prefix:Name]: the children with that tag, in
    document order. *)
Definition child_elements (q : QName) (e : Element) : list Element :=
  filter (fun c => tag c = q) (children e).

(** A relative path [./a/b/...] evaluated at [ctx]. *)
Fixpoint xpath_rel (steps : list QName) (ctx : Element) : list Element :=
  match steps with
  | [] => [ctx]
  | q :: rest => flat_map (xpath_rel rest) (child_elements q ctx)
  end.

(** An absolute path [/a/b/...] evaluated on the tree whose root is [root]. *)
Definition xpath_abs (steps : list QName) (root : Element) : list Element :=
  match steps with
  | [] => []
  | q :: rest => if decide (tag root = q) then xpath_rel rest root else []
  end.

(* ================================================================== *)
(** * Python values, exceptions and the effect monad *)
(* ================================================================== *)

(** The values the request dictionaries hold. *)
Inductive PyVal :=
| VNone
| VStr (s : pystr)
| VElem (e : Element).

(** Truthiness of a value ([if href:]). *)
Definition truthy (v : PyVal) : bool :=
  match v with
  | VNone => false
  | VStr s => negb (bool_decide (s = []))
  | VElem e => negb (bool_decide (children e = []))
  end.

(** [text_type(x)] of an optional text: [None] prints as ['None']. *)
Definition text_type (t : option pystr) : pystr :=
  match t with
  | Some s => s
  | None => py "None"
  end.

Definition VText (t : option pystr) : PyVal :=
  match t with
  | Some s => VStr s
  | None => VNone
  end.

Abbreviation pydict := (gmap (option pystr) PyVal).

(** [d.get(key)] and [d.get(key, dflt)] with a literal key. *)
Definition dict_get (d : pydict) (key : string) : PyVal :=
  match d !! Some (py key) with
  | Some v => v
  | None => VNone
  end.

Definition dict_get_default (d : pydict) (key : string) (dflt : PyVal) : PyVal :=
  match d !! Some (py key) with
  | Some v => v
  | None => dflt
  end.

(** The exceptions of [pywps.exceptions] and [werkzeug.exceptions] the
    two files raise, with their description and locator, and
    [PythonError] for every other instance of [Exception] (built-in or
    defined by a handler): its class name and its [str()].
    [BaseExceptionOnly] is an instance of a class that derives from
    [BaseException] and not from [Exception]: [SystemExit],
    [KeyboardInterrupt], [GeneratorExit] or a class of a handler's
    own. *)
Inductive PyException :=
| MissingParameterValue (description : pystr) (locator : PyVal)
| InvalidParameterValue (description : pystr) (locator : PyVal)
| NoApplicableCode (description : pystr)
| OperationNotSupported (description : pystr)
| VersionNegotiationFailed (description : pystr) (locator : PyVal)
| FileSizeExceeded (description : pystr) (locator : PyVal)
| StorageNotSupported (description : pystr)
| NotEnoughStorage (description : pystr)
| BadRequest (description : pystr)
| MethodNotAllowed
| PythonError (cls : string) (str : pystr)
| BaseExceptionOnly (cls : string) (str : pystr).

(** [isinstance(e, Exception)] *)
Definition is_Exception (e : PyException) : bool :=
  match e with
  | BaseExceptionOnly _ _ => false
  | _ => true
  end.

Inductive result (A : Type) :=
| Ok (a : A)
| Raise (e : PyException).

Arguments Ok {A} a.
Arguments Raise {A} e.

(** State and exceptions: a computation maps the state before to the
    state after and a value or the exception raised. *)
Definition Py (S A : Type) : Type := S -> S * result A.

Definition ret {S A} (a : A) : Py S A := fun s => (s, Ok a).
Definition raise {S A} (e : PyException) : Py S A := fun s => (s, Raise e).

Definition bind {S A B} (m : Py S A) (k : A -> Py S B) : Py S B :=
  fun s =>
    match m s with
    | (s', Ok a) => k a s'
    | (s', Raise e) => (s', Raise e)
    end.

(** [try: m except Exception as e: h e]; what is not an instance of
    [Exception] passes through. *)
Definition try_except {S A} (m : Py S A) (h : PyException -> Py S A) : Py S A :=
  fun s =>
    match m s with
    | (s', Ok a) => (s', Ok a)
    | (s', Raise e) => if is_Exception e then h e s' else (s', Raise e)
    end.

Definition get_state {S} : Py S S := fun s => (s, Ok s).
Definition put_state {S} (s : S) : Py S unit := fun _ => (s, Ok tt).
Definition lift_result {S A} (r : result A) : Py S A := fun s => (s, r).

Declare Scope py_scope.
Delimit Scope py_scope with py.
Notation "x <- m ;; k" := (bind m (fun x => k))
  (at level 100, m at next level, right associativity) : py_scope.
Notation "m ;;; k" := (bind m (fun _ => k))
  (at level 100, right associativity) : py_scope.

(* ================================================================== *)
(** * The data model of [pywps.inputs], [pywps.outputs], [pywps.formats] *)
(* ================================================================== *)

(** [Format(mime_type, encoding, schema)] *)
Record Format := {
  mime_type : PyVal;
  encoding : PyVal;
  schema : PyVal;
}.

(** The attributes of a [ComplexInput] that [parse_complex_inputs] reads
    and writes. *)
Record ComplexInput := {
  ci_identifier : PyVal;
  ci_data_format : option Format;
  ci_method : PyVal;
  ci_max_megabytes : Z;
  ci_file : option pystr;
  ci_url : option pystr;
  ci_as_reference : bool;
  ci_data : PyVal;
}.

(** The attributes of a [LiteralInput] that [parse_literal_inputs]
    writes; [li_data_type = None] is the class's own default. *)
Record LiteralInput := {
  li_identifier : PyVal;
  li_uom : PyVal;
  li_data_type : option PyVal;
  li_data : PyVal;
}.

Inductive DataInput :=
| ComplexIn (c : ComplexInput)
| LiteralIn (l : LiteralInput).

(** What [isinstance] tells about a declared input. *)
Inductive InputClass := IsComplexInput | IsLiteralInput | IsOtherInput.

(** A declared input of a process. *)
Record Input := {
  in_identifier : pystr;
  in_class : InputClass;
}.

(** An output object of a process: declared once, shared between
    [Process.outputs] and every [WPSResponse.outputs], mutated by
    [Service.execute] ([as_reference]) and by the handler ([data],
    [file]). *)
Record Output := {
  out_identifier : pystr;
  out_as_reference : bool;
  out_data : PyVal;
  out_file : pystr;
  out_extension : pystr;   (* [output_format.get_extension()] *)
}.

(* ================================================================== *)
(** * The environment: configuration and library calls *)
(* ================================================================== *)

(** What the two files call but do not define: the configuration
    lookup, the clock, the network, the serializer of [lxml], the
    library's rendering of inputs and outputs, and the attributes a
    freshly constructed [ComplexInput] carries. *)
Record Env := {
  get_config_value : string -> string -> pystr;
  strftime_now : pystr;
  platform_system : pystr;
  urljoin : pystr -> pystr -> pystr;
  (** [urlopen(href)]: the decoded body and the [Content-Length]
      header when the response has one. *)
  urlopen : pystr -> result (pystr * option Z);
  (** [etree.tostring(doc, pretty_print=True, encoding='utf-8')] *)
  tostring : Element -> list N;
  (** [str(e)] of an exception of [pywps.exceptions] or [werkzeug]. *)
  http_exception_str : PyException -> pystr;
  (** The URI a namespace prefix stands for ([pywps.NAMESPACES]). *)
  namespace_uri : Namespace -> pystr;
  (** [co_filename] of the code of [pywps/app.py]. *)
  app_filename : pystr;
  (** [max_megabytes] of a [ComplexInput] as its constructor leaves it,
      and as [calculate_max_input_size()] leaves it. *)
  initial_max_megabytes : Z;
  calculated_max_megabytes : Z;
  input_execute_xml : DataInput -> Element;
  output_execute_xml : Output -> Element;
  output_describe_xml : Output -> Element;
}.

(** [str(e)], as in ['%s' % e]. *)
Definition exception_str (env : Env) (e : PyException) : pystr :=
  match e with
  | PythonError _ s | BaseExceptionOnly _ s => s
  | _ => http_exception_str env e
  end.

(** ['%s:%s%s' % (a, b, c)] *)
Definition fmt3 (a b c : pystr) : pystr := a ++ py ":" ++ b ++ c.

(* ================================================================== *)
(** * The filesystem *)
(* ================================================================== *)

(** What [statvfs] and the Windows disk query report for a directory. *)
Record DirStat := {
  f_bfree : Z;
  free_bytes : Z;
}.

(** Regular files with their bytes, the directories that exist and can
    be written to, the block size [os.stat] reports ([None] on a
    platform whose [stat] result has no [st_blksize]), the working
    directory, and the random name parts [mkstemp] will draw next.
    Paths are taken as normalised. *)
Record FS := {
  files : gmap pystr (list N);
  dirs : gmap pystr DirStat;
  st_blksize : option Z;
  cwd : pystr;
  random_names : list pystr;
}.

Definition set_files (f : gmap pystr (list N)) (fs : FS) : FS :=
  {| files := f; dirs := dirs fs; st_blksize := st_blksize fs;
     cwd := cwd fs; random_names := random_names fs |}.

Definition set_random_names (l : list pystr) (fs : FS) : FS :=
  {| files := files fs; dirs := dirs fs; st_blksize := st_blksize fs;
     cwd := cwd fs; random_names := l |}.

Definition os_path_abspath (fs : FS) (p : pystr) : pystr :=
  if startswith_slash p then p else os_path_join (cwd fs) p.

(** [os.stat(path).st_size] *)
Definition os_stat_st_size (path : pystr) : Py FS Z :=
  fun fs =>
    match files fs !! path with
    | Some bytes => (fs, Ok (Z.of_nat (List.length bytes)))
    | None => (fs, Raise (PythonError "OSError" (py "No such file or directory")))
    end.

(** [os.stat(path).st_blksize] *)
Definition os_stat_st_blksize (path : pystr) : Py FS Z :=
  fun fs =>
    match files fs !! path with
    | Some _ =>
        match st_blksize fs with
        | Some b => (fs, Ok b)
        | None => (fs, Raise (PythonError "AttributeError" (py "st_blksize")))
        end
    | None => (fs, Raise (PythonError "OSError" (py "No such file or directory")))
    end.

(** Whether [open(path, 'w')] can create or truncate [path]. *)
Definition can_open_w (path : pystr) (fs : FS) : bool :=
  let '(d, b) := os_path_split path in
  negb (bool_decide (b = []))
  && bool_decide (is_Some (dirs fs !! d))
  && negb (bool_decide (is_Some (dirs fs !! path))).

(** [with open(path, 'w') as f: f.write(text)]; [IOError] when the file
    cannot be opened. *)
Definition write_file (path : pystr) (bytes : list N) : Py FS unit :=
  fun fs =>
    if can_open_w path fs
    then (set_files (<[path := bytes]> (files fs)) fs, Ok tt)
    else (fs, Raise (PythonError "IOError" (py "No such file or directory"))).

(** The loop of [tempfile.mkstemp]: the first drawn name that is free is
    created (empty) and its absolute path returned. *)
Fixpoint mkstemp_loop (dir pre suf : pystr) (names : list pystr) (fs : FS)
    : FS * result pystr :=
  match names with
  | [] => (set_random_names [] fs,
           Raise (PythonError "IOError" (py "No usable temporary file name found")))
  | name :: names' =>
      let file := os_path_join dir (pre ++ name ++ suf) in
      if negb (bool_decide (is_Some (dirs fs !! dir))) then
        (set_random_names names' fs,
         Raise (PythonError "OSError" (py "No such file or directory")))
      else if bool_decide (is_Some (files fs !! os_path_abspath fs file)) then
        mkstemp_loop dir pre suf names' fs
      else
        (set_random_names names'
           (set_files (<[os_path_abspath fs file := []]> (files fs)) fs),
         Ok (os_path_abspath fs file))
  end.

(** [tempfile.mkstemp(suffix=suf, prefix=pre, dir=dir)[1]] *)
Definition mkstemp (suf pre dir : pystr) : Py FS pystr :=
  fun fs => mkstemp_loop dir pre suf (random_names fs) fs.

(** [shutil.copy2(src, dst)] *)
Definition shutil_copy2 (src dst : pystr) : Py FS unit :=
  fun fs =>
    match files fs !! src with
    | Some bytes => write_file dst bytes fs
    | None => (fs, Raise (PythonError "IOError" (py "No such file or directory")))
    end.

(* ================================================================== *)
(** * [pywps/storage.py] *)
(* ================================================================== *)

Module STORE_TYPE.
Definition PATH : Z := 0.
End STORE_TYPE.

(** [get_free_space(folder)] *)
Definition get_free_space (env : Env) (folder : pystr) : Py FS Z :=
  fun fs =>
    if bool_decide (platform_system env = py "Windows") then
      match dirs fs !! folder with
      | Some d => (fs, Ok (free_bytes d))
      | None => (fs, Ok 0)
      end
    else
      match dirs fs !! folder with
      | Some d => (fs, Ok (f_bfree d))
      | None => (fs, Raise (PythonError "OSError" (py "No such file or directory")))
      end.

(** [math.ceil(a / float(b))] for [b <> 0], computed exactly: the
    quotient of two integers below [2^53] in magnitude rounds to a
    double on the same side of every integer. *)
Definition ceil_div (a b : Z) : Z := - ((- a) / b).

Module FileStorage.

Record t := {
  target : pystr;
  output_url : pystr;
}.

(** [FileStorage.__init__(config)] *)
Definition init (env : Env) : t :=
  {| target := get_config_value env "server" "outputPath";
     output_url := fmt3 (get_config_value env "wps" "serveraddress")
                        (get_config_value env "wps" "serverport")
                        (get_config_value env "server" "outputUrl") |}.

Definition not_enough_message (self : t) (file_name : pystr) : pystr :=
  py "Not enough space in " ++ target self ++ py " to store " ++ file_name.

(** [FileStorage.store(output)] *)
Definition store (env : Env) (self : t) (output : Output)
    : Py FS (Z * pystr * pystr) :=
  (let file_name := out_file output in
   file_block_size <- os_stat_st_blksize file_name ;;
   avail_size <- get_free_space env (target self) ;;
   file_size <- os_stat_st_size file_name ;;
   if bool_decide (file_block_size = 0) then
     raise (PythonError "ZeroDivisionError" (py "float division by zero"))
   else
   let actual_file_size := ceil_div file_size file_block_size * file_block_size in
   if bool_decide (avail_size < actual_file_size) then
     raise (NotEnoughStorage (not_enough_message self file_name))
   else
   let '(prefix, suffix0) := os_path_splitext file_name in
   let suffix := if bool_decide (suffix0 = []) then out_extension output else suffix0 in
   let '(file_dir, file_name') := os_path_split prefix in
   output_name <- mkstemp suffix file_name' (target self) ;;
   shutil_copy2 (out_file output) (os_path_join (target self) output_name) ;;;
   let just_file_name := os_path_basename output_name in
   let url := urljoin env (output_url self) just_file_name in
   ret (STORE_TYPE.PATH, output_name, url))%py.

End FileStorage.

Module DummyStorage.
(** [DummyStorage.store(output)]: does nothing, returns [None]. *)
Definition store (output : Output) : Py FS unit := ret tt.
End DummyStorage.

(* ================================================================== *)
(** * [pywps/app.py]: parsing a request *)
(* ================================================================== *)

(** [el.tag] as text, in Clark notation. *)
Definition tag_str (env : Env) (q : QName) : pystr :=
  match qn_ns q with
  | NS_none => py (qn_local q)
  | n => py "{" ++ namespace_uri env n ++ py "}" ++ py (qn_local q)
  end.

(** [[x] = l]: unpacking a list of exactly one element. *)
Definition unpack_one {S A} (l : list A) : Py S A :=
  match l with
  | [x] => ret x
  | [] => raise (PythonError "ValueError" (py "need more than 0 values to unpack"))
  | _ => raise (PythonError "ValueError" (py "too many values to unpack"))
  end.

(** [l[0]] *)
Definition item0 {S A} (l : list A) : Py S A :=
  match l with
  | x :: _ => ret x
  | [] => raise (PythonError "IndexError" (py "list index out of range"))
  end.

Definition xlink_href : string := "{http://www.w3.org/1999/xlink}href".

(** The body of the loop of [get_input_from_xml] for one [wps:Input]:
    the entry it adds to [the_input], if any. *)
Definition input_from_xml (input_el : Element)
    : Py unit (option (option pystr * pydict)) :=
  (identifier_el <- unpack_one (xpath_rel [OWS "Identifier"] input_el) ;;
   match xpath_rel [WPS "Data"; WPS "LiteralData"] input_el with
   | value_el :: _ =>
       let inpt : pydict :=
         <[Some (py "datatype") := VStr (attrib_get value_el "datatype" [])]>
        (<[Some (py "uom") := VStr (attrib_get value_el "uom" [])]>
        (<[Some (py "data") := VStr (text_type (text value_el))]>
        (<[Some (py "identifier") := VText (text identifier_el)]> ∅))) in
       ret (Some (text identifier_el, inpt))
   | [] =>
   match xpath_rel [WPS "Data"; WPS "ComplexData"] input_el with
   | complex_data_el :: _ =>
       value_el <- item0 (children complex_data_el) ;;
       let inpt : pydict :=
         <[Some (py "method") := VStr (attrib_get complex_data_el "method" (py "GET"))]>
        (<[Some (py "schema") := VStr (attrib_get complex_data_el "schema" [])]>
        (<[Some (py "encoding") := VStr (attrib_get complex_data_el "encoding" [])]>
        (<[Some (py "mime_type") := VStr (attrib_get complex_data_el "mimeType" [])]>
        (<[Some (py "data") := VElem value_el]>
        (<[Some (py "identifier") := VText (text identifier_el)]> ∅))))) in
       ret (Some (text identifier_el, inpt))
   | [] =>
   match xpath_rel [WPS "Reference"] input_el with
   | reference_data_el :: _ =>
       let href0 := attrib_get reference_data_el "href" [] in
       let href := if bool_decide (href0 = [])
                   then attrib_get reference_data_el xlink_href []
                   else href0 in
       let inpt : pydict :=
         <[Some (py "mimeType") := VStr (attrib_get reference_data_el "mimeType" [])]>
        (<[Some (py "href") := VStr href]>
        (<[text identifier_el := VText (text reference_data_el)]>
        (<[Some (py "identifier") := VText (text identifier_el)]> ∅))) in
       ret (Some (text identifier_el, inpt))
   | [] => ret None
   end end end)%py.

Fixpoint get_input_loop (els : list Element)
    (the_input : gmap (option pystr) pydict)
    : Py unit (gmap (option pystr) pydict) :=
  match els with
  | [] => ret the_input
  | input_el :: els' =>
      (entry <- input_from_xml input_el ;;
       match entry with
       | Some (k, inpt) => get_input_loop els' (<[k := inpt]> the_input)
       | None => get_input_loop els' the_input
       end)%py
  end.

(** [get_input_from_xml(doc)] *)
Definition get_input_from_xml (doc : Element)
    : Py unit (gmap (option pystr) pydict) :=
  get_input_loop (xpath_abs [WPS "Execute"; WPS "DataInputs"; WPS "Input"] doc) ∅.

Definition response_document_output (output_el : Element)
    : Py unit (option pystr * pydict) :=
  (identifier_el <- unpack_one (xpath_rel [OWS "Identifier"] output_el) ;;
   let outpt : pydict :=
     <[Some (py "asReference") := VStr (attrib_get output_el "asReference" (py "false"))]>
    (<[text identifier_el := VStr []]> ∅) in
   ret (text identifier_el, outpt))%py.

Definition raw_data_output (output_el : Element)
    : Py unit (option pystr * pydict) :=
  (identifier_el <- unpack_one (xpath_rel [OWS "Identifier"] output_el) ;;
   let outpt : pydict :=
     <[Some (py "uom") := VStr (attrib_get output_el "uom" [])]>
    (<[Some (py "schema") := VStr (attrib_get output_el "schema" [])]>
    (<[Some (py "encoding") := VStr (attrib_get output_el "encoding" [])]>
    (<[Some (py "mimetype") := VStr (attrib_get output_el "mimeType" [])]>
    (<[text identifier_el := VStr []]> ∅)))) in
   ret (text identifier_el, outpt))%py.

Fixpoint get_output_loop (f : Element -> Py unit (option pystr * pydict))
    (els : list Element) (the_output : gmap (option pystr) pydict)
    : Py unit (gmap (option pystr) pydict) :=
  match els with
  | [] => ret the_output
  | output_el :: els' =>
      (entry <- f output_el ;;
       get_output_loop f els' (<[entry.1 := entry.2]> the_output))%py
  end.

Definition path_ResponseDocument : list QName :=
  [WPS "Execute"; WPS "ResponseForm"; WPS "ResponseDocument"].

Definition path_RawDataOutput : list QName :=
  [WPS "Execute"; WPS "ResponseForm"; WPS "RawDataOutput"].

(** [get_output_from_xml(doc)] *)
Definition get_output_from_xml (doc : Element)
    : Py unit (gmap (option pystr) pydict) :=
  match xpath_abs path_ResponseDocument doc with
  | _ :: _ =>
      get_output_loop response_document_output
        (xpath_abs (path_ResponseDocument ++ [WPS "Output"]) doc) ∅
  | [] =>
      match xpath_abs path_RawDataOutput doc with
      | _ :: _ =>
          get_output_loop raw_data_output (xpath_abs path_RawDataOutput doc) ∅
      | [] => ret ∅
      end
  end.

(** [(a, b) = l]: unpacking a list of exactly two elements. *)
Definition unpack_pair (l : list pystr) : option (pystr * pystr) :=
  match l with
  | [a; b] => Some (a, b)
  | _ => None
  end.

(** The loop [for attr in fields[1:]] of [get_data_from_kvp]; [None]
    when an attribute does not unpack. *)
Fixpoint kvp_attributes (attrs : list pystr) (io : pydict) : option pydict :=
  match attrs with
  | [] => Some io
  | attr :: attrs' =>
      match unpack_pair (split "=" attr) with
      | Some (attribute, attr_val) =>
          kvp_attributes attrs' (<[Some attribute := VStr attr_val]> io)
      | None => None
      end
  end.

(** The body of the loop of [get_data_from_kvp] for one entry [d]: the
    [try] block, and the entry the bare [except] adds when it fails. *)
Definition kvp_entry (d : pystr) : pystr * pydict :=
  let failed : pystr * pydict :=
    (d, <[Some (py "data") := VStr []]> {[ Some (py "identifier") := VStr d ]}) in
  match split "@" d with
  | first :: attrs =>
      match unpack_pair (split "=" first) with
      | Some (identifier, val) =>
          match kvp_attributes attrs
                  (<[Some (py "data") := VStr val]>
                     {[ Some (py "identifier") := VStr identifier ]}) with
          | Some io => (identifier, io)
          | None => failed
          end
      | None => failed
      end
  | [] => failed
  end.

(** [get_data_from_kvp(data)] *)
Definition get_data_from_kvp (data : option pystr)
    : option (gmap (option pystr) pydict) :=
  match data with
  | None => None
  | Some data =>
      Some (foldl (fun the_data d =>
                     let '(k, io) := kvp_entry d in <[Some k := io]> the_data)
                  ∅ (split ";" data))
  end.

(** The request the HTTP layer hands over: the method, the query
    arguments in the order of the URL, and the body as [lxml] parses it
    ([None] when it is not well-formed). *)
Record HttpRequest := {
  http_method : pystr;
  http_args : list (pystr * pystr);
  http_body : option Element;
}.

(** [args.keys()]: each key once, in the order of first appearance. *)
Fixpoint args_keys (seen : list pystr) (args : list (pystr * pystr)) : list pystr :=
  match args with
  | [] => []
  | (k, _) :: args' =>
      if bool_decide (k ∈ seen) then args_keys seen args'
      else k :: args_keys (k :: seen) args'
  end.

(** [args.get(k)]: the first value given for [k]. *)
Definition args_get (args : list (pystr * pystr)) (k : pystr) : option pystr :=
  snd <$> find (fun kv => bool_decide (kv.1 = k)) args.

(** The [inputs] attribute of a request: [None], the dictionaries the
    parsers build, or the input objects [Service.execute] puts in their
    place. *)
Inductive RequestInputs :=
| InputsNone
| InputsRaw (m : gmap (option pystr) pydict)
| InputsParsed (m : gmap (option pystr) DataInput).

(** The attributes of a [WPSRequest].  The constructor sets only those
    of the operation at hand; the others hold the values of
    [empty_request]. *)
Record WPSRequest := {
  req_operation : pystr;
  req_version : option pystr;
  req_identifier : option pystr;
  req_identifiers : option (list (option pystr));
  req_lineage : pystr;
  req_store_execute : pystr;
  req_status : pystr;
  req_inputs : RequestInputs;
  req_outputs : gmap (option pystr) pydict;
  req_raw : bool;
}.

Definition empty_request (operation : pystr) : WPSRequest :=
  {| req_operation := operation; req_version := None; req_identifier := None;
     req_identifiers := None; req_lineage := []; req_store_execute := [];
     req_status := []; req_inputs := InputsNone; req_outputs := ∅;
     req_raw := false |}.

Module WPSRequest.

Definition version_message (v : pystr) : pystr :=
  py "The requested version " ++ [34%N] ++ v ++ [34%N]
     ++ py " is not supported by this server".

(** The version check shared by DescribeProcess and Execute. *)
Definition check_version (doc : Element) : Py unit pystr :=
  match attrib doc !! "version"%string with
  | None => raise (MissingParameterValue (py "Missing version") (VStr (py "version")))
  | Some v =>
      if bool_decide (v = []) then
        raise (MissingParameterValue (py "Missing version") (VStr (py "version")))
      else if bool_decide (v = py "1.0.0") then ret v
      else raise (VersionNegotiationFailed (version_message v) (VStr (py "version")))
  end.

(** The branch [doc.tag == WPS.Execute().tag] of [__init__]. *)
Definition post_execute (doc : Element) : Py unit WPSRequest :=
  (version <- check_version doc ;;
   identifier_el <- item0 (xpath_rel [OWS "Identifier"] doc) ;;
   let identifier := text identifier_el in
   let lineage := py "false" in
   let store_execute := py "false" in
   let status := py "false" in
   inputs <- get_input_from_xml doc ;;
   outputs <- get_output_from_xml doc ;;
   let raw := false in
   let '(raw, store_execute) :=
     match xpath_abs path_RawDataOutput doc with
     | _ :: _ => (true, py "false")
     | [] => (raw, store_execute)
     end in
   let response_document := xpath_rel [WPS "ResponseForm"; WPS "ResponseDocument"] doc in
   let '(lineage, store_execute, status) :=
     match response_document with
     | rd :: _ =>
         (attrib_get rd "lineage" (py "false"),
          attrib_get rd "storeExecuteResponse" (py "false"),
          attrib_get rd "status" (py "false"))
     | [] => (lineage, store_execute, status)
     end in
   ret {| req_operation := py "execute"; req_version := Some version;
          req_identifier := identifier; req_identifiers := None;
          req_lineage := lineage; req_store_execute := store_execute;
          req_status := status; req_inputs := InputsRaw inputs;
          req_outputs := outputs; req_raw := raw |})%py.

(** [_get_get_param(key, default)] *)
Definition _get_get_param (http_request : HttpRequest) (key : string)
    (dflt : option pystr) : option pystr :=
  foldl (fun value k =>
           if bool_decide (lower k = lower (py key))
           then args_get (http_args http_request) k
           else value)
        dflt (args_keys [] (http_args http_request)).

(** [_get_get_param(key, aslist=True)] *)
Definition _get_get_param_aslist (http_request : HttpRequest) (key : string)
    : option (list pystr) :=
  split "," <$> _get_get_param http_request key None.

(** The version check of the GET branches. *)
Definition check_get_version (http_request : HttpRequest) : Py unit pystr :=
  match _get_get_param http_request "version" None with
  | None => raise (MissingParameterValue (py "Missing version") (VStr (py "version")))
  | Some v =>
      if bool_decide (v = []) then
        raise (MissingParameterValue (py "Missing version") (VStr (py "version")))
      else if bool_decide (v = py "1.0.0") then ret v
      else raise (VersionNegotiationFailed (version_message v) (VStr (py "version")))
  end.

Definition nonempty_dict (d : option (gmap (option pystr) pydict)) : bool :=
  match d with
  | Some m => negb (bool_decide (m = ∅))
  | None => false
  end.

(** The branch [self.operation == 'execute'] of the GET request. *)
Definition get_execute (http_request : HttpRequest) : Py unit WPSRequest :=
  (version <- check_get_version http_request ;;
   let identifier := _get_get_param http_request "identifier" None in
   let store_execute :=
     default [] (_get_get_param http_request "storeExecuteResponse" (Some (py "false"))) in
   let status := default [] (_get_get_param http_request "status" (Some (py "false"))) in
   let lineage := default [] (_get_get_param http_request "lineage" (Some (py "false"))) in
   let inputs := get_data_from_kvp (_get_get_param http_request "DataInputs" None) in
   let resp_outputs :=
     get_data_from_kvp (_get_get_param http_request "ResponseDocument" None) in
   let raw_outputs :=
     get_data_from_kvp (_get_get_param http_request "RawDataOutput" None) in
   let '(outputs, raw, store_execute, status) :=
     if nonempty_dict resp_outputs then
       (default ∅ resp_outputs, false, store_execute, status)
     else if nonempty_dict raw_outputs then
       (default ∅ raw_outputs, true, py "false", py "false")
     else (∅, false, store_execute, status) in
   ret {| req_operation := py "execute"; req_version := Some version;
          req_identifier := identifier; req_identifiers := None;
          req_lineage := lineage; req_store_execute := store_execute;
          req_status := status;
          req_inputs := match inputs with
                        | Some m => InputsRaw m
                        | None => InputsNone
                        end;
          req_outputs := outputs; req_raw := raw |})%py.

(** The branch [http_request.method == 'GET'] of [__init__]. *)
Definition init_get (http_request : HttpRequest) : Py unit WPSRequest :=
  match _get_get_param http_request "WSDL" None with
  | Some _ => raise (NoApplicableCode (py "WSDL not implemented"))
  | None =>
  match _get_get_param http_request "service" None with
  | None => raise (MissingParameterValue (py "service") (VStr (py "service")))
  | Some service =>
  if bool_decide (service = []) then
    raise (MissingParameterValue (py "service") (VStr (py "service")))
  else if negb (bool_decide (lower service = py "wps")) then
    raise (OperationNotSupported
             (py "parameter SERVICE [" ++ service ++ py "] not supported"))
  else
  match _get_get_param http_request "request" None with
  | None => raise (MissingParameterValue (py "Missing request value") (VStr (py "request")))
  | Some operation0 =>
  if bool_decide (operation0 = []) then
    raise (MissingParameterValue (py "Missing request value") (VStr (py "request")))
  else
  let operation := lower operation0 in
  if bool_decide (operation = py "getcapabilities") then
    ret (empty_request operation)
  else if bool_decide (operation = py "describeprocess") then
    (version <- check_get_version http_request ;;
     let r := empty_request operation in
     ret {| req_operation := req_operation r; req_version := Some version;
            req_identifier := req_identifier r;
            req_identifiers :=
              map Some <$> _get_get_param_aslist http_request "identifier";
            req_lineage := req_lineage r; req_store_execute := req_store_execute r;
            req_status := req_status r; req_inputs := req_inputs r;
            req_outputs := req_outputs r; req_raw := req_raw r |})%py
  else if bool_decide (operation = py "execute") then get_execute http_request
  else raise (InvalidParameterValue (py "Unknown request " ++ repr (Some operation))
                                    (VStr (py "request")))
  end end end.

(** [WPSRequest.__init__] for a POST request whose body parses to
    [doc]. *)
Definition init_post (env : Env) (doc : Element) : Py unit WPSRequest :=
  if decide (tag doc = WPS "GetCapabilities") then
    ret (empty_request (py "getcapabilities"))
  else if decide (tag doc = WPS "DescribeProcess") then
    (version <- check_version doc ;;
     let r := empty_request (py "describeprocess") in
     ret {| req_operation := req_operation r; req_version := Some version;
            req_identifier := req_identifier r;
            req_identifiers := Some (map text (xpath_rel [OWS "Identifier"] doc));
            req_lineage := req_lineage r; req_store_execute := req_store_execute r;
            req_status := req_status r; req_inputs := req_inputs r;
            req_outputs := req_outputs r; req_raw := req_raw r |})%py
  else if decide (tag doc = WPS "Execute") then post_execute doc
  else raise (InvalidParameterValue (tag_str env (tag doc)) VNone).

(** [WPSRequest.__init__(http_request)] *)
Definition init (env : Env) (http_request : HttpRequest) : Py unit WPSRequest :=
  if bool_decide (http_method http_request = py "GET") then init_get http_request
  else if bool_decide (http_method http_request = py "POST") then
    match http_body http_request with
    | Some doc => init_post env doc
    | None => raise (PythonError "XMLSyntaxError" (py "Document is not well-formed"))
    end
  else raise MethodNotAllowed.

End WPSRequest.

(* ================================================================== *)
(** * [pywps/app.py]: resolving the submitted inputs *)
(* ================================================================== *)

(** [ComplexInput(identifier, '', None)] *)
Definition new_ComplexInput (env : Env) (identifier : PyVal) : ComplexInput :=
  {| ci_identifier := identifier; ci_data_format := None; ci_method := VNone;
     ci_max_megabytes := initial_max_megabytes env; ci_file := None;
     ci_url := None; ci_as_reference := false; ci_data := VNone |}.

Definition file_size_message (max_megabytes : Z) : pystr :=
  py "File size for input exceeded. Maximum allowed: "
     ++ str_of_Z max_megabytes ++ py " megabytes".

(** [len(data.encode('utf-8'))] *)
Definition encoded_length {S} (data : PyVal) : Py S Z :=
  match data with
  | VStr s =>
      match encode_utf8 s with
      | Some bytes => ret (Z.of_nat (List.length bytes))
      | None => raise (PythonError "UnicodeEncodeError" (py "surrogates not allowed"))
      end
  | _ => raise (PythonError "AttributeError" (py "object has no attribute 'encode'"))
  end.

(** The [try] block that fetches a reference: the body and the
    [Content-Length] the transport announces, if any. *)
Definition fetch_reference (env : Env) (href : PyVal) : result (pystr * option Z) :=
  match href with
  | VStr url => urlopen env url
  | _ => Raise (PythonError "AttributeError" (py "not a URL"))
  end.

(** [parse_complex_inputs(inputs)] *)
Definition parse_complex_inputs (env : Env) (inputs : pydict) : Py FS ComplexInput :=
  (let data_input := new_ComplexInput env (dict_get inputs "identifier") in
   let data_format :=
     {| mime_type := dict_get inputs "mime_type";
        encoding := dict_get inputs "encoding";
        schema := dict_get inputs "schema" |} in
   let method := dict_get_default inputs "method" (VStr (py "GET")) in
   let href := dict_get_default inputs "href" VNone in
   if truthy href then
     let tmp_dir := get_config_value env "server" "tempPath" in
     tmp_file <- mkstemp [] (py "tmp") tmp_dir ;;
     fetched <- match fetch_reference env href with
                | Ok x => ret x
                | Raise e =>
                    if is_Exception e then
                      raise (NoApplicableCode
                               (py "File reference error: " ++ exception_str env e))
                    else raise e
                end ;;
     let '(reference_file_data, content_length) := fetched in
     let data_size := match content_length with
                      | Some n => n
                      | None => Z.of_nat (List.length reference_file_data)
                      end in
     let max_megabytes := calculated_max_megabytes env in
     let byte_size := max_megabytes * 1024 * 1024 in
     if bool_decide (data_size > byte_size) then
       raise (FileSizeExceeded (file_size_message max_megabytes)
                               (dict_get inputs "identifier"))
     else
       try_except
         (match encode_utf8 reference_file_data with
          | Some bytes => write_file tmp_file bytes
          | None => raise (PythonError "UnicodeEncodeError" (py "surrogates not allowed"))
          end)
         (fun e => raise (NoApplicableCode (exception_str env e))) ;;;
       ret {| ci_identifier := ci_identifier data_input;
              ci_data_format := Some data_format; ci_method := method;
              ci_max_megabytes := max_megabytes; ci_file := Some tmp_file;
              ci_url := match href with VStr u => Some u | _ => None end;
              ci_as_reference := true; ci_data := ci_data data_input |}
   else
     let data := dict_get inputs "data" in
     let byte_size := ci_max_megabytes data_input * 1024 * 1024 in
     n <- encoded_length data ;;
     if bool_decide (n > byte_size) then
       raise (FileSizeExceeded (file_size_message (ci_max_megabytes data_input))
                               (dict_get inputs "identifier"))
     else
       ret {| ci_identifier := ci_identifier data_input;
              ci_data_format := Some data_format; ci_method := method;
              ci_max_megabytes := ci_max_megabytes data_input;
              ci_file := ci_file data_input; ci_url := ci_url data_input;
              ci_as_reference := ci_as_reference data_input; ci_data := data |})%py.

(** [parse_literal_inputs(inputs)] *)
Definition parse_literal_inputs (inputs : pydict) : LiteralInput :=
  let data_type := dict_get inputs "datatype" in
  {| li_identifier := dict_get inputs "identifier";
     li_uom := dict_get inputs "uom";
     li_data_type := if truthy data_type then Some data_type else None;
     li_data := dict_get inputs "data" |}.

(* ================================================================== *)
(** * [pywps/app.py]: the objects of an execution *)
(* ================================================================== *)

(** The attributes of a [WPSResponse].  [resp_outputs] maps an
    identifier to the position of the output object in
    [Process.outputs]: the dictionary holds the process's own objects,
    not copies. *)
Record WPSResponse := {
  resp_wps_request : WPSRequest;
  resp_outputs : gmap pystr nat;
  resp_message : pystr;
  resp_status : Z;
  resp_status_percentage : Z;
  resp_doc : option Element;
}.

(** One entry of a traceback: [tb_frame.f_code.co_filename],
    [tb_frame.f_code.co_name] and [tb_lineno]. *)
Record Frame := {
  co_filename : pystr;
  co_name : pystr;
  tb_lineno : Z;
}.

(** How a call of the handler ends: it returns a response object, it
    returns an object of another type, which has none of the attributes
    of a response ([None] when the handler has no [return]; [type_name]
    is the name of the type, ['NoneType'] for [None]), or it raises,
    with the traceback entries from the handler's own frame
    downwards. *)
Inductive HandlerEnd :=
| ReturnsResponse
| ReturnsObject (type_name : pystr)
| Raises (e : PyException) (frames : list Frame).

(** What a run of the handler leaves behind: the response object (the
    one it returns, or the one it was given when it does not return
    one), the output objects, the files, and how the call ended. *)
Record HandlerOutcome := {
  h_response : WPSResponse;
  h_outputs : list Output;
  h_fs : FS;
  h_end : HandlerEnd;
}.

(** The handler of a process: user code, called with the request and
    the response; it may change the response, the output objects and
    the files. *)
Definition Handler : Type :=
  WPSRequest -> WPSResponse -> list Output -> FS -> HandlerOutcome.

(** The attributes of a [Process]. *)
Record Process := {
  proc_identifier : pystr;
  proc_handler : Handler;
  proc_title : pystr;
  proc_abstract : pystr;
  proc_metadata : list pystr;
  proc_profile : pystr;
  proc_wsdl : pystr;
  proc_version : pystr;
  proc_inputs : list Input;
  proc_outputs : list Output;
  proc_uuid : option pystr;
  proc_status_location : pystr;
  proc_status_url : pystr;
  proc_store_supported : pystr;
  proc_status_supported : pystr;
}.

Definition set_proc_uuid (u : option pystr) (p : Process) : Process :=
  {| proc_identifier := proc_identifier p; proc_handler := proc_handler p;
     proc_title := proc_title p; proc_abstract := proc_abstract p;
     proc_metadata := proc_metadata p; proc_profile := proc_profile p;
     proc_wsdl := proc_wsdl p; proc_version := proc_version p;
     proc_inputs := proc_inputs p; proc_outputs := proc_outputs p;
     proc_uuid := u; proc_status_location := proc_status_location p;
     proc_status_url := proc_status_url p;
     proc_store_supported := proc_store_supported p;
     proc_status_supported := proc_status_supported p |}.

Definition set_proc_status_files (location url : pystr) (p : Process) : Process :=
  {| proc_identifier := proc_identifier p; proc_handler := proc_handler p;
     proc_title := proc_title p; proc_abstract := proc_abstract p;
     proc_metadata := proc_metadata p; proc_profile := proc_profile p;
     proc_wsdl := proc_wsdl p; proc_version := proc_version p;
     proc_inputs := proc_inputs p; proc_outputs := proc_outputs p;
     proc_uuid := proc_uuid p; proc_status_location := location;
     proc_status_url := url;
     proc_store_supported := proc_store_supported p;
     proc_status_supported := proc_status_supported p |}.

Definition set_proc_outputs (os : list Output) (p : Process) : Process :=
  {| proc_identifier := proc_identifier p; proc_handler := proc_handler p;
     proc_title := proc_title p; proc_abstract := proc_abstract p;
     proc_metadata := proc_metadata p; proc_profile := proc_profile p;
     proc_wsdl := proc_wsdl p; proc_version := proc_version p;
     proc_inputs := proc_inputs p; proc_outputs := os;
     proc_uuid := proc_uuid p; proc_status_location := proc_status_location p;
     proc_status_url := proc_status_url p;
     proc_store_supported := proc_store_supported p;
     proc_status_supported := proc_status_supported p |}.

Definition set_resp_message (m : pystr) (r : WPSResponse) : WPSResponse :=
  {| resp_wps_request := resp_wps_request r; resp_outputs := resp_outputs r;
     resp_message := m; resp_status := resp_status r;
     resp_status_percentage := resp_status_percentage r; resp_doc := resp_doc r |}.

Definition set_resp_status (st : Z) (r : WPSResponse) : WPSResponse :=
  {| resp_wps_request := resp_wps_request r; resp_outputs := resp_outputs r;
     resp_message := resp_message r; resp_status := st;
     resp_status_percentage := resp_status_percentage r; resp_doc := resp_doc r |}.

Definition set_resp_status_percentage (n : Z) (r : WPSResponse) : WPSResponse :=
  {| resp_wps_request := resp_wps_request r; resp_outputs := resp_outputs r;
     resp_message := resp_message r; resp_status := resp_status r;
     resp_status_percentage := n; resp_doc := resp_doc r |}.

Definition set_resp_doc (d : option Element) (r : WPSResponse) : WPSResponse :=
  {| resp_wps_request := resp_wps_request r; resp_outputs := resp_outputs r;
     resp_message := resp_message r; resp_status := resp_status r;
     resp_status_percentage := resp_status_percentage r; resp_doc := d |}.

(** What the executor leaves for an observer: the handler was called,
    or a task running [_run_process] was started on copies of the
    process, the request and the response. *)
Inductive Event :=
| HandlerInvoked (identifier : pystr)
| TaskStarted (process : Process) (wps_request : WPSRequest)
              (wps_response : WPSResponse).

Record World := {
  fs : FS;
  trace : list Event;
}.

Definition set_fs (f : FS) (w : World) : World := {| fs := f; trace := trace w |}.

Definition log_event (e : Event) (w : World) : World :=
  {| fs := fs w; trace := trace w ++ [e] |}.

(** Running a filesystem computation in the world. *)
Definition in_fs {A} (m : Py FS A) : Py World A :=
  fun w => let '(f, r) := m (fs w) in (set_fs f w, r).

(** Running a computation that fails or not, without state. *)
Definition pure_py {S A} (m : Py unit A) : Py S A :=
  fun s => (s, (m tt).2).

(** Running a response method on the pair of the response and the
    files, the two things it changes. *)
Definition on_response (f : WPSResponse -> WPSResponse) : Py (WPSResponse * FS) unit :=
  fun '(self, files) => ((f self, files), Ok tt).

Definition on_files {A} (m : Py FS A) : Py (WPSResponse * FS) A :=
  fun '(self, files) => let '(files', r) := m files in ((self, files'), r).

(** [for x in l: ys.append(f x)] where [f] may raise. *)
Fixpoint mapM {S A B} (f : A -> Py S B) (l : list A) : Py S (list B) :=
  match l with
  | [] => ret []
  | x :: l' => (y <- f x ;; ys <- mapM f l' ;; ret (y :: ys))%py
  end.

Module WPSResponse.

Definition NO_STATUS : Z := 0.
Definition STORE_STATUS : Z := 1.
Definition STORE_AND_UPDATE_STATUS : Z := 2.

(** [{o.identifier: o for o in process.outputs}] *)
Fixpoint index_outputs (outs : list Output) (i : nat) (m : gmap pystr nat)
    : gmap pystr nat :=
  match outs with
  | [] => m
  | o :: outs' => index_outputs outs' (S i) (<[out_identifier o := i]> m)
  end.

(** [WPSResponse.__init__(process, wps_request)] *)
Definition init (process : Process) (wps_request : WPSRequest) : WPSResponse :=
  {| resp_wps_request := wps_request;
     resp_outputs := index_outputs (proc_outputs process) 0 ∅;
     resp_message := [];
     resp_status := NO_STATUS;
     resp_status_percentage := 0;
     resp_doc := None |}.

Definition write_failed_message : pystr :=
  py "Writing Response Document failed with : No such file or directory".

(** [write_response_doc(doc)]: the file is opened first, then the
    document serialised into it; only [IOError] is translated. *)
Definition write_response_doc (env : Env) (process : Process)
    (doc : option Element) : Py FS unit :=
  fun files_ =>
    let location := proc_status_location process in
    if can_open_w location files_ then
      match doc with
      | Some d => write_file location (tostring env d) files_
      | None =>
          (set_files (<[location := []]> (files files_)) files_,
           Raise (PythonError "TypeError" (py "Type 'NoneType' cannot be serialized.")))
      end
    else (files_, Raise (NoApplicableCode write_failed_message)).

Definition text_element (q : QName) (t : pystr) : Element := Elem q ∅ (Some t) [].

Definition status_element (env : Env) (inner : Element) : Element :=
  Elem (WPS "Status") {[ "creationTime"%string := strftime_now env ]} None [inner].

Definition _process_accepted (env : Env) (self : WPSResponse) : Element :=
  status_element env (text_element (WPS "ProcessAccepted") (resp_message self)).

Definition _process_started (env : Env) (self : WPSResponse) : Element :=
  status_element env
    (Elem (WPS "ProcessStarted")
          {[ "percentCompleted"%string := str_of_Z (resp_status_percentage self) ]}
          (Some (resp_message self)) []).

Definition _process_paused (env : Env) (self : WPSResponse) : Element :=
  status_element env
    (Elem (WPS "ProcessPaused")
          {[ "percentCompleted"%string := str_of_Z (resp_status_percentage self) ]}
          (Some (resp_message self)) []).

Definition _process_succeeded (env : Env) (self : WPSResponse) : Element :=
  status_element env (text_element (WPS "ProcessSucceeded") (resp_message self)).

Definition _process_failed (env : Env) (self : WPSResponse) : Element :=
  status_element env
    (Elem (WPS "ProcessFailed") ∅ None
       [Elem (WPS "ExceptionReport") ∅ None
          [Elem (OWS "Exception")
                (<[ "locater"%string := py "None" ]>
                   {[ "exceptionCode"%string := py "NoApplicableCode" ]})
                None
                [text_element (OWS "Exception") (resp_message self)]]]).

Definition schemaLocation : string :=
  "{http://www.w3.org/2001/XMLSchema-instance}schemaLocation".
Definition xml_lang : string := "{http://www.w3.org/XML/1998/namespace}lang".
Definition processVersion : string :=
  "{http://www.opengis.net/wps/1.0.0}processVersion".

(** [doc = WPS.ExecuteResponse()] and its fixed attributes. *)
Definition root_element (env : Env) : Element :=
  attrib_set "serviceInstance"
    (fmt3 (get_config_value env "wps" "serveraddress")
          (get_config_value env "wps" "serverport")
          (py "/wps?service=wps&request=getcapabilities"))
 (attrib_set xml_lang (py "en-CA")
 (attrib_set "version" (py "1.0.0")
 (attrib_set "service" (py "WPS")
 (attrib_set schemaLocation
    (py "http://www.opengis.net/wps/1.0.0 http://schemas.opengis.net/wps/1.0.0/wpsDescribeProcess_response.xsd")
    (Elem (WPS "ExecuteResponse") ∅ None []))))).

(** The part of [_construct_doc] before the status: the root, the
    status location, the process description. *)
Definition process_part (env : Env) (process : Process) (self : WPSResponse)
    : Element :=
  let doc := root_element env in
  let doc :=
    if bool_decide (STORE_STATUS <= resp_status self) then
      if negb (bool_decide (proc_status_location process = []))
      then attrib_set "statusLocation" (proc_status_url process) doc
      else doc
    else doc in
  let process_doc :=
    Elem (WPS "Process") ∅ None
      [text_element (OWS "Identifier") (proc_identifier process);
       text_element (OWS "Title") (proc_title process)] in
  let doc :=
    if negb (bool_decide (proc_abstract process = []))
    then append (text_element (OWS "Abstract") (proc_abstract process)) doc
    else doc in
  let doc := extend (map (text_element (OWS "Metadata")) (proc_metadata process)) doc in
  let doc :=
    if negb (bool_decide (proc_profile process = []))
    then append (text_element (OWS "Profile") (proc_profile process)) doc
    else doc in
  let doc :=
    if negb (bool_decide (proc_wsdl process = []))
    then append (text_element (OWS "WSDL") (proc_wsdl process)) doc
    else doc in
  let process_doc := attrib_set processVersion (proc_version process) process_doc in
  append process_doc doc.

(** [[self.wps_request.inputs[i].execute_xml() for i in self.wps_request.inputs]] *)
Definition lineage_inputs {S} (env : Env) (self : WPSResponse) : Py S (list Element) :=
  match req_inputs (resp_wps_request self) with
  | InputsParsed m => ret (map (fun kv => input_execute_xml env kv.2) (map_to_list m))
  | InputsRaw m =>
      if bool_decide (m = ∅) then ret []
      else raise (PythonError "AttributeError"
                    (py "'dict' object has no attribute 'execute_xml'"))
  | InputsNone =>
      raise (PythonError "TypeError" (py "'NoneType' object is not iterable"))
  end.

(** [self.outputs[o]] for every key [o]: the output objects the
    dictionary refers to. *)
Definition output_objects {S} (process : Process) (self : WPSResponse)
    : Py S (list Output) :=
  mapM (fun kv : pystr * nat =>
          match proc_outputs process !! kv.2 with
          | Some o => ret o
          | None => raise (PythonError "KeyError" kv.1)
          end)
       (map_to_list (resp_outputs self)).

(** [_construct_doc()] *)
Definition _construct_doc (env : Env) (process : Process)
    : Py (WPSResponse * FS) Element :=
  fun '(self, files_) =>
    let doc := process_part env process self in
    if bool_decide (STORE_AND_UPDATE_STATUS <= resp_status self)
       && bool_decide (resp_status_percentage self = 0) then
      let self := set_resp_message
                    (py "PyWPS Process " ++ proc_identifier process ++ py " accepted")
                    self in
      let doc := append (_process_accepted env self) doc in
      let '(files', r) := write_response_doc env process (Some doc) files_ in
      match r with
      | Ok _ => ((self, files'), Ok doc)
      | Raise e => ((self, files'), Raise e)
      end
    else if bool_decide (STORE_AND_UPDATE_STATUS <= resp_status self)
            && bool_decide (0 < resp_status_percentage self < 100) then
      ((self, files_), Ok (append (_process_started env self) doc))
    else if bool_decide (resp_status_percentage self = -1) then
      ((self, files_), Ok (append (_process_failed env self) doc))
    else
      (let doc := append (_process_succeeded env self) doc in
       doc <- (if bool_decide (req_lineage (resp_wps_request self) = py "true") then
                 data_inputs <- lineage_inputs env self ;;
                 let doc := append (Elem (WPS "DataInputs") ∅ None data_inputs) doc in
                 outs <- output_objects process self ;;
                 ret (append (Elem (WPS "OutputDefinitions") ∅ None
                                (map (output_describe_xml env) outs)) doc)
               else ret doc) ;;
       outs <- output_objects process self ;;
       ret (append (Elem (WPS "ProcessOutputs") ∅ None
                      (map (output_execute_xml env) outs)) doc))%py
      (self, files_).

(** [update_status(message, status_percentage=None)] *)
Definition update_status (env : Env) (process : Process) (message : pystr)
    (status_percentage : option Z) : Py (WPSResponse * FS) unit :=
  (on_response (set_resp_message message) ;;;
   match status_percentage with
   | Some n =>
       if bool_decide (n <> 0) then
         on_response (set_resp_status_percentage n) ;;;
         doc <- _construct_doc env process ;;
         on_response (set_resp_doc (Some doc))
       else ret tt
   | None => ret tt
   end ;;;
   st <- get_state ;;
   if bool_decide (STORE_STATUS <= resp_status st.1) then
     on_files (write_response_doc env process (resp_doc st.1))
   else ret tt)%py.

(** [__call__(request)]: the document that is sent back. *)
Definition call (env : Env) (process : Process) : Py (WPSResponse * FS) Element :=
  _construct_doc env process.

End WPSResponse.

(** [capabilities_xml()] of a process: here the optional children go
    under the [Process] element itself. *)
Definition capabilities_xml (self : Process) : Element :=
  let doc :=
    Elem (WPS "Process") ∅ None
      [WPSResponse.text_element (OWS "Identifier") (proc_identifier self);
       WPSResponse.text_element (OWS "Title") (proc_title self)] in
  let doc :=
    if negb (bool_decide (proc_abstract self = []))
    then append (WPSResponse.text_element (OWS "Abstract") (proc_abstract self)) doc
    else doc in
  let doc :=
    extend (map (WPSResponse.text_element (OWS "Metadata")) (proc_metadata self)) doc in
  let doc :=
    if negb (bool_decide (proc_profile self = []))
    then append (WPSResponse.text_element (OWS "Profile") (proc_profile self)) doc
    else doc in
  let doc :=
    if negb (bool_decide (proc_wsdl self = []))
    then append (WPSResponse.text_element (OWS "WSDL") (proc_wsdl self)) doc
    else doc in
  if negb (bool_decide (proc_version self = py "None"))
  then attrib_set WPSResponse.processVersion (proc_version self) doc
  else doc.

Definition xlink_title : string := "{http://www.w3.org/1999/xlink}title".

(** [describe_xml()] of a process.  [input_describe_xml] is the
    [describe_xml()] of a declared input, a method of the classes of
    [pywps.inputs].  The loop over [self.profile] runs over the
    characters of a text. *)
Definition describe_xml (env : Env) (input_describe_xml : Input -> Element)
    (self : Process) : Element :=
  let input_elements := map input_describe_xml (proc_inputs self) in
  let output_elements := map (output_describe_xml env) (proc_outputs self) in
  let doc :=
    Elem (E "ProcessDescription") ∅ None
      [WPSResponse.text_element (OWS "Identifier") (proc_identifier self);
       WPSResponse.text_element (OWS "Title") (proc_title self)] in
  let doc := attrib_set WPSResponse.processVersion (proc_version self) doc in
  let doc :=
    if bool_decide (proc_store_supported self = py "true")
    then attrib_set "storeSupported" (proc_store_supported self) doc
    else doc in
  let doc :=
    if bool_decide (proc_status_supported self = py "true")
    then attrib_set "statusSupported" (proc_status_supported self) doc
    else doc in
  let doc :=
    if negb (bool_decide (proc_abstract self = []))
    then append (WPSResponse.text_element (OWS "Abstract") (proc_abstract self)) doc
    else doc in
  let doc :=
    extend (map (fun m => Elem (OWS "Metadata") {[ xlink_title := m ]} None [])
                (proc_metadata self)) doc in
  let doc :=
    extend (map (fun p => WPSResponse.text_element (WPS "Profile") [p])
                (proc_profile self)) doc in
  let doc :=
    if negb (bool_decide (proc_wsdl self = []))
    then append (Elem (WPS "WSDL") {[ xlink_href := proc_wsdl self ]} None []) doc
    else doc in
  let doc :=
    match input_elements with
    | [] => doc
    | _ :: _ => append (Elem (E "DataInputs") ∅ None input_elements) doc
    end in
  append (Elem (E "ProcessOutputs") ∅ None output_elements) doc.

Module Process.

(** [Process.__init__] *)
Definition init (handler : Handler) (identifier title abstract profile wsdl : pystr)
    (metadata : list pystr) (inputs : list Input) (outputs : list Output)
    (version : pystr) (store_supported status_supported : bool) : Process :=
  {| proc_identifier := identifier; proc_handler := handler;
     proc_title := title; proc_abstract := abstract;
     proc_metadata := metadata; proc_profile := profile;
     proc_wsdl := wsdl; proc_version := version;
     proc_inputs := inputs; proc_outputs := outputs;
     proc_uuid := None; proc_status_location := []; proc_status_url := [];
     proc_store_supported := if store_supported then py "true" else py "false";
     proc_status_supported := if status_supported then py "true" else py "false" |}.

(** The first entry of the traceback an [except] clause of
    [_run_process] sees: the frame of [_run_process] itself, at the line
    of the call that raised. *)
Definition own_frame (env : Env) (lineno : Z) : Frame :=
  {| co_filename := app_filename env; co_name := py "_run_process";
     tb_lineno := lineno |}.

(** The [while not found] loop: walk the traceback from [exc_tb] until
    a frame of a function named [_handler]; if there is none, go back to
    the first entry. *)
Fixpoint search_handler (first exc_tb : Frame) (tb_next : list Frame) : Frame :=
  if bool_decide (co_name exc_tb = py "_handler") then exc_tb
  else match tb_next with
       | next :: rest => search_handler first next rest
       | [] => first
       end.

(** ['Process error: %s.%s Line %i %s' % (fname, method_name, exc_tb.tb_lineno, e)] *)
Definition error_message (env : Env) (exc_tb : Frame) (e : PyException) : pystr :=
  let fname := (os_path_split (co_filename exc_tb)).2 in
  let method_name := co_name exc_tb in
  py "Process error: " ++ fname ++ py "." ++ method_name ++ py " Line "
     ++ str_of_Z (tb_lineno exc_tb) ++ py " " ++ exception_str env e.

(** Calling a method of the response from a method of the process. *)
Definition call_response {A} (m : Py (WPSResponse * FS) A)
    (wps_response : WPSResponse)
    : Process * World -> (Process * World) * WPSResponse * result A :=
  fun '(self, w) =>
    let '((r, f), res) := m (wps_response, fs w) in
    ((self, set_fs f w), r, res).

(** The [except Exception as e] clause of [_run_process]; [lineno] is
    the line of the [try] block the exception passed through and
    [frames] the traceback entries below. *)
Definition on_exception (env : Env) (lineno : Z) (frames : list Frame)
    (e : PyException) (wps_response : WPSResponse) : Py (Process * World) WPSResponse :=
  fun st =>
    let first := own_frame env lineno in
    let exc_tb := search_handler first first frames in
    let '(st', r, res) :=
      call_response
        (WPSResponse.update_status env st.1 (error_message env exc_tb e) (Some (-1)))
        wps_response st in
    match res with
    | Ok _ => (st', Ok r)
    | Raise e' => (st', Raise e')
    end.

(** The traceback entries below [_run_process] when the closing
    [update_status] raises: frames of functions of this file, none of
    which is named [_handler]. *)
Definition update_status_frames (env : Env) : list Frame :=
  [{| co_filename := app_filename env; co_name := py "update_status";
      tb_lineno := 418 |};
   {| co_filename := app_filename env; co_name := py "write_response_doc";
      tb_lineno := 428 |}].

(** The message of the [AttributeError] that reading or calling
    [name] on an object of type [type_name] raises. *)
Definition no_attribute (type_name : pystr) (name : string) : pystr :=
  py "'" ++ type_name ++ py "' object has no attribute '" ++ py name ++ py "'".

(** [_run_process(wps_request, wps_response)].  When the handler
    returns an object that is not a response, line 699 raises
    [AttributeError] on [status_percentage]; the [except] clause
    catches it, builds its message and calls [update_status] on the
    same object, at line 722, which raises [AttributeError] again,
    outside the [try] block. *)
Definition _run_process (env : Env) (wps_request : WPSRequest)
    (wps_response : WPSResponse) : Py (Process * World) WPSResponse :=
  fun '(self, w) =>
    let o := proc_handler self wps_request wps_response (proc_outputs self) (fs w) in
    let self := set_proc_outputs (h_outputs o) self in
    let w := log_event (HandlerInvoked (proc_identifier self)) (set_fs (h_fs o) w) in
    let wps_response := h_response o in
    match h_end o with
    | Raises e frames =>
        if is_Exception e then on_exception env 696 frames e wps_response (self, w)
        else ((self, w), Raise e)
    | ReturnsObject type_name =>
        ((self, w),
         Raise (PythonError "AttributeError" (no_attribute type_name "update_status")))
    | ReturnsResponse =>
        if bool_decide (resp_status_percentage wps_response <> 100) then
          let '(st', r, res) :=
            call_response
              (WPSResponse.update_status env self (py "PyWPS Process finished") (Some 100))
              wps_response (self, w) in
          match res with
          | Ok _ => (st', Ok r)
          | Raise e =>
              if is_Exception e then on_exception env 701 (update_status_frames env) e r st'
              else (st', Raise e)
          end
        else ((self, w), Ok wps_response)
    end.

Definition storage_message : pystr :=
  py "Process does not support the storing of the execute response".
Definition status_message : pystr :=
  py "Process does not support the updating of status".

(** The block of [execute] under [if wps_request.store_execute ==
    'true']: the process with its status files, the response with its
    level, and the [async] flag; or the exception raised, with the
    process as it is then. *)
Definition check_store (env : Env) (self : Process) (wps_request : WPSRequest)
    (wps_response : WPSResponse) : Process * result (WPSResponse * bool) :=
  if bool_decide (req_store_execute wps_request = py "true") then
    if bool_decide (proc_store_supported self <> py "true") then
      (self, Raise (StorageNotSupported storage_message))
    else
      let file_path := get_config_value env "server" "outputPath" in
      let file_url := fmt3 (get_config_value env "wps" "serveraddress")
                           (get_config_value env "wps" "serverport")
                           (get_config_value env "server" "outputUrl") in
      let uuid := default [] (proc_uuid self) in
      let self := set_proc_status_files
                    (os_path_join file_path uuid ++ py ".xml")
                    (os_path_join file_url uuid ++ py ".xml") self in
      if bool_decide (req_status wps_request = py "true") then
        if bool_decide (proc_status_supported self <> py "true") then
          (self, Raise (OperationNotSupported status_message))
        else
          (self, Ok (set_resp_status WPSResponse.STORE_AND_UPDATE_STATUS wps_response, true))
      else
        (self, Ok (set_resp_status WPSResponse.STORE_STATUS wps_response, false))
  else (self, Ok (wps_response, false)).

(** [execute(wps_request)]; [fresh_uuid] is the value of
    [str(uuid4())] in this call. *)
Definition execute (env : Env) (fresh_uuid : pystr) (wps_request : WPSRequest)
    : Py (Process * World) WPSResponse :=
  fun '(self, w) =>
    let self := set_proc_uuid (Some fresh_uuid) self in
    let async := false in
    let wps_response := WPSResponse.init self wps_request in
    match check_store env self wps_request wps_response with
    | (self, Raise e) => ((self, w), Raise e)
    | (self, Ok (wps_response, async)) =>
        if async then
          ((self, log_event (TaskStarted self wps_request wps_response) w),
           Ok wps_response)
        else _run_process env wps_request wps_response (self, w)
    end.

End Process.

(* ================================================================== *)
(** * [pywps/app.py]: the service *)
(* ================================================================== *)

(** The registry [{p.identifier: p for p in processes}]. *)
Record Service := {
  processes : gmap pystr Process;
}.

(** What [Service.execute] returns: [Response(proc_outpt.data)] for a
    raw request, the [WPSResponse] otherwise. *)
Inductive ServiceResponse :=
| RawResponse (data : PyVal)
| ExecuteResponse (wps_response : WPSResponse).

(** [xml_response(doc)]: the [text/xml] response whose body is the
    serialisation of [doc], kept as the document it carries. *)
Inductive XmlResponse :=
| xml_response (doc : Element).

(** What the two files need to know of the exception classes of
    [werkzeug.exceptions] and [pywps.exceptions]: which instances
    [except HTTPException] catches, which of them are instances of
    [NoApplicableCode], and their [description] and [code]. *)
Record ExceptionClasses := {
  is_HTTPException : PyException -> bool;
  is_NoApplicableCode : PyException -> bool;
  exception_description : PyException -> pystr;
  exception_code : PyException -> Z;
}.

(** What [Service.__call__] returns: the response of one of the three
    operations, the exception it caught, or the
    [NoApplicableCode(e.description, code=e.code)] it made of it. *)
Inductive CallResponse :=
| CapabilitiesResponse (r : XmlResponse)
| DescribeResponse (r : XmlResponse)
| ExecuteResult (r : ServiceResponse)
| ErrorResponse (e : PyException)
| NoApplicableCodeResponse (description : pystr) (code : Z).

Definition set_as_reference (b : bool) (o : Output) : Output :=
  {| out_identifier := out_identifier o; out_as_reference := b;
     out_data := out_data o; out_file := out_file o;
     out_extension := out_extension o |}.

Module Service.

(** [Service.__init__(processes)] *)
Definition init (ps : list Process) : Service :=
  {| processes := foldl (fun m p => <[proc_identifier p := p]> m) ∅ ps |}.

Definition is_nil {A} (l : list A) : bool :=
  match l with
  | [] => true
  | _ :: _ => false
  end.

(** [wps_request.inputs is None] *)
Definition is_InputsNone (inputs : RequestInputs) : bool :=
  match inputs with
  | InputsNone => true
  | _ => false
  end.

(** [inpt.identifier not in wps_request.inputs] *)
Definition submitted (inputs : RequestInputs) (identifier : pystr) : bool :=
  match inputs with
  | InputsNone => false
  | InputsRaw m => bool_decide (is_Some (m !! Some identifier))
  | InputsParsed m => bool_decide (is_Some (m !! Some identifier))
  end.

(** [wps_request.inputs[inpt.identifier]], to be read with [.get]. *)
Definition submitted_dict (inputs : RequestInputs) (identifier : pystr)
    : Py FS pydict :=
  match inputs with
  | InputsRaw m =>
      match m !! Some identifier with
      | Some d => ret d
      | None => raise (PythonError "KeyError" identifier)
      end
  | InputsParsed _ =>
      raise (PythonError "AttributeError" (py "object has no attribute 'get'"))
  | InputsNone =>
      raise (PythonError "TypeError" (py "'NoneType' object is not subscriptable"))
  end.

(** The loop [for inpt in process.inputs] *)
Fixpoint parse_inputs (env : Env) (declared : list Input) (inputs : RequestInputs)
    (data_inputs : gmap (option pystr) DataInput)
    : Py FS (gmap (option pystr) DataInput) :=
  match declared with
  | [] => ret data_inputs
  | inpt :: declared' =>
      if is_InputsNone inputs then
        raise (PythonError "TypeError" (py "argument of type 'NoneType' is not iterable"))
      else if negb (submitted inputs (in_identifier inpt)) then
        raise (MissingParameterValue [] (VStr (in_identifier inpt)))
      else
        match in_class inpt with
        | IsComplexInput =>
            (d <- submitted_dict inputs (in_identifier inpt) ;;
             c <- parse_complex_inputs env d ;;
             parse_inputs env declared' inputs
               (<[Some (in_identifier inpt) := ComplexIn c]> data_inputs))%py
        | IsLiteralInput =>
            (d <- submitted_dict inputs (in_identifier inpt) ;;
             parse_inputs env declared' inputs
               (<[Some (in_identifier inpt) := LiteralIn (parse_literal_inputs d)]>
                  data_inputs))%py
        | IsOtherInput => parse_inputs env declared' inputs data_inputs
        end
  end.

(** The loop [for wps_outpt in wps_request.outputs], on the process
    whose output objects it marks. *)
Fixpoint mark_references (requested : list (option pystr * pydict))
    : Py Process unit :=
  match requested with
  | [] => ret tt
  | (wps_outpt, d) :: requested' =>
      fun process =>
        match dict_get_default d "asReference" (VStr (py "false")) with
        | VStr s =>
            if bool_decide (lower s = py "true")
               && bool_decide (proc_store_supported process = py "false") then
              (process,
               Raise (StorageNotSupported
                        (py "The storage of data is not supported for this process.")))
            else
              let is_reference := bool_decide (lower s = py "true") in
              mark_references requested'
                (set_proc_outputs
                   (map (fun outpt =>
                           if bool_decide (Some (out_identifier outpt) = wps_outpt)
                           then set_as_reference is_reference outpt
                           else outpt)
                        (proc_outputs process))
                   process)
        | _ =>
            (process,
             Raise (PythonError "AttributeError" (py "object has no attribute 'lower'")))
        end
  end.

(** The nested loops that pick the raw output: the first requested
    identifier, in the order of the request, that a declared output
    carries. *)
Definition raw_output (requested : list (option pystr)) (outs : list Output)
    : option Output :=
  head (flat_map
          (fun outpt =>
             filter (fun proc_outpt => outpt = Some (out_identifier proc_outpt)) outs)
          requested).

Definition set_req_inputs (i : RequestInputs) (r : WPSRequest) : WPSRequest :=
  {| req_operation := req_operation r; req_version := req_version r;
     req_identifier := req_identifier r; req_identifiers := req_identifiers r;
     req_lineage := req_lineage r; req_store_execute := req_store_execute r;
     req_status := req_status r; req_inputs := i;
     req_outputs := req_outputs r; req_raw := req_raw r |}.

(** The body of [execute] once the process is found. *)
Definition execute_process (env : Env) (fresh_uuid : pystr)
    (wps_request : WPSRequest) : Py (Process * World) ServiceResponse :=
  fun '(process, w) =>
    if negb (is_nil (proc_inputs process))
       && is_InputsNone (req_inputs wps_request) then
      ((process, w), Raise (MissingParameterValue [] (VStr (py "datainputs"))))
    else
    match in_fs (parse_inputs env (proc_inputs process) (req_inputs wps_request) ∅) w with
    | (w, Raise e) => ((process, w), Raise e)
    | (w, Ok data_inputs) =>
    let wps_request := set_req_inputs (InputsParsed data_inputs) wps_request in
    match (if req_raw wps_request then ret tt
           else mark_references (map_to_list (req_outputs wps_request))) process with
    | (process, Raise e) => ((process, w), Raise e)
    | (process, Ok _) =>
    match Process.execute env fresh_uuid wps_request (process, w) with
    | (st, Raise e) =>
        if is_Exception e then
          (st, Raise (NoApplicableCode (py "Service error: " ++ exception_str env e)))
        else (st, Raise e)
    | ((process, w), Ok wps_response) =>
        if req_raw wps_request then
          match raw_output (map fst (map_to_list (req_outputs wps_request)))
                           (proc_outputs process) with
          | Some proc_outpt => ((process, w), Ok (RawResponse (out_data proc_outpt)))
          | None => ((process, w), Raise (InvalidParameterValue [] VNone))
          end
        else ((process, w), Ok (ExecuteResponse wps_response))
    end end end.

(** [execute(identifier, wps_request)] *)
Definition execute (env : Env) (fresh_uuid : pystr) (identifier : option pystr)
    (wps_request : WPSRequest) : Py (Service * World) ServiceResponse :=
  fun '(self, w) =>
    match identifier ≫= (fun i => option_map (pair i) (processes self !! i)) with
    | None => ((self, w), Raise (BadRequest (py "Unknown process " ++ repr identifier)))
    | Some (i, process) =>
        let '((process', w'), r) :=
          execute_process env fresh_uuid wps_request (process, w) in
        ({| processes := <[i := process']> (processes self) |}, w', r)
    end.

(** [if value: doc.append(tag(value))] *)
Definition append_text (q : QName) (value : pystr) (doc : Element) : Element :=
  if negb (bool_decide (value = []))
  then append (WPSResponse.text_element q value) doc
  else doc.

(** [if len(child): doc.append(child)] *)
Definition append_nonempty (child : Element) (doc : Element) : Element :=
  if is_nil (children child) then doc else append child doc.

(** [tag({'{http://www.w3.org/1999/xlink}href': href})] *)
Definition href_element (q : QName) (href : pystr) : Element :=
  Elem q {[ xlink_href := href ]} None [].

(** One [OWS.Operation] of the operations metadata. *)
Definition operation (env : Env) (name : string) : Element :=
  Elem (OWS "Operation") {[ "name"%string := py name ]} None
    [Elem (OWS "DCP") ∅ None
       [Elem (OWS "HTTP") ∅ None
          [href_element (OWS "Get")
             (fmt3 (get_config_value env "wps" "serveraddress")
                   (get_config_value env "wps" "serverport") (py "/wps?"));
           href_element (OWS "Post")
             (fmt3 (get_config_value env "wps" "serveraddress")
                   (get_config_value env "wps" "serverport") (py "/wps"))]]].

(** The [OWS.ServiceIdentification] part of the capabilities. *)
Definition service_identification (env : Env) : Element :=
  let service_ident_doc :=
    Elem (OWS "ServiceIdentification") ∅ None
      [WPSResponse.text_element (OWS "Title") (get_config_value env "wps" "title")] in
  let service_ident_doc :=
    append_text (OWS "Abstract") (get_config_value env "wps" "abstract")
      service_ident_doc in
  let service_ident_doc :=
    if negb (bool_decide (get_config_value env "wps" "keywords" = [])) then
      append (Elem (OWS "Keywords") ∅ None
                (map (WPSResponse.text_element (OWS "Keyword"))
                     (filter (fun k => k <> [])
                             (split "," (get_config_value env "wps" "keywords")))))
             service_ident_doc
    else service_ident_doc in
  let service_ident_doc :=
    append (WPSResponse.text_element (OWS "ServiceType") (py "WPS")) service_ident_doc in
  let service_ident_doc :=
    extend (map (WPSResponse.text_element (OWS "ServiceTypeVersion"))
                (split "," (get_config_value env "wps" "version")))
           service_ident_doc in
  let service_ident_doc :=
    append (WPSResponse.text_element (OWS "Fees") (get_config_value env "wps" "fees"))
           service_ident_doc in
  let service_ident_doc :=
    extend (map (WPSResponse.text_element (OWS "AccessConstraints"))
                (split "," (get_config_value env "wps" "constraints")))
           service_ident_doc in
  append_text (OWS "Profile") (get_config_value env "wps" "profile") service_ident_doc.

(** The [OWS.ServiceContact] element, filled only when an individual
    name is configured. *)
Definition service_contact (env : Env) : Element :=
  let provider := get_config_value env "provider" in
  let service_contact_doc := Elem (OWS "ServiceContact") ∅ None [] in
  if negb (bool_decide (provider "individualName" = [])) then
    let service_contact_doc :=
      append (WPSResponse.text_element (OWS "IndividualName") (provider "individualName"))
             service_contact_doc in
    let service_contact_doc :=
      append_text (OWS "PositionName") (provider "positionName") service_contact_doc in
    let service_contact_doc :=
      append_text (OWS "Role") (provider "role") service_contact_doc in
    let contact_info_doc := Elem (OWS "ContactInfo") ∅ None [] in
    let phone_doc := Elem (OWS "Phone") ∅ None [] in
    let phone_doc := append_text (OWS "Voice") (provider "phoneVoice") phone_doc in
    let phone_doc := append_text (OWS "Facsimile") (provider "phoneFacsimile") phone_doc in
    let contact_info_doc := append_nonempty phone_doc contact_info_doc in
    let address_doc := Elem (OWS "Address") ∅ None [] in
    let address_doc :=
      append_text (OWS "DeliveryPoint") (provider "deliveryPoint") address_doc in
    let address_doc := append_text (OWS "City") (provider "city") address_doc in
    let address_doc := append_text (OWS "PostalCode") (provider "postalCode") address_doc in
    let address_doc := append_text (OWS "Country") (provider "country") address_doc in
    let address_doc :=
      append_text (OWS "ElectronicMailAddress") (provider "electronicalMailAddress")
        address_doc in
    let contact_info_doc := append_nonempty address_doc contact_info_doc in
    let contact_info_doc :=
      if negb (bool_decide (provider "onlineResource" = []))
      then append (href_element (OWS "OnlineResource") (provider "onlineResource"))
                  contact_info_doc
      else contact_info_doc in
    let contact_info_doc :=
      append_text (OWS "HoursOfService") (provider "hoursOfService") contact_info_doc in
    let contact_info_doc :=
      append_text (OWS "ContactInstructions") (provider "contactInstructions")
        contact_info_doc in
    append_nonempty contact_info_doc service_contact_doc
  else service_contact_doc.

(** The [OWS.ServiceProvider] part of the capabilities. *)
Definition service_provider (env : Env) : Element :=
  let service_prov_doc :=
    Elem (OWS "ServiceProvider") ∅ None
      [WPSResponse.text_element (OWS "ProviderName")
         (get_config_value env "provider" "providerName")] in
  let service_prov_doc :=
    if negb (bool_decide (get_config_value env "provider" "providerSite" = []))
    then append (href_element (OWS "ProviderSite")
                   (get_config_value env "provider" "providerSite"))
                service_prov_doc
    else service_prov_doc in
  append_nonempty (service_contact env) service_prov_doc.

(** [get_capabilities()].  The processes come in the order of the
    registry, a dictionary. *)
Definition get_capabilities {S} (env : Env) (self : Service) : Py S XmlResponse :=
  (let process_elements :=
     map (fun kv : pystr * Process => capabilities_xml kv.2)
         (map_to_list (processes self)) in
   let doc := Elem (WPS "Capabilities") ∅ None [] in
   let doc := attrib_set "service" (py "WPS") doc in
   let doc := attrib_set "version" (py "1.0.0") doc in
   let doc := attrib_set WPSResponse.xml_lang (py "en-CA") doc in
   let doc :=
     attrib_set WPSResponse.schemaLocation
       (py "http://www.opengis.net/wps/1.0.0 http://schemas.opengis.net/wps/1.0.0/wpsDescribeProcess_response.xsd")
       doc in
   let doc := attrib_set "updateSequence" (py "1") doc in
   let doc := append (service_identification env) doc in
   let doc := append (service_provider env) doc in
   let operations_metadata_doc :=
     Elem (OWS "OperationsMetadata") ∅ None
       [operation env "GetCapabilities"; operation env "DescribeProcess";
        operation env "Execute"] in
   let doc := append operations_metadata_doc doc in
   let doc := append (Elem (WPS "ProcessOfferings") ∅ None process_elements) doc in
   let languages := split "," (get_config_value env "wps" "lang") in
   language0 <- item0 languages ;;
   let languages_doc :=
     Elem (WPS "Languages") ∅ None
       [Elem (WPS "Default") ∅ None
          [WPSResponse.text_element (OWS "Language") language0]] in
   let lang_supported_doc :=
     Elem (WPS "Supported") ∅ None
       (map (WPSResponse.text_element (OWS "Language")) languages) in
   let languages_doc := append lang_supported_doc languages_doc in
   let doc := append languages_doc doc in
   let doc :=
     append (href_element (WPS "WSDL")
               (fmt3 (get_config_value env "wps" "serveraddress")
                     (get_config_value env "wps" "serverport") (py "/wps?WSDL")))
            doc in
   ret (xml_response doc))%py.

(** ['all' in (ident.lower() for ident in identifiers)] *)
Fixpoint all_requested {S} (identifiers : list (option pystr)) : Py S bool :=
  match identifiers with
  | [] => ret false
  | None :: _ =>
      raise (PythonError "AttributeError"
               (py "'NoneType' object has no attribute 'lower'"))
  | Some ident :: identifiers' =>
      if bool_decide (lower ident = py "all") then ret true
      else all_requested identifiers'
  end.

(** The body of the loop [for identifier in identifiers]. *)
Definition describe_one {S} (env : Env) (input_describe_xml : Input -> Element)
    (self : Service) (identifier : option pystr) : Py S Element :=
  match identifier ≫= (fun i => processes self !! i) with
  | None =>
      raise (InvalidParameterValue (py "Unknown process " ++ repr identifier)
                                   (VStr (py "identifier")))
  | Some process => ret (describe_xml env input_describe_xml process)
  end.

(** [describe(identifiers)].  With ['all'] the processes come in the
    order of the registry, a dictionary.  [describe_xml] does not raise
    here, so the [except Exception] clauses around it have nothing to
    catch. *)
Definition describe {S} (env : Env) (input_describe_xml : Input -> Element)
    (self : Service) (identifiers : option (list (option pystr))) : Py S XmlResponse :=
  match identifiers with
  | None | Some [] => raise (MissingParameterValue [] (VStr (py "identifier")))
  | Some identifiers =>
      (all <- all_requested identifiers ;;
       identifier_elements <-
         (if all : bool then
            ret (map (fun kv : pystr * Process =>
                        describe_xml env input_describe_xml kv.2)
                     (map_to_list (processes self)))
          else mapM (describe_one env input_describe_xml self) identifiers) ;;
       let doc := Elem (WPS "ProcessDescriptions") ∅ None identifier_elements in
       let doc :=
         attrib_set WPSResponse.schemaLocation
           (py "http://www.opengis.net/wps/1.0.0 http://schemas.opengis.net/wps/1.0.0/wpsDescribeProcess_response.xsd")
           doc in
       let doc := attrib_set "service" (py "WPS") doc in
       let doc := attrib_set "version" (py "1.0.0") doc in
       let doc := attrib_set WPSResponse.xml_lang (py "en-CA") doc in
       ret (xml_response doc))%py
  end.

(** The [try] block of [__call__]. *)
Definition dispatch (env : Env) (input_describe_xml : Input -> Element)
    (fresh_uuid : pystr) (http_request : HttpRequest)
    : Py (Service * World) CallResponse :=
  (wps_request <- pure_py (WPSRequest.init env http_request) ;;
   if bool_decide (req_operation wps_request = py "getcapabilities") then
     self <- get_state ;;
     r <- get_capabilities env self.1 ;;
     ret (CapabilitiesResponse r)
   else if bool_decide (req_operation wps_request = py "describeprocess") then
     self <- get_state ;;
     r <- describe env input_describe_xml self.1 (req_identifiers wps_request) ;;
     ret (DescribeResponse r)
   else if bool_decide (req_operation wps_request = py "execute") then
     r <- execute env fresh_uuid (req_identifier wps_request) wps_request ;;
     ret (ExecuteResult r)
   else
     raise (PythonError "RuntimeError"
              (py "Unknown operation " ++ repr (Some (req_operation wps_request)))))%py.

(** [__call__(http_request)]: an exception [except HTTPException]
    catches is returned, as it is when it is an instance of
    [NoApplicableCode]; any other exception leaves the call. *)
Definition call (env : Env) (classes : ExceptionClasses)
    (input_describe_xml : Input -> Element) (fresh_uuid : pystr)
    (http_request : HttpRequest) : Py (Service * World) CallResponse :=
  try_except (dispatch env input_describe_xml fresh_uuid http_request)
    (fun e =>
       if is_HTTPException classes e then
         if negb (is_NoApplicableCode classes e)
         then ret (NoApplicableCodeResponse (exception_description classes e)
                                            (exception_code classes e))
         else ret (ErrorResponse e)
       else raise e).

End Service.

(* ================================================================== *)
(** * Auxiliary definitions for the statements *)
(* ================================================================== *)

(** The suffix and the prefix [FileStorage.store] hands to [mkstemp]. *)
Definition temp_suffix (output : Output) : pystr :=
  let suffix := (os_path_splitext (out_file output)).2 in
  if bool_decide (suffix = []) then out_extension output else suffix.

Definition temp_prefix (output : Output) : pystr :=
  (os_path_split (os_path_splitext (out_file output)).1).2.

(** What [get_free_space] reports for a directory that exists. *)
Definition reported_free_space (env : Env) (d : DirStat) : Z :=
  if bool_decide (platform_system env = py "Windows") then free_bytes d else f_bfree d.

(** The response after [update_status(message, -1)]. *)
Definition failed_response (env : Env) (process : Process) (message : pystr)
    (self : WPSResponse) : WPSResponse :=
  let self1 := set_resp_status_percentage (-1) (set_resp_message message self) in
  set_resp_doc
    (Some (append (WPSResponse._process_failed env self1)
                  (WPSResponse.process_part env process self1)))
    self1.


(** The sentence on handler exceptions, read literally, at one
    execution: when the handler raises, [_run_process] returns the
    response with the percentage [-1]. *)
Definition handler_exception_recorded (env : Env) (self : Process) (w : World)
    (wps_request : WPSRequest) (wps_response : WPSResponse) : Prop :=
  forall e frames,
    h_end (proc_handler self wps_request wps_response (proc_outputs self) (fs w))
    = Raises e frames ->
    exists st r,
      Process._run_process env wps_request wps_response (self, w) = (st, Ok r)
      /\ resp_status_percentage r = -1.

(** The first declared input, in declared order, that the request does
    not submit. *)
Definition first_missing (declared : list Input) (inputs : RequestInputs)
    : option Input :=
  find (fun inpt => negb (Service.submitted inputs (in_identifier inpt))) declared.

(** The sentence on missing inputs, read literally, at one call: the
    call fails with [MissingParameterValue] whose locator is the first
    missing declared identifier, and the handler is not invoked. *)
Definition missing_input_reported (env : Env) (fresh_uuid : pystr) (self : Service)
    (w : World) (identifier : pystr) (wps_request : WPSRequest) : Prop :=
  forall process inpt,
    processes self !! identifier = Some process ->
    proc_inputs process <> [] ->
    first_missing (proc_inputs process) (req_inputs wps_request) = Some inpt ->
    exists st,
      Service.execute env fresh_uuid (Some identifier) wps_request (self, w)
      = (st, Raise (MissingParameterValue [] (VStr (in_identifier inpt))))
      /\ trace st.2 = trace w.

(** The pieces of the process description in the response document. *)
Definition process_element (process : Process) : Element :=
  Elem (WPS "Process")
       {[ WPSResponse.processVersion := proc_version process ]} None
       [WPSResponse.text_element (OWS "Identifier") (proc_identifier process);
        WPSResponse.text_element (OWS "Title") (proc_title process)].

Definition optional_child (q : QName) (t : pystr) : list Element :=
  if negb (bool_decide (t = [])) then [WPSResponse.text_element q t] else [].


(* ================================================================== *)
(** * Concrete inputs used by the examples *)
(* ================================================================== *)

(** A configuration as a deployment would have it. *)
Definition env0 : Env :=
  {| get_config_value := fun sec key =>
       if String.eqb key "outputPath" then py "/var/wps/out"
       else if String.eqb key "tempPath" then py "/tmp"
       else if String.eqb key "serveraddress" then py "http://localhost"
       else if String.eqb key "serverport" then py "5000"
       else if String.eqb key "outputUrl" then py "/wps/outputs"
       else [];
     strftime_now := py "2015-06-01T12:00:00Z";
     platform_system := py "Linux";
     urljoin := fun base name => base ++ py "/" ++ name;
     urlopen := fun _ => Raise (PythonError "URLError" (py "unreachable"));
     tostring := fun _ => py "<doc/>";
     http_exception_str := fun _ => py "400: Bad Request";
     namespace_uri := fun n =>
       match n with
       | NS_wps => py "http://www.opengis.net/wps/1.0.0"
       | NS_ows => py "http://www.opengis.net/ows/1.1"
       | NS_none => []
       | NS_other uri => py uri
       end;
     app_filename := py "/usr/lib/python2.7/site-packages/pywps/app.py";
     initial_max_megabytes := 1;
     calculated_max_megabytes := 1;
     input_execute_xml := fun _ => Elem (WPS "Input") ∅ None [];
     output_execute_xml := fun _ => Elem (WPS "Output") ∅ None [];
     output_describe_xml := fun _ => Elem (WPS "Output") ∅ None [] |}.

(** A produced file of 5000 bytes on a filesystem with blocks of 4096
    bytes, and an output directory reporting [free] as free space. *)
Definition fs_with_free (free : Z) : FS :=
  {| files := {[ py "/work/result.tiff" := replicate 5000 0%N ]};
     dirs := {[ py "/var/wps/out" := {| f_bfree := free; free_bytes := free |} ]};
     st_blksize := Some 4096;
     cwd := py "/work";
     random_names := [py "a1b2c3"] |}.

Definition out0 : Output :=
  {| out_identifier := py "result"; out_as_reference := false; out_data := VNone;
     out_file := py "/work/result.tiff"; out_extension := py ".bin" |}.

(** The same configuration with inputs limited to [n] megabytes. *)
Definition env_limit (n : Z) : Env :=
  {| get_config_value := get_config_value env0;
     strftime_now := strftime_now env0;
     platform_system := platform_system env0;
     urljoin := urljoin env0;
     urlopen := urlopen env0;
     tostring := tostring env0;
     http_exception_str := http_exception_str env0;
     namespace_uri := namespace_uri env0;
     app_filename := app_filename env0;
     initial_max_megabytes := n;
     calculated_max_megabytes := n;
     input_execute_xml := input_execute_xml env0;
     output_execute_xml := output_execute_xml env0;
     output_describe_xml := output_describe_xml env0 |}.

(** An inline complex input as the KVP parser builds it. *)
Definition inline_input (data : pystr) : pydict :=
  <[Some (py "data") := VStr data]> {[ Some (py "identifier") := VStr (py "layer") ]}.

(** A handler that leaves everything as it finds it. *)
Definition quiet_handler : Handler :=
  fun wps_request wps_response outs files_ =>
    {| h_response := wps_response; h_outputs := outs; h_fs := files_;
       h_end := ReturnsResponse |}.

(** A handler named [_handler] that raises [ValueError('boom')] from a
    helper it calls. *)
Definition failing_handler : Handler :=
  fun wps_request wps_response outs files_ =>
    {| h_response := wps_response; h_outputs := outs; h_fs := files_;
       h_end :=
         Raises (PythonError "ValueError" (py "boom"))
                [{| co_filename := py "/srv/wps/processes/buffer.py";
                    co_name := py "_handler"; tb_lineno := 42 |};
                 {| co_filename := py "/srv/wps/processes/geometry.py";
                    co_name := py "load"; tb_lineno := 7 |}] |}.

(** A handler that calls [sys.exit(1)]: it raises [SystemExit]. *)
Definition exiting_handler : Handler :=
  fun wps_request wps_response outs files_ =>
    {| h_response := wps_response; h_outputs := outs; h_fs := files_;
       h_end :=
         Raises (BaseExceptionOnly "SystemExit" (py "1"))
                [{| co_filename := py "/srv/wps/processes/buffer.py";
                    co_name := py "_handler"; tb_lineno := 12 |}] |}.

(** A handler without a [return] statement: it returns [None]. *)
Definition forgetful_handler : Handler :=
  fun wps_request wps_response outs files_ =>
    {| h_response := wps_response; h_outputs := outs; h_fs := files_;
       h_end := ReturnsObject (py "NoneType") |}.

Definition declared_inputs : list Input :=
  [{| in_identifier := py "layer"; in_class := IsComplexInput |};
   {| in_identifier := py "distance"; in_class := IsLiteralInput |}].

(** A process with an abstract, declaring two inputs and one output. *)
Definition buffer_process (handler : Handler) (store status : bool) : Process :=
  Process.init handler (py "buffer") (py "Buffer") (py "Buffers a layer") [] []
    [py "vector"] declared_inputs [out0] (py "1.0") store status.

Definition service0 : Service := Service.init [buffer_process quiet_handler false false].

Definition world0 : World := {| fs := fs_with_free 8192; trace := [] |}.

Definition uuid0 : pystr := py "0b9d4c3e-5a54-4a0e-9f57-0c2d3b1a7e11".

(** An Execute request as the constructor leaves it, with the given
    inputs and flags. *)
Definition execute_request (inputs : RequestInputs) (store_execute status : pystr)
    : WPSRequest :=
  {| req_operation := py "execute"; req_version := Some (py "1.0.0");
     req_identifier := Some (py "buffer"); req_identifiers := None;
     req_lineage := py "false"; req_store_execute := store_execute;
     req_status := status; req_inputs := inputs; req_outputs := ∅;
     req_raw := false |}.

(** A response on its way: 50 percent done, nothing stored. *)
Definition response_at_50 : WPSResponse :=
  set_resp_status_percentage 50
    (WPSResponse.init (buffer_process quiet_handler false false)
       (execute_request (InputsParsed ∅) (py "false") (py "false"))).

(** An Execute document that carries both a [RawDataOutput] and a
    [ResponseDocument] asking for the response to be stored. *)
Definition execute_doc_both_forms : Element :=
  Elem (WPS "Execute") {[ "version"%string := py "1.0.0" ]} None
    [Elem (OWS "Identifier") ∅ (Some (py "buffer")) [];
     Elem (WPS "ResponseForm") ∅ None
       [Elem (WPS "RawDataOutput") ∅ None
          [Elem (OWS "Identifier") ∅ (Some (py "result")) []];
        Elem (WPS "ResponseDocument")
          {[ "storeExecuteResponse"%string := py "true" ]} None []]].

(** An Execute document with a [RawDataOutput] only. *)
Definition execute_doc_raw : Element :=
  Elem (WPS "Execute") {[ "version"%string := py "1.0.0" ]} None
    [Elem (OWS "Identifier") ∅ (Some (py "buffer")) [];
     Elem (WPS "ResponseForm") ∅ None
       [Elem (WPS "RawDataOutput") ∅ None
          [Elem (OWS "Identifier") ∅ (Some (py "result")) []]]].

Definition failing_process : Process := buffer_process failing_handler true true.

Definition parsed_request : WPSRequest :=
  execute_request (InputsParsed ∅) (py "false") (py "false").

Definition exiting_process : Process := buffer_process exiting_handler true true.

(** The failing process with its status file in a directory that does
    not exist, and the response of a request that asks for the
    response to be stored. *)
Definition lost_process : Process :=
  set_proc_status_files (py "/var/wps/gone/" ++ uuid0 ++ py ".xml")
    (py "http://localhost:5000/wps/outputs/" ++ uuid0 ++ py ".xml") failing_process.

Definition stored_request : WPSRequest :=
  execute_request (InputsParsed ∅) (py "true") (py "false").

Definition lost_response : WPSResponse :=
  set_resp_status WPSResponse.STORE_STATUS (WPSResponse.init lost_process stored_request).

(** A request that submits the first declared input only. *)
Definition request_without_distance : WPSRequest :=
  execute_request
    (InputsRaw {[ Some (py "layer") := inline_input (py "<gml/>") ]})
    (py "false") (py "false").

(** A request that submits an empty complex input and no [distance]. *)
Definition request_broken_layer : WPSRequest :=
  execute_request
    (InputsRaw {[ Some (py "layer") := {[ Some (py "identifier") := VStr (py "layer") ]} ]})
    (py "false") (py "false").

(** [GET /wps?service=WPS&request=Execute&version=1.0.0&identifier=buffer]:
    an Execute request with no [DataInputs] parameter. *)
Definition get_execute_no_datainputs : HttpRequest :=
  {| http_method := py "GET";
     http_args := [(py "service", py "WPS"); (py "request", py "Execute");
                   (py "version", py "1.0.0"); (py "identifier", py "buffer")];
     http_body := None |}.

(** One field of one entry of a parsed KVP string. *)
Definition kvp_field (data entry key : string) : option PyVal :=
  match get_data_from_kvp (Some (py data)) with
  | Some m =>
      match m !! Some (py entry) with
      | Some d => d !! Some (py key)
      | None => None
      end
  | None => None
  end.

(* ================================================================== *)
(** * Further definitions for the statements and the examples *)
(* ================================================================== *)

(** [sep.join(l)] for a separator of one character. *)
Fixpoint join_with (sep : N) (l : list pystr) : pystr :=
  match l with
  | [] => []
  | [x] => x
  | x :: l' => x ++ sep :: join_with sep l'
  end.

(** A text without the three delimiters of the key-value encoding. *)
Definition kvp_plain (s : pystr) : Prop :=
  Forall (fun c => c <> 59%N /\ c <> 64%N /\ c <> 61%N) s.

(** One entry of a [DataInputs] parameter: identifier, value and
    attributes. *)
Record KvpEntry := {
  kvp_identifier : pystr;
  kvp_value : pystr;
  kvp_attrs : list (pystr * pystr);
}.

Definition kvp_entry_plain (e : KvpEntry) : Prop :=
  kvp_plain (kvp_identifier e) /\ kvp_plain (kvp_value e)
  /\ Forall (fun a => kvp_plain a.1 /\ kvp_plain a.2) (kvp_attrs e).

(** [identifier=value@attribute=value@...] *)
Definition kvp_field_text (a : pystr * pystr) : pystr := a.1 ++ 61%N :: a.2.

Definition kvp_entry_text (e : KvpEntry) : pystr :=
  join_with 64 (kvp_field_text (kvp_identifier e, kvp_value e)
                :: map kvp_field_text (kvp_attrs e)).

Definition kvp_text (es : list KvpEntry) : pystr :=
  join_with 59 (map kvp_entry_text es).

(** The dictionary an entry stands for. *)
Definition kvp_entry_dict (e : KvpEntry) : pydict :=
  foldl (fun io a => <[Some a.1 := VStr a.2]> io)
        (<[Some (py "data") := VStr (kvp_value e)]>
           {[ Some (py "identifier") := VStr (kvp_identifier e) ]})
        (kvp_attrs e).

Definition kvp_example : list KvpEntry :=
  [ {| kvp_identifier := py "layer"; kvp_value := py "roads";
       kvp_attrs := [(py "mimeType", py "text/xml")] |};
    {| kvp_identifier := py "distance"; kvp_value := py "10"; kvp_attrs := [] |} ].

(** The entry the bare [except] of [get_data_from_kvp] stores. *)
Definition kvp_fallback (d : pystr) : pydict :=
  <[Some (py "data") := VStr []]> {[ Some (py "identifier") := VStr d ]}.

(** The exceptions of [pywps.exceptions]. *)
Definition is_pywps_exception (e : PyException) : bool :=
  match e with
  | MissingParameterValue _ _ | InvalidParameterValue _ _ | NoApplicableCode _
  | OperationNotSupported _ | VersionNegotiationFailed _ _ | FileSizeExceeded _ _
  | StorageNotSupported _ | NotEnoughStorage _ => true
  | BadRequest _ | MethodNotAllowed | PythonError _ _ | BaseExceptionOnly _ _ => false
  end.

(** The keys of the query that spell [key], whatever the case. *)
Definition matching_keys (http_request : HttpRequest) (key : string) : list pystr :=
  filter (fun k => lower k = lower (py key)) (args_keys [] (http_args http_request)).

Definition get_describe_request : HttpRequest :=
  {| http_method := py "GET";
     http_args := [(py "Service", py "WPS"); (py "REQUEST", py "DescribeProcess");
                   (py "version", py "1.0.0"); (py "identifier", py "buffer,all")];
     http_body := None |}.

Definition get_raw_request : HttpRequest :=
  {| http_method := py "GET";
     http_args := [(py "service", py "WPS"); (py "request", py "Execute");
                   (py "version", py "1.0.0"); (py "identifier", py "buffer");
                   (py "storeExecuteResponse", py "true");
                   (py "RawDataOutput", py "result")];
     http_body := None |}.

(** What the constructor makes of [get_describe_request]. *)
Definition describe_request : WPSRequest :=
  {| req_operation := py "describeprocess"; req_version := Some (py "1.0.0");
     req_identifier := None;
     req_identifiers := Some [Some (py "buffer"); Some (py "all")];
     req_lineage := []; req_store_execute := []; req_status := [];
     req_inputs := InputsNone; req_outputs := ∅; req_raw := false |}.

(** What the constructor makes of [get_raw_request]. *)
Definition raw_request : WPSRequest :=
  {| req_operation := py "execute"; req_version := Some (py "1.0.0");
     req_identifier := Some (py "buffer"); req_identifiers := None;
     req_lineage := py "false"; req_store_execute := py "false";
     req_status := py "false"; req_inputs := InputsNone;
     req_outputs := {[ Some (py "result") := kvp_fallback (py "result") ]};
     req_raw := true |}.

(** The literal input [parse_literal_inputs] makes of a
    [wps:LiteralData] element and the identifier of its input. *)
Definition literal_input_of (identifier_el value_el : Element) : LiteralInput :=
  {| li_identifier := VText (text identifier_el);
     li_uom := VStr (attrib_get value_el "uom" []);
     li_data_type :=
       if bool_decide (attrib_get value_el "datatype" [] = []) then None
       else Some (VStr (attrib_get value_el "datatype" []));
     li_data := VStr (text_type (text value_el)) |}.

(** An input with an empty [wps:LiteralData]. *)
Definition literal_input_empty : Element :=
  Elem (WPS "Input") ∅ None
    [Elem (OWS "Identifier") ∅ (Some (py "distance")) [];
     Elem (WPS "Data") ∅ None
       [Elem (WPS "LiteralData") {[ "uom"%string := py "m" ]} None []]].

(** The size [parse_complex_inputs] compares with the limit: the
    announced [Content-Length], or the number of characters read. *)
Definition reference_size (fetched : pystr * option Z) : Z :=
  match fetched.2 with
  | Some n => n
  | None => Z.of_nat (List.length fetched.1)
  end.

(** The exception a reference that cannot be used ends in. *)
Definition reference_error (env : Env) (inputs : pydict) (url : pystr) : PyException :=
  match urlopen env url with
  | Raise e =>
      if is_Exception e
      then NoApplicableCode (py "File reference error: " ++ exception_str env e)
      else e
  | Ok _ =>
      FileSizeExceeded (file_size_message (calculated_max_megabytes env))
                       (dict_get inputs "identifier")
  end.

(* fixtures *)
Definition env_fetch (body : pystr) (content_length : option Z) (limit : Z) : Env :=
  {| get_config_value := get_config_value env0;
     strftime_now := strftime_now env0;
     platform_system := platform_system env0;
     urljoin := urljoin env0;
     urlopen := fun _ => Ok (body, content_length);
     tostring := tostring env0;
     http_exception_str := http_exception_str env0;
     namespace_uri := namespace_uri env0;
     app_filename := app_filename env0;
     initial_max_megabytes := limit;
     calculated_max_megabytes := limit;
     input_execute_xml := input_execute_xml env0;
     output_execute_xml := output_execute_xml env0;
     output_describe_xml := output_describe_xml env0 |}.

Definition fs_tmp : FS :=
  {| files := ∅;
     dirs := {[ py "/tmp" := {| f_bfree := 100; free_bytes := 100 |} ]};
     st_blksize := Some 4096;
     cwd := py "/work";
     random_names := [py "k3x9"] |}.

Definition reference_input : pydict :=
  <[Some (py "href") := VStr (py "http://data/roads.gml")]>
    {[ Some (py "identifier") := VStr (py "layer") ]}.

Definition complex_data_input : Element :=
  Elem (WPS "Input") ∅ None
    [Elem (OWS "Identifier") ∅ (Some (py "layer")) [];
     Elem (WPS "Data") ∅ None
       [Elem (WPS "ComplexData") {[ "mimeType"%string := py "text/xml" ]} None
          [Elem (E "roads") ∅ None []]]].

(** What [get_input_from_xml] makes of [complex_data_input]. *)
Definition complex_data_dict : pydict :=
  <[Some (py "method") := VStr (py "GET")]>
 (<[Some (py "schema") := VStr []]>
 (<[Some (py "encoding") := VStr []]>
 (<[Some (py "mime_type") := VStr (py "text/xml")]>
 (<[Some (py "data") := VElem (Elem (E "roads") ∅ None [])]>
 (<[Some (py "identifier") := VStr (py "layer")]> ∅))))).

(** The tags of the elements under the [wps:Status] children of a
    response document. *)
Definition status_kind (doc : Element) : list QName :=
  map tag (flat_map children (child_elements (WPS "Status") doc)).

(** The children [_construct_doc] appends after the status when the
    process has succeeded. *)
Definition is_result_section (lineage : bool) (tail : list Element) : Prop :=
  exists ins defs outs,
    tail = (if lineage
            then [Elem (WPS "DataInputs") ∅ None ins;
                  Elem (WPS "OutputDefinitions") ∅ None defs]
            else [])
           ++ [Elem (WPS "ProcessOutputs") ∅ None outs].

Ltac tag_not_listed :=
  let Hin := fresh "Hin" in
  intros Hin;
  repeat (apply elem_of_cons in Hin as [Hin|Hin]; [discriminate Hin|]);
  inversion Hin.

(** The document [_construct_doc] builds for [response_at_50]. *)
Definition doc_at_50 : Element :=
  append (Elem (WPS "ProcessOutputs") ∅ None [output_execute_xml env0 out0])
    (append (WPSResponse._process_succeeded env0 response_at_50)
       (WPSResponse.process_part env0 (buffer_process quiet_handler false false)
          response_at_50)).

(** The message [_construct_doc] gives a response it reports as
    accepted. *)
Definition accepted_message (process : Process) : pystr :=
  py "PyWPS Process " ++ proc_identifier process ++ py " accepted".

(** [buffer_process] after a call that stores its response in
    [status.xml]. *)
Definition stored_process : Process :=
  set_proc_status_files (py "/var/wps/out/status.xml")
    (py "http://localhost:5000/wps/outputs/status.xml")
    (buffer_process quiet_handler true true).

(** A response at 50 percent with a document, stored at every
    update. *)
Definition stored_response : WPSResponse :=
  set_resp_doc (Some (WPSResponse.root_element env0))
    (set_resp_status WPSResponse.STORE_STATUS response_at_50).

(** Every exception the computation raises is an instance of
    [Exception]. *)
Definition raises_Exception_only {S A} (m : Py S A) : Prop :=
  forall s s' e, m s = (s', Raise e) -> is_Exception e = true.

(** What identifies a process and what it declares: the attributes an
    execution leaves alone. *)
Definition same_declaration (p q : Process) : Prop :=
  proc_identifier p = proc_identifier q
  /\ proc_title p = proc_title q
  /\ proc_abstract p = proc_abstract q
  /\ proc_metadata p = proc_metadata q
  /\ proc_profile p = proc_profile q
  /\ proc_wsdl p = proc_wsdl q
  /\ proc_version p = proc_version q
  /\ proc_inputs p = proc_inputs q
  /\ proc_store_supported p = proc_store_supported q
  /\ proc_status_supported p = proc_status_supported q.

(** [str(e)] of the exception [write_response_doc] raises, as
    [Service.execute] reports it. *)
Definition service_write_error (env : Env) : PyException :=
  NoApplicableCode
    (py "Service error: "
     ++ exception_str env (NoApplicableCode WPSResponse.write_failed_message)).

(** A handler that reports the work as done. *)
Definition done_handler : Handler :=
  fun wps_request wps_response outs files_ =>
    {| h_response := set_resp_status_percentage 100 wps_response;
       h_outputs := outs; h_fs := files_; h_end := ReturnsResponse |}.

(** A process without inputs. *)
Definition echo_process : Process :=
  Process.init done_handler (py "echo") (py "Echo") [] [] [] [] [] [out0]
    (py "None") false false.

Definition echo_service : Service := Service.init [echo_process].

(** A raw request for an output the process does not declare. *)
Definition raw_request_other : WPSRequest :=
  {| req_operation := py "execute"; req_version := Some (py "1.0.0");
     req_identifier := Some (py "echo"); req_identifiers := None;
     req_lineage := py "false"; req_store_execute := py "false";
     req_status := py "false"; req_inputs := InputsNone;
     req_outputs := {[ Some (py "other") := kvp_fallback (py "other") ]};
     req_raw := true |}.

(** The process [echo] with another handler. *)
Definition echo_with (handler : Handler) : Process :=
  Process.init handler (py "echo") (py "Echo") [] [] [] [] [] [out0]
    (py "None") false false.

(** A request for the response document of [echo]. *)
Definition echo_request : WPSRequest :=
  {| req_operation := py "execute"; req_version := Some (py "1.0.0");
     req_identifier := Some (py "echo"); req_identifiers := None;
     req_lineage := py "false"; req_store_execute := py "false";
     req_status := py "false"; req_inputs := InputsNone;
     req_outputs := ∅; req_raw := false |}.

(** The flag [Service.execute] reads from a requested output: whether
    its [asReference] entry, [false] by default, spells [true]. *)
Definition requests_reference (d : pydict) : bool :=
  match dict_get_default d "asReference" (VStr (py "false")) with
  | VStr s => bool_decide (lower s = py "true")
  | _ => false
  end.

(** A declared output after the loop over the requested outputs. *)
Definition marked_output (requested : gmap (option pystr) pydict) (o : Output) : Output :=
  match requested !! Some (out_identifier o) with
  | Some d => set_as_reference (requests_reference d) o
  | None => o
  end.

(** A declared input of one of the two classes [Service.execute]
    converts. *)
Definition is_converted (inpt : Input) : bool :=
  match in_class inpt with
  | IsOtherInput => false
  | _ => true
  end.

(** A raw request for the declared output. *)
Definition raw_request_result : WPSRequest :=
  {| req_operation := py "execute"; req_version := Some (py "1.0.0");
     req_identifier := Some (py "echo"); req_identifiers := None;
     req_lineage := py "false"; req_store_execute := py "false";
     req_status := py "false"; req_inputs := InputsNone;
     req_outputs := {[ Some (py "result") := kvp_fallback (py "result") ]};
     req_raw := true |}.

(** The two declared inputs and one that is not declared. *)
Definition inputs_with_extra : RequestInputs :=
  InputsRaw
    (<[Some (py "extra") := inline_input (py "1")]>
    (<[Some (py "distance") := inline_input (py "10")]>
       {[ Some (py "layer") := inline_input (py "<gml/>") ]})).

(** What a response document asks for when it lists [result] as a
    reference. *)
Definition result_as_reference : gmap (option pystr) pydict :=
  {[ Some (py "result") :=
       <[Some (py "asReference") := VStr (py "True")]>
         {[ Some (py "result") := VStr [] ]} ]}.

(** The document [describe] wraps the process descriptions in. *)
Definition process_descriptions (identifier_elements : list Element) : Element :=
  Elem (WPS "ProcessDescriptions")
    (<[WPSResponse.xml_lang := py "en-CA"]>
    (<["version"%string := py "1.0.0"]>
    (<["service"%string := py "WPS"]>
    ({[ WPSResponse.schemaLocation :=
          py "http://www.opengis.net/wps/1.0.0 http://schemas.opengis.net/wps/1.0.0/wpsDescribeProcess_response.xsd" ]}))))
    None identifier_elements.

(** The error [describe] reports for an identifier that is not
    registered. *)
Definition unknown_process (identifier : pystr) : PyException :=
  InvalidParameterValue (py "Unknown process " ++ repr (Some identifier))
                        (VStr (py "identifier")).

(** The first of the identifiers that is not registered. *)
Definition first_unknown (self : Service) (identifiers : list pystr) : option pystr :=
  find (fun i => negb (bool_decide (is_Some (processes self !! i)))) identifiers.

(** A rendering of the declared inputs, for the examples. *)
Definition input_describe_xml0 (inpt : Input) : Element :=
  Elem (E "Input") ∅ None
    [WPSResponse.text_element (OWS "Identifier") (in_identifier inpt)].

(** The children of a process description before the inputs and the
    outputs. *)
Definition description_head (self : Process) : list Element :=
  [WPSResponse.text_element (OWS "Identifier") (proc_identifier self);
   WPSResponse.text_element (OWS "Title") (proc_title self)]
  ++ optional_child (OWS "Abstract") (proc_abstract self)
  ++ map (fun m => Elem (OWS "Metadata") {[ xlink_title := m ]} None [])
         (proc_metadata self)
  ++ map (fun p => WPSResponse.text_element (WPS "Profile") [p]) (proc_profile self)
  ++ (if negb (bool_decide (proc_wsdl self = []))
      then [Elem (WPS "WSDL") {[ xlink_href := proc_wsdl self ]} None []]
      else []).

(** The languages the configuration lists. *)
Definition configured_languages (env : Env) : list pystr :=
  split "," (get_config_value env "wps" "lang").

Ltac eval_tags :=
  repeat match goal with
         | |- context [bool_decide (?a = ?b)] =>
             first [ rewrite (bool_decide_eq_true_2 (a = b)) by reflexivity
                   | rewrite (bool_decide_eq_false_2 (a = b)) by discriminate ]
         end.

(** What [__call__] makes of an exception [except HTTPException]
    catches. *)
Definition error_response (classes : ExceptionClasses) (e : PyException) : CallResponse :=
  if is_NoApplicableCode classes e then ErrorResponse e
  else NoApplicableCodeResponse (exception_description classes e)
                                (exception_code classes e).

(** The result of a method, wrapped as [__call__] returns it. *)
Definition returned {S A} (wrap : A -> CallResponse) (out : S * result A)
    : S * result CallResponse :=
  (out.1, match out.2 with
          | Ok x => Ok (wrap x)
          | Raise e => Raise e
          end).

(** A class table for the examples: the exceptions of
    [pywps.exceptions] derive from [NoApplicableCode], those of
    [werkzeug] are HTTP exceptions of their own, the built-in ones are
    neither. *)
Definition classes0 : ExceptionClasses :=
  {| is_HTTPException := fun e =>
       match e with
       | PythonError _ _ | BaseExceptionOnly _ _ => false
       | _ => true
       end;
     is_NoApplicableCode := fun e =>
       match e with
       | BadRequest _ | MethodNotAllowed | PythonError _ _ | BaseExceptionOnly _ _ => false
       | _ => true
       end;
     exception_description := fun e =>
       match e with
       | BadRequest d => d
       | MethodNotAllowed => py "The method is not allowed for the requested URL."
       | _ => []
       end;
     exception_code := fun e =>
       match e with
       | MethodNotAllowed => 405
       | _ => 400
       end |}.

(** [GET /wps?request=GetCapabilities], without the [service]
    parameter. *)
Definition get_without_service : HttpRequest :=
  {| http_method := py "GET";
     http_args := [(py "request", py "GetCapabilities")];
     http_body := None |}.

(* ================================================================== *)
(** * Sanity checks of the library models *)
(* ================================================================== *)

Example os_path_split_ex :
  os_path_split (py "/srv/wps/demo.py") = (py "/srv/wps", py "demo.py").
Proof. reflexivity. Qed.

Example os_path_splitext_ex :
  os_path_splitext (py "/tmp/out.d/file.tiff") = (py "/tmp/out.d/file", py ".tiff")
  /\ os_path_splitext (py "/tmp/.profile") = (py "/tmp/.profile", []).
Proof. split; reflexivity. Qed.

Example os_path_join_ex :
  os_path_join (py "/var/out") (py "abc") = py "/var/out/abc"
  /\ os_path_join (py "/var/out/") (py "abc") = py "/var/out/abc"
  /\ os_path_join (py "/var/out") (py "/abs") = py "/abs".
Proof. repeat split; reflexivity. Qed.

Example encode_utf8_ex :
  encode_utf8 [233; 8364; 128512]%N
  = Some [195; 169; 226; 130; 172; 240; 159; 152; 128]%N
  /\ encode_utf8 [55296%N] = None.
Proof. split; reflexivity. Qed.

Example str_of_Z_ex : str_of_Z 696 = py "696" /\ str_of_Z (-1) = py "-1".
Proof. split; vm_compute; reflexivity. Qed.

(** [ceil_div a b] is the least number of blocks of size [b] that hold
    [a] bytes. *)
Lemma ceil_div_spec (a b : Z) :
  0 < b -> (ceil_div a b - 1) * b < a <= ceil_div a b * b.
Proof.
  intros Hb. unfold ceil_div.
  pose proof (Z.div_mod (- a) b ltac:(lia)) as Hdm.
  pose proof (Z.mod_pos_bound (- a) b Hb) as Hm.
  nia.
Qed.

Lemma bind_ok {S A B} (m : Py S A) (k : A -> Py S B) s s' b :
  bind m k s = (s', Ok b) ->
  exists s1 a, m s = (s1, Ok a) /\ k a s1 = (s', Ok b).
Proof.
  unfold bind. destruct (m s) as [s1 [a|e]]; [eauto|discriminate].
Qed.

(* ================================================================== *)
(** * [FileStorage.store] *)
(* ================================================================== *)

(** What a successful [mkstemp] does to the filesystem: one new, empty
    file, under a name that was free. *)
Lemma mkstemp_loop_ok dir pre suf names fs fs1 name :
  mkstemp_loop dir pre suf names fs = (fs1, Ok name) ->
  files fs !! name = None
  /\ files fs1 = <[name := []]> (files fs)
  /\ dirs fs1 = dirs fs
  /\ st_blksize fs1 = st_blksize fs.
Proof.
  revert fs1 name. induction names as [|n names IH]; intros fs1 name; simpl.
  - intros [= ].
  - destruct (bool_decide (is_Some (dirs fs !! dir))); simpl; [|intros [=]].
    destruct (bool_decide (is_Some (files fs !! _))) eqn:Hex.
    + apply IH.
    + intros [= <- <-]. simpl. split_and!; try reflexivity.
      apply bool_decide_eq_false in Hex.
      destruct (files fs !! _) eqn:E; [|reflexivity].
      exfalso. apply Hex. eauto.
Qed.

(** C5.  [FileStorage.store] on an existing output file, a filesystem
    with a positive block size and an existing target directory: the
    space needed is the file size rounded up to whole blocks; when it
    exceeds the free space reported for the target directory the call
    raises [NotEnoughStorage] naming the target directory and the
    source file and leaves the filesystem as it was; otherwise, once
    [mkstemp] has allocated the destination, the file is copied there
    and the call returns [STORE_TYPE.PATH], the generated name and the
    URL joined from the output base URL and the base name. *)
Theorem store_free_space_check (env : Env) (self : FileStorage.t) (output : Output)
    (fs0 : FS) (bytes : list N) (blksize : Z) (d : DirStat) :
  files fs0 !! out_file output = Some bytes ->
  st_blksize fs0 = Some blksize ->
  0 < blksize ->
  dirs fs0 !! FileStorage.target self = Some d ->
  let file_size := Z.of_nat (List.length bytes) in
  let needed := ceil_div file_size blksize * blksize in
  (needed - blksize < file_size <= needed)
  /\ (reported_free_space env d < needed ->
      FileStorage.store env self output fs0
      = (fs0, Raise (NotEnoughStorage
                       (py "Not enough space in " ++ FileStorage.target self
                           ++ py " to store " ++ out_file output))))
  /\ (needed <= reported_free_space env d ->
      forall fs1 output_name,
        mkstemp (temp_suffix output) (temp_prefix output) (FileStorage.target self) fs0
          = (fs1, Ok output_name) ->
        can_open_w (os_path_join (FileStorage.target self) output_name) fs1 = true ->
        FileStorage.store env self output fs0
        = (set_files (<[os_path_join (FileStorage.target self) output_name := bytes]>
                        (files fs1)) fs1,
           Ok (STORE_TYPE.PATH, output_name,
               urljoin env (FileStorage.output_url self) (os_path_basename output_name)))).
Proof.
  intros Hfile Hblk Hpos Hdir file_size needed.
  split; [|split].
  - pose proof (ceil_div_spec file_size blksize Hpos). subst needed. lia.
  - intros Hlt. unfold FileStorage.store, bind, os_stat_st_blksize, get_free_space,
      os_stat_st_size, raise. rewrite Hfile, Hblk, Hdir.
    unfold reported_free_space in Hlt.
    destruct (bool_decide (platform_system env = py "Windows")); simpl;
      rewrite Hfile; simpl;
      rewrite (bool_decide_eq_false_2 (blksize = 0)) by lia;
      rewrite bool_decide_eq_true_2 by (subst needed file_size; exact Hlt);
      reflexivity.
  - intros Hge fs1 output_name Hmk Hopen.
    unfold FileStorage.store, bind, os_stat_st_blksize, get_free_space,
      os_stat_st_size, raise. rewrite Hfile, Hblk, Hdir.
    unfold reported_free_space in Hge.
    assert (Hcopy : shutil_copy2 (out_file output)
                      (os_path_join (FileStorage.target self) output_name) fs1
                    = (set_files (<[os_path_join (FileStorage.target self) output_name := bytes]>
                                    (files fs1)) fs1, Ok tt)).
    { unfold mkstemp in Hmk. apply mkstemp_loop_ok in Hmk as (Hfree & Hfiles & _ & _).
      unfold shutil_copy2, write_file. rewrite Hfiles.
      rewrite lookup_insert_ne by (intros ->; congruence).
      rewrite Hfile, <- Hfiles, Hopen. reflexivity. }
    unfold temp_suffix, temp_prefix in Hmk.
    destruct (bool_decide (platform_system env = py "Windows")); simpl;
      rewrite Hfile; simpl;
      rewrite (bool_decide_eq_false_2 (blksize = 0)) by lia;
      rewrite bool_decide_eq_false_2 by (subst needed file_size; lia);
      destruct (os_path_splitext (out_file output)) as [prefix suffix0]; simpl in *;
      destruct (os_path_split prefix) as [file_dir file_name']; simpl in *;
      rewrite Hmk, Hcopy; reflexivity.
Qed.

Lemma store_free_space_check_witness :
  FileStorage.store env0 (FileStorage.init env0) out0 (fs_with_free 4096)
  = (fs_with_free 4096,
     Raise (NotEnoughStorage
              (py "Not enough space in /var/wps/out to store /work/result.tiff")))
  /\ (FileStorage.store env0 (FileStorage.init env0) out0 (fs_with_free 8192)).2
     = Ok (0, py "/var/wps/out/resulta1b2c3.tiff",
           py "http://localhost:5000/wps/outputs/resulta1b2c3.tiff").
Proof.
  split.
  - apply (store_free_space_check env0 (FileStorage.init env0) out0 (fs_with_free 4096)
             (replicate 5000 0%N) 4096 {| f_bfree := 4096; free_bytes := 4096 |});
      [reflexivity | reflexivity | lia | reflexivity | vm_compute; reflexivity].
  - destruct (store_free_space_check env0 (FileStorage.init env0) out0 (fs_with_free 8192)
                (replicate 5000 0%N) 4096 {| f_bfree := 8192; free_bytes := 8192 |})
      as (_ & _ & Hcopy);
      [reflexivity | reflexivity | lia | reflexivity |].
    rewrite (Hcopy ltac:(vm_compute; discriminate)
               (set_random_names []
                  (set_files (<[py "/var/wps/out/resulta1b2c3.tiff" := []]>
                                (files (fs_with_free 8192))) (fs_with_free 8192)))
               (py "/var/wps/out/resulta1b2c3.tiff"));
      [reflexivity | vm_compute; reflexivity | vm_compute; reflexivity].
Defined.

(* ================================================================== *)
(** * [parse_complex_inputs] *)
(* ================================================================== *)

(** C3.  An inline complex input (no [href]) whose data is text: when
    its UTF-8 encoding is longer than [max_megabytes * 1024 * 1024]
    bytes the call raises [FileSizeExceeded] with the input identifier
    as locator; at the limit or below the input is accepted and the data
    stored inline (no file, no URL, not a reference). *)
Theorem inline_complex_input_size_limit (env : Env) (inputs : pydict) (fs0 : FS)
    (s : pystr) (bytes : list N) :
  truthy (dict_get_default inputs "href" VNone) = false ->
  dict_get inputs "data" = VStr s ->
  encode_utf8 s = Some bytes ->
  let limit := initial_max_megabytes env * 1024 * 1024 in
  (Z.of_nat (List.length bytes) > limit ->
   parse_complex_inputs env inputs fs0
   = (fs0, Raise (FileSizeExceeded (file_size_message (initial_max_megabytes env))
                                   (dict_get inputs "identifier"))))
  /\ (Z.of_nat (List.length bytes) <= limit ->
      exists c,
        parse_complex_inputs env inputs fs0 = (fs0, Ok c)
        /\ ci_data c = VStr s
        /\ ci_identifier c = dict_get inputs "identifier"
        /\ ci_file c = None /\ ci_url c = None /\ ci_as_reference c = false).
Proof.
  intros Hhref Hdata Henc limit.
  unfold parse_complex_inputs. rewrite Hhref, Hdata.
  unfold bind, encoded_length. rewrite Henc. simpl.
  split; intros Hsize.
  - rewrite bool_decide_eq_true_2 by exact Hsize. reflexivity.
  - rewrite bool_decide_eq_false_2 by (subst limit; lia).
    eexists. split; [reflexivity|]. simpl. auto.
Qed.

Lemma inline_complex_input_size_limit_witness :
  parse_complex_inputs (env_limit 0) (inline_input [233%N]) (fs_with_free 0)
  = (fs_with_free 0,
     Raise (FileSizeExceeded
              (py "File size for input exceeded. Maximum allowed: 0 megabytes")
              (VStr (py "layer"))))
  /\ exists c,
       parse_complex_inputs (env_limit 0) (inline_input []) (fs_with_free 0)
       = (fs_with_free 0, Ok c)
       /\ ci_data c = VStr []
       /\ ci_identifier c = VStr (py "layer")
       /\ ci_file c = None /\ ci_url c = None /\ ci_as_reference c = false.
Proof.
  split.
  - apply (inline_complex_input_size_limit (env_limit 0) (inline_input [233%N])
             (fs_with_free 0) [233%N] [195%N; 169%N]);
      [reflexivity | reflexivity | reflexivity | vm_compute; reflexivity].
  - apply (inline_complex_input_size_limit (env_limit 0) (inline_input [])
             (fs_with_free 0) [] []);
      [reflexivity | reflexivity | reflexivity | vm_compute; discriminate].
Defined.

(* ================================================================== *)
(** * The response document *)
(* ================================================================== *)

Lemma children_append c e : children (append c e) = children e ++ [c].
Proof. destruct e; reflexivity. Qed.

Lemma children_extend cs e : children (extend cs e) = children e ++ cs.
Proof. destruct e; reflexivity. Qed.

Lemma children_attrib_set k v e : children (attrib_set k v e) = children e.
Proof. destruct e; reflexivity. Qed.

(** The children [_construct_doc] gives the root before the status:
    the optional parts of the process description first, the [Process]
    element last. *)
Lemma process_part_children env process self :
  children (WPSResponse.process_part env process self)
  = optional_child (OWS "Abstract") (proc_abstract process)
    ++ map (WPSResponse.text_element (OWS "Metadata")) (proc_metadata process)
    ++ optional_child (OWS "Profile") (proc_profile process)
    ++ optional_child (OWS "WSDL") (proc_wsdl process)
    ++ [process_element process].
Proof.
  unfold WPSResponse.process_part, optional_child.
  rewrite children_append.
  destruct (negb (bool_decide (proc_wsdl process = [])));
  destruct (negb (bool_decide (proc_profile process = [])));
  destruct (negb (bool_decide (proc_abstract process = [])));
  repeat (rewrite ?children_append, ?children_extend, ?children_attrib_set);
  destruct (bool_decide (WPSResponse.STORE_STATUS <= resp_status self));
  destruct (negb (bool_decide (proc_status_location process = [])));
  repeat (rewrite ?children_append, ?children_extend, ?children_attrib_set);
  simpl; rewrite ?app_nil_r, <- ?app_assoc; reflexivity.
Qed.

(** [capabilities_xml] builds the same description with the optional
    parts under the [Process] element. *)
Lemma capabilities_xml_children (self : Process) :
  tag (capabilities_xml self) = WPS "Process"
  /\ children (capabilities_xml self)
     = [WPSResponse.text_element (OWS "Identifier") (proc_identifier self);
        WPSResponse.text_element (OWS "Title") (proc_title self)]
       ++ optional_child (OWS "Abstract") (proc_abstract self)
       ++ map (WPSResponse.text_element (OWS "Metadata")) (proc_metadata self)
       ++ optional_child (OWS "Profile") (proc_profile self)
       ++ optional_child (OWS "WSDL") (proc_wsdl self).
Proof.
  unfold capabilities_xml, optional_child.
  destruct (negb (bool_decide (proc_version self = py "None")));
  destruct (negb (bool_decide (proc_wsdl self = [])));
  destruct (negb (bool_decide (proc_profile self = [])));
  destruct (negb (bool_decide (proc_abstract self = [])));
  (split; [reflexivity|]);
  cbn [children attrib_set append extend app];
  rewrite ?app_nil_r, <- ?app_assoc; reflexivity.
Qed.

(** Whatever follows, the root keeps those children, and nothing that
    follows is a [Process] element. *)
Lemma construct_doc_children env process self files_ st doc :
  WPSResponse._construct_doc env process (self, files_) = (st, Ok doc) ->
  exists rest,
    children doc = children (WPSResponse.process_part env process self) ++ rest
    /\ Forall (fun c => tag c <> WPS "Process") rest.
Proof.
  unfold WPSResponse._construct_doc.
  destruct (_ && _).
  { destruct (WPSResponse.write_response_doc _ _ _ _) as [f [[]|e]]; intros [= <- <-].
    eexists. rewrite children_append. split; [reflexivity|].
    repeat constructor. discriminate. }
  destruct (_ && _).
  { intros [= <- <-]. eexists. rewrite children_append. split; [reflexivity|].
    repeat constructor. discriminate. }
  destruct (bool_decide (resp_status_percentage self = -1)).
  { intros [= <- <-]. eexists. rewrite children_append. split; [reflexivity|].
    repeat constructor. discriminate. }
  unfold bind, ret.
  destruct (bool_decide (req_lineage _ = _)).
  - destruct (WPSResponse.lineage_inputs env self (self, files_)) as [s1 [ins|e]]; [|intros [=]].
    destruct (WPSResponse.output_objects process self s1) as [s2 [outs|e]]; [|intros [=]].
    destruct (WPSResponse.output_objects process self s2) as [s3 [outs'|e]]; intros [= <- <-].
    eexists. rewrite !children_append, <- !app_assoc. split; [reflexivity|].
    repeat constructor; discriminate.
  - destruct (WPSResponse.output_objects process self (self, files_)) as [s3 [outs'|e]];
      intros [= <- <-].
    eexists. rewrite !children_append, <- !app_assoc. split; [reflexivity|].
    repeat constructor; discriminate.
Qed.

Lemma filter_none {A} (P : A -> Prop) `{forall x, Decision (P x)} (l : list A) :
  Forall (fun x => ~ P x) l -> filter P l = [].
Proof.
  induction 1 as [|x l Hx _ IH]; [reflexivity|].
  rewrite filter_cons, decide_False by exact Hx. exact IH.
Qed.

Lemma optional_child_tag q t :
  Forall (fun c => tag c = q) (optional_child q t).
Proof. unfold optional_child. destruct (negb _); repeat constructor. Qed.

Lemma construct_doc_failed env process self files_ :
  resp_status_percentage self = -1 ->
  WPSResponse._construct_doc env process (self, files_)
  = ((self, files_),
     Ok (append (WPSResponse._process_failed env self)
                (WPSResponse.process_part env process self))).
Proof.
  intros Hpct. unfold WPSResponse._construct_doc. rewrite Hpct.
  rewrite (bool_decide_eq_false_2 (-1 = 0)) by lia.
  rewrite (bool_decide_eq_false_2 (0 < -1 < 100)) by lia.
  rewrite !andb_false_r. rewrite bool_decide_eq_true_2 by reflexivity.
  reflexivity.
Qed.

(** [update_status] with a percentage other than zero: the message and
    the percentage are recorded, the document rebuilt, and written when
    the level asks for it. *)
Lemma update_status_nonzero (env : Env) (process : Process) (message : pystr)
    (n : Z) (self : WPSResponse) (files_ : FS) :
  n <> 0 ->
  let self1 := set_resp_status_percentage n (set_resp_message message self) in
  WPSResponse.update_status env process message (Some n) (self, files_)
  = match WPSResponse._construct_doc env process (self1, files_) with
    | ((self2, files2), Ok doc) =>
        let self3 := set_resp_doc (Some doc) self2 in
        if bool_decide (WPSResponse.STORE_STATUS <= resp_status self3) then
          let '(files3, r) := WPSResponse.write_response_doc env process (Some doc) files2 in
          ((self3, files3), r)
        else ((self3, files2), Ok tt)
    | (st, Raise e) => (st, Raise e)
    end.
Proof.
  intros Hn self1.
  unfold WPSResponse.update_status, bind, on_response, get_state, on_files, ret.
  rewrite bool_decide_eq_true_2 by exact Hn.
  cbv beta iota. fold self1.
  destruct (WPSResponse._construct_doc env process (self1, files_)) as [[self2 files2] [doc|e]];
    [|reflexivity].
  cbn [fst snd resp_status set_resp_doc resp_doc]. destruct (bool_decide _); reflexivity.
Qed.

Lemma update_status_failed env process message self files_ :
  WPSResponse.update_status env process message (Some (-1)) (self, files_)
  = if bool_decide (WPSResponse.STORE_STATUS <= resp_status self) then
      let '(files', r) :=
        WPSResponse.write_response_doc env process
          (resp_doc (failed_response env process message self)) files_ in
      ((failed_response env process message self, files'), r)
    else ((failed_response env process message self, files_), Ok tt).
Proof.
  rewrite update_status_nonzero by lia. cbv zeta.
  rewrite construct_doc_failed by reflexivity.
  reflexivity.
Qed.

Lemma write_response_doc_cases env process doc files_ :
  (can_open_w (proc_status_location process) files_ = true
   /\ WPSResponse.write_response_doc env process (Some doc) files_
      = (set_files (<[proc_status_location process := tostring env doc]> (files files_)) files_,
         Ok tt))
  \/ (can_open_w (proc_status_location process) files_ = false
      /\ WPSResponse.write_response_doc env process (Some doc) files_
         = (files_, Raise (NoApplicableCode WPSResponse.write_failed_message))).
Proof.
  unfold WPSResponse.write_response_doc, write_file.
  destruct (can_open_w _ _); [left|right]; split; reflexivity.
Qed.

(** C7.  A response whose percentage is [-1]: the document ends with a
    [Status] node wrapping [ProcessFailed], [ExceptionReport] and an
    [Exception] that carries the message and the code
    [NoApplicableCode]; the attribute holding the text [None] is named
    [locater], and the element has no attribute named [locator]. *)
Theorem process_failed_exception_attributes (env : Env) (process : Process)
    (self : WPSResponse) (files_ : FS) :
  resp_status_percentage self = -1 ->
  exists exc,
    WPSResponse._construct_doc env process (self, files_)
    = ((self, files_),
       Ok (append
             (Elem (WPS "Status") {[ "creationTime"%string := strftime_now env ]} None
                [Elem (WPS "ProcessFailed") ∅ None
                   [Elem (WPS "ExceptionReport") ∅ None [exc]]])
             (WPSResponse.process_part env process self)))
    /\ tag exc = OWS "Exception"
    /\ children exc = [Elem (OWS "Exception") ∅ (Some (resp_message self)) []]
    /\ attrib exc !! "exceptionCode"%string = Some (py "NoApplicableCode")
    /\ attrib exc !! "locater"%string = Some (py "None")
    /\ attrib exc !! "locator"%string = None
    /\ dom (attrib exc) = {[ "exceptionCode"%string; "locater"%string ]}.
Proof.
  intros Hpct. eexists. split.
  - apply construct_doc_failed, Hpct.
  - simpl. split_and!; reflexivity.
Qed.

Lemma process_failed_exception_attributes_witness :
  exists exc,
    (WPSResponse._construct_doc env0 failing_process
       (set_resp_status_percentage (-1) response_at_50, fs_with_free 0)).2
    = Ok (append
            (Elem (WPS "Status") {[ "creationTime"%string := py "2015-06-01T12:00:00Z" ]} None
               [Elem (WPS "ProcessFailed") ∅ None
                  [Elem (WPS "ExceptionReport") ∅ None [exc]]])
            (WPSResponse.process_part env0 failing_process
               (set_resp_status_percentage (-1) response_at_50)))
    /\ attrib exc !! "exceptionCode"%string = Some (py "NoApplicableCode")
    /\ attrib exc !! "locater"%string = Some (py "None")
    /\ attrib exc !! "locator"%string = None.
Proof.
  destruct (process_failed_exception_attributes env0 failing_process
              (set_resp_status_percentage (-1) response_at_50) (fs_with_free 0) eq_refl)
    as (exc & Hdoc & _ & _ & Hcode & Hlocater & Hlocator & _).
  exists exc. rewrite Hdoc. split; [reflexivity|].
  split; [exact Hcode|]. split; [exact Hlocater|exact Hlocator].
Defined.

(** C8.  [update_status] called with the percentage [0] behaves as when
    no percentage is given: the message is recorded, the percentage and
    the document stay as they were. *)
Theorem update_status_zero_is_ignored (env : Env) (process : Process)
    (message : pystr) (self : WPSResponse) (files_ : FS) :
  WPSResponse.update_status env process message (Some 0) (self, files_)
  = WPSResponse.update_status env process message None (self, files_)
  /\ (WPSResponse.update_status env process message (Some 0) (self, files_)).1.1
     = set_resp_message message self.
Proof.
  split; [reflexivity|].
  unfold WPSResponse.update_status, bind, on_response, get_state, on_files, ret. simpl.
  destruct (bool_decide _); [|reflexivity].
  destruct (WPSResponse.write_response_doc _ _ _ _) as [f []]; reflexivity.
Qed.

Example update_status_zero_at_50 :
  (WPSResponse.update_status env0 (buffer_process quiet_handler false false)
     (py "restarting") (Some 0) (response_at_50, fs_with_free 0)).1.1
  = set_resp_message (py "restarting") response_at_50
  /\ resp_status_percentage
       (WPSResponse.update_status env0 (buffer_process quiet_handler false false)
          (py "restarting") (Some 0) (response_at_50, fs_with_free 0)).1.1 = 50
  /\ resp_doc
       (WPSResponse.update_status env0 (buffer_process quiet_handler false false)
          (py "restarting") (Some 0) (response_at_50, fs_with_free 0)).1.1 = None.
Proof. vm_compute. repeat split; reflexivity. Qed.

(** C9.  In every document [_construct_doc] builds, the [Process]
    element has the [processVersion] attribute and exactly two
    children, the identifier and the title; the abstract, the metadata
    entries, the profile and the WSDL link, when present, are children
    of the document root. *)
Theorem process_element_children (env : Env) (process : Process)
    (self : WPSResponse) (files_ : FS) (st : WPSResponse * FS) (doc : Element) :
  WPSResponse._construct_doc env process (self, files_) = (st, Ok doc) ->
  child_elements (WPS "Process") doc
  = [Elem (WPS "Process")
          {[ WPSResponse.processVersion := proc_version process ]} None
          [WPSResponse.text_element (OWS "Identifier") (proc_identifier process);
           WPSResponse.text_element (OWS "Title") (proc_title process)]]
  /\ (proc_abstract process <> [] ->
      WPSResponse.text_element (OWS "Abstract") (proc_abstract process) ∈ children doc)
  /\ (forall m, m ∈ proc_metadata process ->
      WPSResponse.text_element (OWS "Metadata") m ∈ children doc)
  /\ (proc_profile process <> [] ->
      WPSResponse.text_element (OWS "Profile") (proc_profile process) ∈ children doc)
  /\ (proc_wsdl process <> [] ->
      WPSResponse.text_element (OWS "WSDL") (proc_wsdl process) ∈ children doc).
Proof.
  intros Hdoc. apply construct_doc_children in Hdoc as (rest & Hch & Hrest).
  rewrite process_part_children in Hch.
  split.
  - unfold child_elements. rewrite Hch, !filter_app.
    rewrite (filter_none _ rest) by exact Hrest.
    rewrite !(filter_none _ (optional_child _ _))
      by (eapply Forall_impl; [apply optional_child_tag|]; intros ? -> ; discriminate).
    rewrite (filter_none _ (map _ _))
      by (apply Forall_forall; intros ? [? [-> _]]%list_elem_of_fmap; discriminate).
    reflexivity.
  - rewrite Hch. unfold optional_child.
    split_and!.
    + intros Ha. rewrite bool_decide_eq_false_2 by exact Ha. simpl.
      repeat (rewrite elem_of_app || rewrite elem_of_cons). auto 10.
    + intros m Hm. apply (list_elem_of_fmap_2 (WPSResponse.text_element (OWS "Metadata"))) in Hm.
      repeat (rewrite elem_of_app || rewrite elem_of_cons). auto 10.
    + intros Ha. rewrite (bool_decide_eq_false_2 (proc_profile process = [])) by exact Ha.
      simpl. repeat (rewrite elem_of_app || rewrite elem_of_cons). auto 10.
    + intros Ha. rewrite (bool_decide_eq_false_2 (proc_wsdl process = [])) by exact Ha.
      simpl. repeat (rewrite elem_of_app || rewrite elem_of_cons). auto 10.
Qed.

Lemma process_element_children_witness :
  exists doc,
    (WPSResponse._construct_doc env0 (buffer_process quiet_handler false false)
       (set_resp_status_percentage (-1) response_at_50, fs_with_free 0)).2 = Ok doc
    /\ flat_map children (child_elements (WPS "Process") doc)
       = [Elem (OWS "Identifier") ∅ (Some (py "buffer")) [];
          Elem (OWS "Title") ∅ (Some (py "Buffer")) []]
    /\ Elem (OWS "Abstract") ∅ (Some (py "Buffers a layer")) [] ∈ children doc.
Proof.
  pose proof (construct_doc_failed env0 (buffer_process quiet_handler false false)
                (set_resp_status_percentage (-1) response_at_50) (fs_with_free 0) eq_refl)
    as Hdoc.
  destruct (process_element_children env0 (buffer_process quiet_handler false false)
              (set_resp_status_percentage (-1) response_at_50) (fs_with_free 0) _ _ Hdoc)
    as (Hprocess & Habstract & _).
  eexists. rewrite Hdoc. split; [reflexivity|]. split.
  - rewrite Hprocess. reflexivity.
  - apply Habstract. discriminate.
Defined.

(* ================================================================== *)
(** * [Process._run_process] and [Process.execute] *)
(* ================================================================== *)

(** The frame the traceback search settles on: the first one named
    [_handler], or the first entry when there is none. *)
Lemma search_handler_spec first exc_tb frames :
  let found := Process.search_handler first exc_tb frames in
  (found ∈ exc_tb :: frames /\ co_name found = py "_handler")
  \/ (found = first /\ Forall (fun f => co_name f <> py "_handler") (exc_tb :: frames)).
Proof.
  revert exc_tb. induction frames as [|next rest IH]; intros exc_tb; simpl.
  - case_bool_decide as Hn.
    + left. split; [apply elem_of_cons; left; reflexivity|exact Hn].
    + right. split; [reflexivity|]. repeat constructor. exact Hn.
  - case_bool_decide as Hn.
    + left. split; [apply elem_of_cons; left; reflexivity|exact Hn].
    + destruct (IH next) as [[Hin Hname]|[Heq Hall]].
      * left. split; [apply elem_of_cons; right; exact Hin|exact Hname].
      * right. split; [exact Heq|]. constructor; assumption.
Qed.

(** C1, as stated, fails.  A handler that calls [sys.exit(1)]:
    [SystemExit] is not an instance of [Exception], the [except] clause
    does not catch it, and it leaves [_run_process].  And a handler that
    raises [ValueError] while the response is to be stored and the
    status file cannot be opened: the [update_status] of the [except]
    clause raises [NoApplicableCode], which leaves [_run_process]; no
    response is returned and no file is written. *)
Lemma handler_exception_leaves_counterexample :
  Process._run_process env0 parsed_request
    (WPSResponse.init exiting_process parsed_request) (exiting_process, world0)
  = ((exiting_process, log_event (HandlerInvoked (py "buffer")) world0),
     Raise (BaseExceptionOnly "SystemExit" (py "1")))
  /\ ~ handler_exception_recorded env0 exiting_process world0 parsed_request
         (WPSResponse.init exiting_process parsed_request)
  /\ Process._run_process env0 stored_request lost_response (lost_process, world0)
     = ((lost_process, log_event (HandlerInvoked (py "buffer")) world0),
        Raise (NoApplicableCode WPSResponse.write_failed_message))
  /\ ~ handler_exception_recorded env0 lost_process world0 stored_request lost_response.
Proof.
  assert (Hexit : Process._run_process env0 parsed_request
    (WPSResponse.init exiting_process parsed_request) (exiting_process, world0)
  = ((exiting_process, log_event (HandlerInvoked (py "buffer")) world0),
     Raise (BaseExceptionOnly "SystemExit" (py "1")))) by (vm_compute; reflexivity).
  assert (Hlost : Process._run_process env0 stored_request lost_response
                    (lost_process, world0)
     = ((lost_process, log_event (HandlerInvoked (py "buffer")) world0),
        Raise (NoApplicableCode WPSResponse.write_failed_message)))
    by (vm_compute; reflexivity).
  split; [exact Hexit|]. split; [|split; [exact Hlost|]].
  - intros Hclaim. destruct (Hclaim _ _ eq_refl) as (st & r & Hrun & _).
    rewrite Hexit in Hrun. discriminate Hrun.
  - intros Hclaim. destruct (Hclaim _ _ eq_refl) as (st & r & Hrun & _).
    rewrite Hlost in Hrun. discriminate Hrun.
Qed.

(** A handler that returns [None] does not raise, and what leaves
    [_run_process] is the [AttributeError] of the [except] clause
    itself. *)
Example run_process_handler_returns_none :
  Process._run_process env0 parsed_request
    (WPSResponse.init (buffer_process forgetful_handler true true) parsed_request)
    (buffer_process forgetful_handler true true, world0)
  = ((buffer_process forgetful_handler true true,
      log_event (HandlerInvoked (py "buffer")) world0),
     Raise (PythonError "AttributeError"
              (py "'NoneType' object has no attribute 'update_status'"))).
Proof. vm_compute. reflexivity. Qed.

(** C1, as amended.  When the handler raises [e], an instance of
    [Exception], [_run_process] calls [update_status(message, -1)] on
    the response, where [message] is
    ['Process error: <file>.<function> Line <line> <str(e)>'] built from
    the traceback frame the search settles on; the response then has
    that message and the percentage [-1].  [_run_process] returns it
    when no status file is asked for, and when the status file can be
    written, which then holds the failed document; when the status file
    has to be written and cannot be opened, [_run_process] ends in the
    [NoApplicableCode] of [write_response_doc].  An [e] that is not an
    instance of [Exception] leaves [_run_process] as it is. *)
Theorem run_process_handler_exception (env : Env) (self : Process) (w : World)
    (wps_request : WPSRequest) (wps_response : WPSResponse)
    (e : PyException) (frames : list Frame) :
  let o := proc_handler self wps_request wps_response (proc_outputs self) (fs w) in
  h_end o = Raises e frames ->
  let first := Process.own_frame env 696 in
  let exc_tb := Process.search_handler first first frames in
  let message :=
    py "Process error: " ++ (os_path_split (co_filename exc_tb)).2 ++ py "."
       ++ co_name exc_tb ++ py " Line " ++ str_of_Z (tb_lineno exc_tb)
       ++ py " " ++ exception_str env e in
  let self' := set_proc_outputs (h_outputs o) self in
  let w' := log_event (HandlerInvoked (proc_identifier self)) (set_fs (h_fs o) w) in
  let failed := failed_response env self' message (h_response o) in
  let location := proc_status_location self in
  (is_Exception e = false ->
   Process._run_process env wps_request wps_response (self, w) = ((self', w'), Raise e))
  /\ (is_Exception e = true ->
      ((exc_tb ∈ frames /\ co_name exc_tb = py "_handler")
       \/ (exc_tb = first /\ Forall (fun f => co_name f <> py "_handler") frames))
      /\ Process._run_process env wps_request wps_response (self, w)
         = (let '((r, f), res) :=
              WPSResponse.update_status env self' message (Some (-1))
                (h_response o, h_fs o) in
            ((self', set_fs f w'),
             match res with Ok _ => Ok r | Raise e' => Raise e' end))
      /\ resp_message failed = message
      /\ resp_status_percentage failed = -1
      /\ (resp_status (h_response o) < WPSResponse.STORE_STATUS ->
          Process._run_process env wps_request wps_response (self, w)
          = ((self', w'), Ok failed))
      /\ (WPSResponse.STORE_STATUS <= resp_status (h_response o) ->
          can_open_w location (h_fs o) = true ->
          exists doc,
            resp_doc failed = Some doc
            /\ Process._run_process env wps_request wps_response (self, w)
               = ((self', set_fs (set_files (<[location := tostring env doc]>
                                               (files (h_fs o)))
                                            (h_fs o)) w'),
                  Ok failed))
      /\ (WPSResponse.STORE_STATUS <= resp_status (h_response o) ->
          can_open_w location (h_fs o) = false ->
          Process._run_process env wps_request wps_response (self, w)
          = ((self', w'), Raise (NoApplicableCode WPSResponse.write_failed_message)))).
Proof.
  intros o Hraised first exc_tb message self' w' failed location.
  split.
  { intros Hbase. unfold Process._run_process. fold o. rewrite Hraised, Hbase.
    reflexivity. }
  intros Hexc.
  assert (Hrun : Process._run_process env wps_request wps_response (self, w)
     = (let '((r, f), res) :=
          WPSResponse.update_status env self' message (Some (-1)) (h_response o, h_fs o) in
        ((self', set_fs f w'),
         match res with Ok _ => Ok r | Raise e' => Raise e' end))).
  { unfold Process._run_process. fold o. rewrite Hraised, Hexc.
    unfold Process.on_exception, Process.call_response.
    cbn [fst snd fs set_fs log_event].
    fold self' first exc_tb.
    change (Process.error_message env exc_tb e) with message.
    destruct (WPSResponse.update_status env self' message (Some (-1)) (h_response o, h_fs o))
      as [[r f] [[]|e']]; reflexivity. }
  split.
  { destruct (search_handler_spec first first frames) as [[Hin Hname]|[Heq Hall]].
    - left. fold exc_tb in Hin, Hname. split; [|exact Hname].
      apply elem_of_cons in Hin as [Heq|Hin]; [|exact Hin].
      exfalso. rewrite Heq in Hname. vm_compute in Hname. discriminate.
    - right. split; [exact Heq|]. inversion Hall; assumption. }
  split; [exact Hrun|].
  split; [reflexivity|]. split; [reflexivity|].
  rewrite Hrun, update_status_failed. fold failed.
  split; [|split].
  - intros Hlt. rewrite bool_decide_eq_false_2 by lia.
    destruct w; reflexivity.
  - intros Hge Hopen. rewrite bool_decide_eq_true_2 by exact Hge.
    eexists. split; [reflexivity|].
    change (proc_status_location self') with location.
    destruct (write_response_doc_cases env self' 
                (append (WPSResponse._process_failed env
                           (set_resp_status_percentage (-1)
                              (set_resp_message message (h_response o))))
                        (WPSResponse.process_part env self'
                           (set_resp_status_percentage (-1)
                              (set_resp_message message (h_response o)))))
                (h_fs o)) as [[_ Hw]|[Hc _]].
    + unfold failed at 1. unfold failed_response. cbn [resp_doc set_resp_doc].
      rewrite Hw. reflexivity.
    + change (proc_status_location self') with location in Hc. congruence.
  - intros Hge Hopen. rewrite bool_decide_eq_true_2 by exact Hge.
    destruct (write_response_doc_cases env self' 
                (append (WPSResponse._process_failed env
                           (set_resp_status_percentage (-1)
                              (set_resp_message message (h_response o))))
                        (WPSResponse.process_part env self'
                           (set_resp_status_percentage (-1)
                              (set_resp_message message (h_response o)))))
                (h_fs o)) as [[Hc _]|[_ Hw]].
    + change (proc_status_location self') with location in Hc. congruence.
    + unfold failed at 1. unfold failed_response. cbn [resp_doc set_resp_doc].
      rewrite Hw. destruct w; reflexivity.
Qed.

Lemma run_process_handler_exception_witness :
  exists r,
    (Process._run_process env0 parsed_request
       (WPSResponse.init failing_process parsed_request) (failing_process, world0)).2
    = Ok r
    /\ resp_message r = py "Process error: buffer.py._handler Line 42 boom"
    /\ resp_status_percentage r = -1.
Proof.
  destruct (run_process_handler_exception env0 failing_process world0 parsed_request
              (WPSResponse.init failing_process parsed_request)
              (PythonError "ValueError" (py "boom"))
              [{| co_filename := py "/srv/wps/processes/buffer.py";
                  co_name := py "_handler"; tb_lineno := 42 |};
               {| co_filename := py "/srv/wps/processes/geometry.py";
                  co_name := py "load"; tb_lineno := 7 |}]
              eq_refl) as (_ & Hcaught).
  destruct (Hcaught eq_refl) as (_ & _ & Hmessage & Hpercentage & Hlow & _).
  eexists. rewrite Hlow by (vm_compute; reflexivity).
  split; [reflexivity|]. split; [|exact Hpercentage].
  rewrite Hmessage. vm_compute. reflexivity.
Defined.

Lemma call_response_process {A} (m : Py (WPSResponse * FS) A) r st :
  (Process.call_response m r st).1.1.1 = st.1.
Proof.
  unfold Process.call_response. destruct st as [self w].
  destruct (m (r, fs w)) as [[r' f] res]. reflexivity.
Qed.

Lemma on_exception_process env lineno frames e r st :
  (Process.on_exception env lineno frames e r st).1.1 = st.1.
Proof.
  unfold Process.on_exception.
  pose proof (call_response_process
    (WPSResponse.update_status env st.1
       (Process.error_message env
          (Process.search_handler (Process.own_frame env lineno)
             (Process.own_frame env lineno) frames) e) (Some (-1))) r st) as H.
  destruct (Process.call_response _ r st) as [[st' r'] [x|e']]; exact H.
Qed.

(** [_run_process] changes nothing of the process but its output
    objects. *)
Lemma run_process_process env wps_request wps_response self w :
  exists outs,
    (Process._run_process env wps_request wps_response (self, w)).1.1
    = set_proc_outputs outs self.
Proof.
  unfold Process._run_process.
  set (o := proc_handler self wps_request wps_response (proc_outputs self) (fs w)).
  exists (h_outputs o).
  destruct (h_end o) as [|type_name|e frames].
  - destruct (bool_decide _); [|reflexivity].
    match goal with
    | |- context [Process.call_response ?m ?r ?st] =>
        pose proof (call_response_process m r st) as H;
        destruct (Process.call_response m r st) as [[st' r'] [x|e']]
    end.
    + exact H.
    + destruct (is_Exception e'); [|exact H].
      rewrite on_exception_process. exact H.
  - reflexivity.
  - destruct (is_Exception e); [|reflexivity].
    rewrite on_exception_process. reflexivity.
Qed.

(** C2.  [Process.execute] on a request with [store_execute = 'true']:
    [StorageNotSupported] unless the process declares storage; then,
    when [status] is ['true'] too, [OperationNotSupported] unless the
    process declares status updates, and otherwise the response is
    handed to the task with level [STORE_AND_UPDATE_STATUS]; when
    [status] is not ['true'] the response is run with level
    [STORE_STATUS]. *)
Theorem execute_store_and_status_checks (env : Env) (fresh_uuid : pystr)
    (wps_request : WPSRequest) (self : Process) (w : World) :
  req_store_execute wps_request = py "true" ->
  let self1 := set_proc_uuid (Some fresh_uuid) self in
  let self2 :=
    set_proc_status_files
      (os_path_join (get_config_value env "server" "outputPath") fresh_uuid ++ py ".xml")
      (os_path_join (fmt3 (get_config_value env "wps" "serveraddress")
                          (get_config_value env "wps" "serverport")
                          (get_config_value env "server" "outputUrl")) fresh_uuid
         ++ py ".xml")
      self1 in
  let wps_response := WPSResponse.init self1 wps_request in
  (proc_store_supported self <> py "true" ->
   Process.execute env fresh_uuid wps_request (self, w)
   = ((self1, w),
      Raise (StorageNotSupported
               (py "Process does not support the storing of the execute response"))))
  /\ (proc_store_supported self = py "true" ->
      req_status wps_request = py "true" ->
      proc_status_supported self <> py "true" ->
      Process.execute env fresh_uuid wps_request (self, w)
      = ((self2, w),
         Raise (OperationNotSupported
                  (py "Process does not support the updating of status"))))
  /\ (proc_store_supported self = py "true" ->
      req_status wps_request = py "true" ->
      proc_status_supported self = py "true" ->
      let started := set_resp_status WPSResponse.STORE_AND_UPDATE_STATUS wps_response in
      Process.execute env fresh_uuid wps_request (self, w)
      = ((self2, log_event (TaskStarted self2 wps_request started) w), Ok started))
  /\ (proc_store_supported self = py "true" ->
      req_status wps_request <> py "true" ->
      Process.execute env fresh_uuid wps_request (self, w)
      = Process._run_process env wps_request
          (set_resp_status WPSResponse.STORE_STATUS wps_response) (self2, w)).
Proof.
  intros Hstore self1 self2 wps_response. subst self1 self2 wps_response.
  unfold Process.execute, Process.check_store.
  rewrite Hstore, bool_decide_eq_true_2 by reflexivity.
  cbn [proc_store_supported proc_status_supported set_proc_uuid proc_uuid default
       set_proc_status_files].
  split_and!.
  - intros Hns. rewrite bool_decide_eq_true_2 by exact Hns. reflexivity.
  - intros Hs Hst Hnst. rewrite Hs, Hst.
    rewrite (bool_decide_eq_false_2 (py "true" <> py "true")) by (intros H; apply H; reflexivity).
    rewrite bool_decide_eq_true_2 by reflexivity.
    rewrite bool_decide_eq_true_2 by exact Hnst. reflexivity.
  - intros Hs Hst Hsst. rewrite Hs, Hst, Hsst.
    rewrite (bool_decide_eq_false_2 (py "true" <> py "true")) by (intros H; apply H; reflexivity).
    rewrite bool_decide_eq_true_2 by reflexivity. reflexivity.
  - intros Hs Hnst. rewrite Hs.
    rewrite (bool_decide_eq_false_2 (py "true" <> py "true")) by (intros H; apply H; reflexivity).
    rewrite (bool_decide_eq_false_2 (req_status wps_request = py "true")) by exact Hnst.
    reflexivity.
Qed.

Lemma execute_store_and_status_checks_witness :
  let stored := execute_request (InputsParsed ∅) (py "true") (py "false") in
  let followed := execute_request (InputsParsed ∅) (py "true") (py "true") in
  let located p :=
    set_proc_status_files
      (py "/var/wps/out/0b9d4c3e-5a54-4a0e-9f57-0c2d3b1a7e11.xml")
      (py "http://localhost:5000/wps/outputs/0b9d4c3e-5a54-4a0e-9f57-0c2d3b1a7e11.xml")
      (set_proc_uuid (Some uuid0) p) in
  (Process.execute env0 uuid0 stored (buffer_process quiet_handler false false, world0)).2
  = Raise (StorageNotSupported
             (py "Process does not support the storing of the execute response"))
  /\ (Process.execute env0 uuid0 followed (buffer_process quiet_handler true false, world0)).2
     = Raise (OperationNotSupported
                (py "Process does not support the updating of status"))
  /\ (exists r,
        (Process.execute env0 uuid0 followed
           (buffer_process quiet_handler true true, world0)).2 = Ok r
        /\ resp_status r = WPSResponse.STORE_AND_UPDATE_STATUS)
  /\ Process.execute env0 uuid0 stored (buffer_process quiet_handler true true, world0)
     = Process._run_process env0 stored
         (set_resp_status WPSResponse.STORE_STATUS
            (WPSResponse.init (set_proc_uuid (Some uuid0)
                                 (buffer_process quiet_handler true true)) stored))
         (located (buffer_process quiet_handler true true), world0).
Proof.
  intros stored followed located. split_and!.
  - rewrite (proj1 (execute_store_and_status_checks env0 uuid0 stored
                      (buffer_process quiet_handler false false) world0 eq_refl))
      by discriminate.
    reflexivity.
  - rewrite (proj1 (proj2 (execute_store_and_status_checks env0 uuid0 followed
                      (buffer_process quiet_handler true false) world0 eq_refl)))
      by (try reflexivity; discriminate).
    reflexivity.
  - eexists.
    rewrite (proj1 (proj2 (proj2 (execute_store_and_status_checks env0 uuid0 followed
                      (buffer_process quiet_handler true true) world0 eq_refl))))
      by reflexivity.
    split; reflexivity.
  - rewrite (proj2 (proj2 (proj2 (execute_store_and_status_checks env0 uuid0 stored
                      (buffer_process quiet_handler true true) world0 eq_refl))))
      by (try reflexivity; discriminate).
    reflexivity.
Defined.

(** C10.  After [Process.execute], whatever its outcome, [uuid] is the
    string drawn from [uuid4] in this call; when [store_execute] is not
    ['true'], [status_location] and [status_url] are what they were
    before the call; they change only when it is ['true'], and then,
    if the process declares storage, to the path and the URL of
    [<uuid>.xml]. *)
Theorem execute_uuid_and_status_files (env : Env) (fresh_uuid : pystr)
    (wps_request : WPSRequest) (self : Process) (w : World) :
  let self' := (Process.execute env fresh_uuid wps_request (self, w)).1.1 in
  proc_uuid self' = Some fresh_uuid
  /\ (req_store_execute wps_request <> py "true" ->
      proc_status_location self' = proc_status_location self
      /\ proc_status_url self' = proc_status_url self)
  /\ (proc_status_location self' <> proc_status_location self
      \/ proc_status_url self' <> proc_status_url self ->
      req_store_execute wps_request = py "true")
  /\ (req_store_execute wps_request = py "true" ->
      proc_store_supported self = py "true" ->
      proc_status_location self'
      = os_path_join (get_config_value env "server" "outputPath") fresh_uuid ++ py ".xml"
      /\ proc_status_url self'
         = os_path_join (fmt3 (get_config_value env "wps" "serveraddress")
                              (get_config_value env "wps" "serverport")
                              (get_config_value env "server" "outputUrl")) fresh_uuid
             ++ py ".xml").
Proof.
  intros self'.
  assert (Hne : req_store_execute wps_request <> py "true" ->
                proc_status_location self' = proc_status_location self
                /\ proc_status_url self' = proc_status_url self).
  { intros Hn. subst self'. unfold Process.execute, Process.check_store.
    rewrite (bool_decide_eq_false_2 _ Hn).
    destruct (run_process_process env wps_request
                (WPSResponse.init (set_proc_uuid (Some fresh_uuid) self) wps_request)
                (set_proc_uuid (Some fresh_uuid) self) w) as [outs ->].
    split; reflexivity. }
  split; [|split; [exact Hne|split]].
  - subst self'. unfold Process.execute.
    destruct (Process.check_store env _ wps_request _) as [self1 [[r async]|e]] eqn:Hc.
    + assert (proc_uuid self1 = Some fresh_uuid) as Hu.
      { unfold Process.check_store in Hc.
        repeat (destruct (bool_decide _) in Hc); inversion Hc; reflexivity. }
      destruct async; [exact Hu|].
      destruct (run_process_process env wps_request r self1 w) as [outs ->]. exact Hu.
    + unfold Process.check_store in Hc.
      repeat (destruct (bool_decide _) in Hc); inversion Hc; reflexivity.
  - intros Hchanged.
    destruct (decide (req_store_execute wps_request = py "true")) as [Heq|Hn]; [exact Heq|].
    destruct (Hne Hn) as [H1 H2]. destruct Hchanged; congruence.
  - intros Hstore Hsupported. subst self'. unfold Process.execute, Process.check_store.
    rewrite Hstore, bool_decide_eq_true_2 by reflexivity.
    cbn [proc_store_supported set_proc_uuid proc_uuid default].
    rewrite Hsupported.
    rewrite (bool_decide_eq_false_2 (py "true" <> py "true"))
      by (intros H; apply H; reflexivity).
    destruct (bool_decide (req_status wps_request = py "true")).
    + destruct (bool_decide _); split; reflexivity.
    + match goal with
      | |- context [Process._run_process env wps_request ?r (?p, w)] =>
          destruct (run_process_process env wps_request r p w) as [outs ->]
      end.
      split; reflexivity.
Qed.

Example execute_twice_keeps_status_files :
  let first := Process.execute env0 uuid0
                 (execute_request (InputsParsed ∅) (py "true") (py "false"))
                 (buffer_process quiet_handler true true, world0) in
  let second := Process.execute env0 (py "7c1f0a52-1111-4222-8333-444455556666")
                  (execute_request (InputsParsed ∅) (py "false") (py "false"))
                  first.1 in
  proc_status_location first.1.1 = py "/var/wps/out/0b9d4c3e-5a54-4a0e-9f57-0c2d3b1a7e11.xml"
  /\ proc_uuid second.1.1 = Some (py "7c1f0a52-1111-4222-8333-444455556666")
  /\ proc_status_location second.1.1
     = py "/var/wps/out/0b9d4c3e-5a54-4a0e-9f57-0c2d3b1a7e11.xml"
  /\ proc_status_url second.1.1
     = py "http://localhost:5000/wps/outputs/0b9d4c3e-5a54-4a0e-9f57-0c2d3b1a7e11.xml".
Proof. vm_compute. repeat split; reflexivity. Qed.

(* ================================================================== *)
(** * [WPSRequest]: the Execute document *)
(* ================================================================== *)

Example get_data_from_kvp_ex :
  let field := kvp_field in
  field "foo" "foo" "identifier" = Some (VStr (py "foo"))
  /\ field "foo" "foo" "data" = Some (VStr [])
  /\ field "distance=10@uom=m;layer=abc" "distance" "data" = Some (VStr (py "10"))
  /\ field "distance=10@uom=m;layer=abc" "distance" "uom" = Some (VStr (py "m"))
  /\ field "distance=10@uom=m;layer=abc" "layer" "data" = Some (VStr (py "abc"))
  /\ field "distance=10@uom;layer=abc" "distance=10@uom" "data" = Some (VStr [])
  /\ get_data_from_kvp None = None.
Proof. cbv zeta. split_and!; vm_compute; reflexivity. Qed.

(** In a GET request a raw output is never stored and never followed. *)
Lemma get_execute_raw_not_stored http_request req :
  WPSRequest.get_execute http_request tt = (tt, Ok req) ->
  req_raw req = true ->
  req_store_execute req = py "false" /\ req_status req = py "false".
Proof.
  unfold WPSRequest.get_execute, bind, ret.
  destruct (WPSRequest.check_get_version http_request tt) as [[] [v|e]]; [|discriminate].
  destruct (WPSRequest.nonempty_dict _);
    [|destruct (WPSRequest.nonempty_dict _)];
    intros [= <-]; cbn [req_raw req_store_execute req_status];
    first [discriminate | intros _; split; reflexivity].
Qed.

(** In a POST request the flag [raw] follows the presence of a
    [RawDataOutput]. *)
Lemma post_execute_raw_flag doc req :
  WPSRequest.post_execute doc tt = (tt, Ok req) ->
  (req_raw req = true <-> xpath_abs path_RawDataOutput doc <> []).
Proof.
  unfold WPSRequest.post_execute. intros H.
  apply bind_ok in H as (s1 & v & _ & H).
  apply bind_ok in H as (s2 & idel & _ & H).
  apply bind_ok in H as (s3 & ins & _ & H).
  apply bind_ok in H as (s4 & outs & _ & H).
  destruct (xpath_abs path_RawDataOutput doc) as [|x l];
    destruct (xpath_rel [WPS "ResponseForm"; WPS "ResponseDocument"] doc) as [|rd l'];
    inversion H; subst; cbn [req_raw]; split; congruence.
Qed.

(** Without a [ResponseDocument] a raw request is not stored. *)
Lemma post_execute_raw_only doc req :
  WPSRequest.post_execute doc tt = (tt, Ok req) ->
  xpath_rel [WPS "ResponseForm"; WPS "ResponseDocument"] doc = [] ->
  req_store_execute req = py "false".
Proof.
  unfold WPSRequest.post_execute. intros H Hrd.
  apply bind_ok in H as (s1 & v & _ & H).
  apply bind_ok in H as (s2 & idel & _ & H).
  apply bind_ok in H as (s3 & ins & _ & H).
  apply bind_ok in H as (s4 & outs & _ & H).
  rewrite Hrd in H.
  destruct (xpath_abs path_RawDataOutput doc) as [|x l];
    inversion H; subst; reflexivity.
Qed.

(** With a [ResponseDocument], [store_execute] is what its
    [storeExecuteResponse] attribute says, raw or not. *)
Lemma post_execute_response_document doc req rd rest :
  WPSRequest.post_execute doc tt = (tt, Ok req) ->
  xpath_rel [WPS "ResponseForm"; WPS "ResponseDocument"] doc = rd :: rest ->
  req_store_execute req = attrib_get rd "storeExecuteResponse" (py "false")
  /\ req_status req = attrib_get rd "status" (py "false")
  /\ req_lineage req = attrib_get rd "lineage" (py "false").
Proof.
  unfold WPSRequest.post_execute. intros H Hrd.
  apply bind_ok in H as (s1 & v & _ & H).
  apply bind_ok in H as (s2 & idel & _ & H).
  apply bind_ok in H as (s3 & ins & _ & H).
  apply bind_ok in H as (s4 & outs & _ & H).
  rewrite Hrd in H.
  destruct (xpath_abs path_RawDataOutput doc) as [|x l];
    inversion H; subst; split_and!; reflexivity.
Qed.

Example post_execute_raw_doc :
  exists req,
    WPSRequest.init_post env0 execute_doc_raw tt = (tt, Ok req)
    /\ req_raw req = true
    /\ req_store_execute req = py "false"
    /\ req_outputs req !! Some (py "result") ≫= (fun d => d !! Some (py "mimetype"))
       = Some (VStr []).
Proof.
  eexists. split; [vm_compute; reflexivity|].
  split; [reflexivity|]. split; [reflexivity|]. vm_compute. reflexivity.
Qed.

(** C6.  An Execute document that holds a [RawDataOutput] and a
    [ResponseDocument] with [storeExecuteResponse="true"] parses to a
    request with [raw] true and [store_execute] equal to ['true']. *)
Theorem post_execute_raw_and_stored :
  exists req,
    WPSRequest.init_post env0 execute_doc_both_forms tt = (tt, Ok req)
    /\ xpath_abs path_RawDataOutput execute_doc_both_forms <> []
    /\ req_raw req = true
    /\ req_store_execute req = py "true".
Proof.
  eexists. split; [vm_compute; reflexivity|].
  split; [vm_compute; discriminate|]. split; reflexivity.
Qed.

(* ================================================================== *)
(** * [Service.execute] *)
(* ================================================================== *)

Lemma parse_inputs_app env pre rest inputs acc files_ :
  Service.parse_inputs env (pre ++ rest) inputs acc files_
  = match Service.parse_inputs env pre inputs acc files_ with
    | (files', Ok acc') => Service.parse_inputs env rest inputs acc' files'
    | (files', Raise e) => (files', Raise e)
    end.
Proof.
  revert acc files_. induction pre as [|inpt pre IH]; intros acc files_; [reflexivity|].
  cbn [app Service.parse_inputs].
  destruct (Service.is_InputsNone inputs); [reflexivity|].
  destruct (negb _); [reflexivity|].
  destruct (in_class inpt); unfold bind.
  - destruct (Service.submitted_dict inputs (in_identifier inpt) files_) as [f1 [d|e]];
      [|reflexivity].
    destruct (parse_complex_inputs env d f1) as [f2 [c|e]]; [|reflexivity].
    apply IH.
  - destruct (Service.submitted_dict inputs (in_identifier inpt) files_) as [f1 [d|e]];
      [|reflexivity].
    apply IH.
  - apply IH.
Qed.

Lemma parse_inputs_missing env declared inputs acc files_ :
  (exists inpt, inpt ∈ declared
                /\ Service.submitted inputs (in_identifier inpt) = false) ->
  exists files' e,
    Service.parse_inputs env declared inputs acc files_ = (files', Raise e).
Proof.
  intros (inpt & Hin & Hmiss). revert acc files_.
  induction declared as [|x declared IH]; intros acc files_; [inversion Hin|].
  cbn [Service.parse_inputs].
  destruct (Service.is_InputsNone inputs); [unfold raise; eauto|].
  destruct (negb (Service.submitted inputs (in_identifier x))) eqn:Hx;
    [unfold raise; eauto|].
  assert (Hin' : inpt ∈ declared).
  { apply elem_of_cons in Hin as [->|Hin]; [|exact Hin].
    rewrite Hmiss in Hx. discriminate. }
  destruct (in_class x); unfold bind.
  - destruct (Service.submitted_dict inputs (in_identifier x) files_) as [f1 [d|e]];
      [|eauto].
    destruct (parse_complex_inputs env d f1) as [f2 [c|e]]; [|eauto].
    apply IH, Hin'.
  - destruct (Service.submitted_dict inputs (in_identifier x) files_) as [f1 [d|e]];
      [|eauto].
    apply IH, Hin'.
  - apply IH, Hin'.
Qed.

Lemma parse_inputs_ok_submitted env declared inputs acc files_ files' acc' :
  Service.parse_inputs env declared inputs acc files_ = (files', Ok acc') ->
  Forall (fun inpt => Service.submitted inputs (in_identifier inpt) = true) declared.
Proof.
  intros Hok. apply Forall_forall. intros inpt Hin.
  destruct (Service.submitted inputs (in_identifier inpt)) eqn:Hs; [reflexivity|].
  destruct (parse_inputs_missing env declared inputs acc files_) as (f & e & He);
    [eauto|congruence].
Qed.

Lemma service0_buffer :
  processes service0 !! py "buffer" = Some (buffer_process quiet_handler false false).
Proof. reflexivity. Qed.

Lemma service_execute_found env fresh_uuid self w identifier process wps_request :
  processes self !! identifier = Some process ->
  Service.execute env fresh_uuid (Some identifier) wps_request (self, w)
  = let '((process', w'), r) :=
      Service.execute_process env fresh_uuid wps_request (process, w) in
    ({| processes := <[identifier := process']> (processes self) |}, w', r).
Proof.
  intros Hp. unfold Service.execute. cbn [mbind option_bind].
  rewrite Hp. reflexivity.
Qed.

(** C4, as stated, fails.  A request without any inputs, to a process
    whose first declared input is [layer]: the first missing declared
    identifier is [layer], yet the locator of the
    [MissingParameterValue] raised is ['datainputs']. *)
Lemma missing_input_no_datainputs_counterexample :
  first_missing declared_inputs InputsNone
  = Some {| in_identifier := py "layer"; in_class := IsComplexInput |}
  /\ Service.execute env0 uuid0 (Some (py "buffer"))
       (execute_request InputsNone (py "false") (py "false")) (service0, world0)
     = ((service0, world0),
        Raise (MissingParameterValue [] (VStr (py "datainputs"))))
  /\ ~ missing_input_reported env0 uuid0 service0 world0 (py "buffer")
         (execute_request InputsNone (py "false") (py "false")).
Proof.
  assert (Hrun : Service.execute env0 uuid0 (Some (py "buffer"))
       (execute_request InputsNone (py "false") (py "false")) (service0, world0)
     = ((service0, world0),
        Raise (MissingParameterValue [] (VStr (py "datainputs"))))).
  { rewrite (service_execute_found _ _ _ _ _ _ _ service0_buffer).
    vm_compute. reflexivity. }
  split; [reflexivity|]. split; [exact Hrun|].
  intros Hclaim.
  destruct (Hclaim _ _ service0_buffer ltac:(discriminate) eq_refl) as (st & Hst & _).
  rewrite Hrun in Hst. inversion Hst.
Qed.

(** A missing input is also not reported when the conversion of an
    earlier declared input fails first. *)
Example missing_input_masked_by_conversion_error :
  first_missing declared_inputs (req_inputs request_broken_layer)
  = Some {| in_identifier := py "distance"; in_class := IsLiteralInput |}
  /\ (Service.execute env0 uuid0 (Some (py "buffer")) request_broken_layer
        (service0, world0)).2
     = Raise (PythonError "AttributeError" (py "object has no attribute 'encode'")).
Proof.
  split; [vm_compute; reflexivity|].
  rewrite (service_execute_found _ _ _ _ _ _ _ service0_buffer).
  vm_compute. reflexivity.
Qed.

(** A request without inputs as it arrives: a GET Execute request with
    no [DataInputs] parameter. *)
Example get_execute_no_datainputs_ex :
  exists req,
    WPSRequest.init env0 get_execute_no_datainputs tt = (tt, Ok req)
    /\ req_identifier req = Some (py "buffer")
    /\ Service.is_InputsNone (req_inputs req) = true
    /\ (Service.execute env0 uuid0 (req_identifier req) req (service0, world0)).2
       = Raise (MissingParameterValue [] (VStr (py "datainputs"))).
Proof.
  eexists. split; [vm_compute; reflexivity|].
  split; [reflexivity|]. split; [reflexivity|]. vm_compute. reflexivity.
Qed.

(** C4, as amended.  [Service.execute] on a registered process: when
    the process declares inputs and the request carries none at all,
    [MissingParameterValue] with locator ['datainputs']; when the
    declared inputs before a missing one are all submitted and
    converted without error, [MissingParameterValue] with the missing
    identifier as locator; and whenever a declared identifier is not
    submitted the call raises and the handler is not invoked. *)
Theorem service_execute_missing_input (env : Env) (fresh_uuid : pystr)
    (self : Service) (w : World) (identifier : pystr) (process : Process)
    (wps_request : WPSRequest) :
  processes self !! identifier = Some process ->
  (proc_inputs process <> [] ->
   req_inputs wps_request = InputsNone ->
   Service.execute env fresh_uuid (Some identifier) wps_request (self, w)
   = ((self, w), Raise (MissingParameterValue [] (VStr (py "datainputs")))))
  /\ (forall m pre inpt post files' data_inputs,
        req_inputs wps_request = InputsRaw m ->
        proc_inputs process = pre ++ inpt :: post ->
        m !! Some (in_identifier inpt) = None ->
        Service.parse_inputs env pre (InputsRaw m) ∅ (fs w) = (files', Ok data_inputs) ->
        Forall (fun p => is_Some (m !! Some (in_identifier p))) pre
        /\ Service.execute env fresh_uuid (Some identifier) wps_request (self, w)
           = ((self, set_fs files' w),
              Raise (MissingParameterValue [] (VStr (in_identifier inpt)))))
  /\ ((exists inpt, inpt ∈ proc_inputs process
                    /\ Service.submitted (req_inputs wps_request) (in_identifier inpt) = false) ->
      exists st e,
        Service.execute env fresh_uuid (Some identifier) wps_request (self, w)
        = (st, Raise e)
        /\ trace st.2 = trace w).
Proof.
  intros Hp.
  assert (Hself : {| processes := <[identifier := process]> (processes self) |} = self).
  { destruct self as [ps]. simpl in *. f_equal. apply insert_id, Hp. }
  rewrite (service_execute_found _ _ _ _ _ _ _ Hp).
  split_and!.
  - intros Hne Hnone. unfold Service.execute_process. rewrite Hnone.
    destruct (proc_inputs process); [congruence|]. cbn. rewrite Hself. reflexivity.
  - intros m pre inpt post files' data_inputs Hraw Hdecl Hmiss Hpre. split.
    { apply parse_inputs_ok_submitted in Hpre. eapply Forall_impl; [exact Hpre|].
      intros p Hs. cbn in Hs. apply bool_decide_eq_true in Hs. exact Hs. }
    unfold Service.execute_process. rewrite Hraw, Hdecl.
    rewrite andb_false_r. unfold in_fs. rewrite parse_inputs_app, Hpre.
    cbn [Service.parse_inputs Service.is_InputsNone Service.submitted].
    rewrite Hmiss. rewrite bool_decide_eq_false_2 by (intros [? ?]; discriminate).
    cbn. rewrite Hself. reflexivity.
  - intros Hmissing. unfold Service.execute_process.
    destruct (negb (Service.is_nil (proc_inputs process)) && Service.is_InputsNone (req_inputs wps_request)).
    { rewrite Hself. eexists _, _. split; reflexivity. }
    destruct (parse_inputs_missing env (proc_inputs process) (req_inputs wps_request)
                ∅ (fs w) Hmissing) as (f & e & He).
    unfold in_fs. rewrite He. rewrite Hself. eexists _, _. split; reflexivity.
Qed.

Lemma service_execute_missing_input_witness :
  Service.execute env0 uuid0 (Some (py "buffer"))
    (execute_request InputsNone (py "false") (py "false")) (service0, world0)
  = ((service0, world0), Raise (MissingParameterValue [] (VStr (py "datainputs"))))
  /\ Service.execute env0 uuid0 (Some (py "buffer")) request_without_distance
       (service0, world0)
     = ((service0, world0), Raise (MissingParameterValue [] (VStr (py "distance")))).
Proof.
  destruct (service_execute_missing_input env0 uuid0 service0 world0 (py "buffer")
              (buffer_process quiet_handler false false)
              (execute_request InputsNone (py "false") (py "false")) service0_buffer)
    as (Hnone & _ & _).
  destruct (service_execute_missing_input env0 uuid0 service0 world0 (py "buffer")
              (buffer_process quiet_handler false false)
              request_without_distance service0_buffer)
    as (_ & Hfirst & _).
  split.
  - apply Hnone; [discriminate | reflexivity].
  - destruct (Hfirst {[ Some (py "layer") := inline_input (py "<gml/>") ]}
                [{| in_identifier := py "layer"; in_class := IsComplexInput |}]
                {| in_identifier := py "distance"; in_class := IsLiteralInput |}
                [] (fs world0)
                {[ Some (py "layer") :=
                     ComplexIn
                       {| ci_identifier := VStr (py "layer");
                          ci_data_format :=
                            Some {| mime_type := VNone; encoding := VNone; schema := VNone |};
                          ci_method := VStr (py "GET");
                          ci_max_megabytes := 1; ci_file := None; ci_url := None;
                          ci_as_reference := false;
                          ci_data := VStr (py "<gml/>") |} ]}
                eq_refl eq_refl) as (_ & Hrun).
    + vm_compute. reflexivity.
    + vm_compute. reflexivity.
    + exact Hrun.
Defined.


(* ================================================================== *)
(** * The key-value encoding of inputs and outputs *)
(* ================================================================== *)

Lemma split_on_plain sep s cur :
  Forall (fun c => c <> sep) s -> split_on sep s cur = [rev cur ++ s].
Proof.
  intros H. revert cur. induction H as [|c s Hc _ IH]; intros cur; simpl.
  - rewrite app_nil_r. reflexivity.
  - apply N.eqb_neq in Hc. rewrite Hc, IH. simpl. rewrite <- app_assoc. reflexivity.
Qed.

Lemma split_on_sep sep s1 s2 cur :
  Forall (fun c => c <> sep) s1 ->
  split_on sep (s1 ++ sep :: s2) cur = (rev cur ++ s1) :: split_on sep s2 [].
Proof.
  intros H. revert cur. induction H as [|c s Hc _ IH]; intros cur; simpl.
  - rewrite N.eqb_refl, app_nil_r. reflexivity.
  - apply N.eqb_neq in Hc. rewrite Hc, IH. simpl. rewrite <- app_assoc. reflexivity.
Qed.

Lemma split_on_join sep l :
  l <> [] -> Forall (Forall (fun c => c <> sep)) l ->
  split_on sep (join_with sep l) [] = l.
Proof.
  intros Hne H. induction H as [|x l Hx Hl IH]; [congruence|].
  destruct l as [|y l].
  - simpl. rewrite split_on_plain by exact Hx. reflexivity.
  - change (join_with sep (x :: y :: l)) with (x ++ sep :: join_with sep (y :: l)).
    rewrite split_on_sep by exact Hx. rewrite IH by discriminate. reflexivity.
Qed.

Lemma split_semicolon s : split ";" s = split_on 59 s [].
Proof. reflexivity. Qed.
Lemma split_at s : split "@" s = split_on 64 s [].
Proof. reflexivity. Qed.
Lemma split_equals s : split "=" s = split_on 61 s [].
Proof. reflexivity. Qed.

Lemma kvp_plain_weaken (P : N -> Prop) s :
  (forall c, c <> 59%N /\ c <> 64%N /\ c <> 61%N -> P c) -> kvp_plain s -> Forall P s.
Proof. intros HP H. eapply Forall_impl; [exact H|exact HP]. Qed.

Lemma kvp_field_text_plain sep a :
  sep = 59%N \/ sep = 64%N ->
  kvp_plain a.1 -> kvp_plain a.2 -> Forall (fun c => c <> sep) (kvp_field_text a).
Proof.
  intros Hsep H1 H2. unfold kvp_field_text. apply Forall_app. split.
  - revert H1. apply kvp_plain_weaken. intros c (?&?&?). destruct Hsep; congruence.
  - constructor; [destruct Hsep as [->| ->]; discriminate|].
    revert H2. apply kvp_plain_weaken. intros c (?&?&?). destruct Hsep; congruence.
Qed.

Lemma split_field a :
  kvp_plain a.1 -> kvp_plain a.2 ->
  unpack_pair (split "=" (kvp_field_text a)) = Some (a.1, a.2).
Proof.
  intros H1 H2. rewrite split_equals. unfold kvp_field_text.
  rewrite split_on_sep by (revert H1; apply kvp_plain_weaken; tauto).
  rewrite split_on_plain by (revert H2; apply kvp_plain_weaken; tauto).
  reflexivity.
Qed.

Lemma kvp_attributes_plain attrs io :
  Forall (fun a => kvp_plain a.1 /\ kvp_plain a.2) attrs ->
  kvp_attributes (map kvp_field_text attrs) io
  = Some (foldl (fun io a => <[Some a.1 := VStr a.2]> io) io attrs).
Proof.
  intros H. revert io. induction H as [|a attrs [H1 H2] _ IH]; intros io; [reflexivity|].
  cbn [map kvp_attributes foldl]. rewrite split_field by assumption. apply IH.
Qed.

Lemma kvp_entry_text_fields e :
  kvp_entry_plain e ->
  split "@" (kvp_entry_text e)
  = kvp_field_text (kvp_identifier e, kvp_value e) :: map kvp_field_text (kvp_attrs e).
Proof.
  intros (Hi & Hv & Ha). rewrite split_at. unfold kvp_entry_text.
  apply split_on_join; [discriminate|].
  constructor.
  - apply kvp_field_text_plain; auto.
  - apply Forall_map. eapply Forall_impl; [exact Ha|]. intros a [H1 H2].
    apply kvp_field_text_plain; auto.
Qed.

Lemma kvp_entry_plain_entry e :
  kvp_entry_plain e ->
  kvp_entry (kvp_entry_text e) = (kvp_identifier e, kvp_entry_dict e).
Proof.
  intros He. unfold kvp_entry. rewrite kvp_entry_text_fields by exact He.
  destruct He as (Hi & Hv & Ha).
  rewrite (split_field (kvp_identifier e, kvp_value e)) by assumption.
  cbn [fst snd]. rewrite kvp_attributes_plain by exact Ha. reflexivity.
Qed.

Lemma kvp_entry_text_no_semicolon e :
  kvp_entry_plain e -> Forall (fun c => c <> 59%N) (kvp_entry_text e).
Proof.
  intros (Hi & Hv & Ha). unfold kvp_entry_text.
  assert (Hall : Forall (Forall (fun c => c <> 59%N))
                   (kvp_field_text (kvp_identifier e, kvp_value e)
                    :: map kvp_field_text (kvp_attrs e))).
  { constructor.
    - apply kvp_field_text_plain; auto.
    - apply Forall_map. eapply Forall_impl; [exact Ha|]. intros a [H1 H2].
      apply kvp_field_text_plain; auto. }
  induction Hall as [|x l Hx Hl IH]; [constructor|].
  destruct l as [|y l]; [exact Hx|].
  change (join_with 64 (x :: y :: l)) with (x ++ 64%N :: join_with 64 (y :: l)).
  apply Forall_app. split; [exact Hx|]. constructor; [discriminate|exact IH].
Qed.

(** X1.  The key-value text of a list of entries
    [identifier=value@attribute=value@...], joined with [;], parses back
    to the entries: every identifier is mapped to the dictionary of its
    entry, a later entry replacing an earlier one with the same
    identifier.  The list is not empty and no part of an entry holds one
    of the delimiters [;], [@] and [=]. *)
Theorem get_data_from_kvp_round_trip (es : list KvpEntry) :
  es <> [] ->
  Forall kvp_entry_plain es ->
  get_data_from_kvp (Some (kvp_text es))
  = Some (foldl (fun the_data e => <[Some (kvp_identifier e) := kvp_entry_dict e]> the_data)
                ∅ es).
Proof.
  intros Hne Hall. unfold get_data_from_kvp, kvp_text. f_equal.
  rewrite split_semicolon, split_on_join.
  - clear Hne. generalize (∅ : gmap (option pystr) pydict).
    induction Hall as [|e es He _ IH]; intros m; [reflexivity|].
    cbn [map foldl]. rewrite kvp_entry_plain_entry by exact He. apply IH.
  - destruct es; [congruence|discriminate].
  - apply Forall_map. eapply Forall_impl; [exact Hall|]. apply kvp_entry_text_no_semicolon.
Qed.

(** X1 at a concrete input. *)
Lemma get_data_from_kvp_round_trip_witness :
  kvp_text kvp_example = py "layer=roads@mimeType=text/xml;distance=10"
  /\ get_data_from_kvp (Some (kvp_text kvp_example))
     = Some (<[Some (py "distance") := kvp_entry_dict
                 {| kvp_identifier := py "distance"; kvp_value := py "10"; kvp_attrs := [] |}]>
            (<[Some (py "layer") := kvp_entry_dict
                 {| kvp_identifier := py "layer"; kvp_value := py "roads";
                    kvp_attrs := [(py "mimeType", py "text/xml")] |}]> ∅)).
Proof.
  split; [reflexivity|].
  apply (get_data_from_kvp_round_trip kvp_example); [discriminate|].
  unfold kvp_example, kvp_entry_plain, kvp_plain.
  repeat (constructor; cbn [kvp_identifier kvp_value kvp_attrs fst snd]);
    try (vm_compute; repeat constructor; discriminate).
Defined.

Lemma split_on_head (P : N -> Prop) sep s cur :
  Forall P s -> Forall P cur ->
  exists first rest, split_on sep s cur = first :: rest /\ Forall P first.
Proof.
  intros Hs. revert cur. induction Hs as [|c s Hc Hs IH]; intros cur Hcur; simpl.
  - eexists _, _. split; [reflexivity|]. apply Forall_rev in Hcur. exact Hcur.
  - destruct (N.eqb c sep).
    + eexists _, _. split; [reflexivity|]. apply Forall_rev in Hcur. exact Hcur.
    + apply IH. constructor; assumption.
Qed.

Lemma kvp_entry_without_equals d :
  Forall (fun c => c <> 61%N) d -> kvp_entry d = (d, kvp_fallback d).
Proof.
  intros Hd. unfold kvp_entry. rewrite split_at.
  destruct (split_on_head (fun c => c <> 61%N) 64 d []) as (first & rest & -> & Hf);
    [exact Hd|constructor|].
  rewrite split_equals, split_on_plain by exact Hf. reflexivity.
Qed.

(** X2.  An entry without [=] never fails: it is kept whole, as
    the key and as the identifier of a dictionary with empty data.  This
    is what a parameter such as [ResponseDocument=result;log] parses
    to. *)
Theorem get_data_from_kvp_bare_identifiers (ds : list pystr) :
  ds <> [] ->
  Forall (Forall (fun c => c <> 59%N /\ c <> 61%N)) ds ->
  get_data_from_kvp (Some (join_with 59 ds))
  = Some (foldl (fun the_data d => <[Some d := kvp_fallback d]> the_data) ∅ ds).
Proof.
  intros Hne Hall. unfold get_data_from_kvp. f_equal.
  rewrite split_semicolon, split_on_join.
  - clear Hne. generalize (∅ : gmap (option pystr) pydict).
    induction Hall as [|d ds Hd _ IH]; intros m; [reflexivity|].
    cbn [foldl]. rewrite kvp_entry_without_equals.
    + apply IH.
    + eapply Forall_impl; [exact Hd|]. intros c [_ H]. exact H.
  - exact Hne.
  - eapply Forall_impl; [exact Hall|]. intros d Hd.
    eapply Forall_impl; [exact Hd|]. intros c [H _]. exact H.
Qed.

(** X2 at a concrete input. *)
Lemma get_data_from_kvp_bare_identifiers_witness :
  get_data_from_kvp (Some (py "result;log"))
  = Some (<[Some (py "log") := kvp_fallback (py "log")]>
         (<[Some (py "result") := kvp_fallback (py "result")]> ∅)).
Proof.
  apply (get_data_from_kvp_bare_identifiers [py "result"; py "log"]); [discriminate|].
  repeat constructor; discriminate.
Defined.

Lemma split_on_not_nil sep s cur : split_on sep s cur <> [].
Proof.
  revert cur. induction s as [|c s IH]; intros cur; simpl; [discriminate|].
  destruct (N.eqb c sep); [discriminate|apply IH].
Qed.

Lemma split_not_nil sep s : split sep s <> [].
Proof.
  unfold split. destruct (py sep) as [|c [|? ?]]; try discriminate.
  apply split_on_not_nil.
Qed.

Lemma kvp_fold_not_empty (l : list pystr) (m : gmap (option pystr) pydict) :
  l <> [] \/ m <> ∅ ->
  foldl (fun the_data d => let '(k, io) := kvp_entry d in <[Some k := io]> the_data) m l
  <> ∅.
Proof.
  revert m. induction l as [|d l IH]; intros m H.
  - destruct H; [congruence|assumption].
  - cbn [foldl]. apply IH. right. destruct (kvp_entry d) as [k io].
    apply insert_non_empty.
Qed.

(** The dictionary of a parameter that is present is never empty. *)
Lemma get_data_from_kvp_not_empty data :
  WPSRequest.nonempty_dict (get_data_from_kvp (Some data)) = true.
Proof.
  unfold get_data_from_kvp, WPSRequest.nonempty_dict.
  rewrite bool_decide_eq_false_2; [reflexivity|].
  apply kvp_fold_not_empty. left. apply split_not_nil.
Qed.

Lemma foldl_last_match {A B} (P : A -> bool) (f : A -> B) (l : list A) (d : B) :
  foldl (fun v k => if P k then f k else v) d l
  = match last (filter (fun k => P k = true) l) with
    | Some k => f k
    | None => d
    end.
Proof.
  revert d. induction l as [|k l IH] using rev_ind; intros d; [reflexivity|].
  rewrite foldl_app. cbn [foldl]. rewrite filter_app.
  destruct (P k) eqn:Hk.
  - rewrite filter_cons_True by exact Hk. rewrite filter_nil, last_snoc. reflexivity.
  - rewrite filter_cons_False by congruence. rewrite filter_nil, app_nil_r. apply IH.
Qed.

(** X3.  [_get_get_param] finds the key whatever its case.  Of the
    spellings of the key that the query holds, the last one wins (in the
    order of first appearance: the loop does not stop at the first
    match), with the first value given for it; without any, the default
    is returned. *)
Theorem get_get_param_last_spelling (http_request : HttpRequest) (key : string)
    (dflt : option pystr) :
  WPSRequest._get_get_param http_request key dflt
  = match last (matching_keys http_request key) with
    | Some k => args_get (http_args http_request) k
    | None => dflt
    end.
Proof.
  unfold WPSRequest._get_get_param, matching_keys.
  rewrite (foldl_last_match (fun k => bool_decide (lower k = lower (py key)))
             (args_get (http_args http_request))).
  assert (Hf : forall l : list pystr,
             filter (fun k => bool_decide (lower k = lower (py key)) = true) l
             = filter (fun k => lower k = lower (py key)) l).
  { induction l as [|k l IH]; [reflexivity|].
    rewrite !filter_cons. rewrite IH.
    destruct (decide (lower k = lower (py key))) as [Hk|Hk].
    - rewrite decide_True by (apply bool_decide_eq_true_2; exact Hk). reflexivity.
    - rewrite decide_False; [reflexivity|].
      rewrite bool_decide_eq_false_2 by exact Hk. discriminate. }
  rewrite Hf. reflexivity.
Qed.

(* ================================================================== *)
(** * What a parsed request holds *)
(* ================================================================== *)

Lemma check_version_ok doc u v :
  WPSRequest.check_version doc tt = (u, Ok v) -> v = py "1.0.0".
Proof.
  unfold WPSRequest.check_version, raise, ret.
  destruct (attrib doc !! "version"%string) as [x|]; [|discriminate].
  case_bool_decide; [discriminate|].
  case_bool_decide; [|discriminate]. congruence.
Qed.

Lemma check_get_version_ok http_request u v :
  WPSRequest.check_get_version http_request tt = (u, Ok v) -> v = py "1.0.0".
Proof.
  unfold WPSRequest.check_get_version, raise, ret.
  destruct (WPSRequest._get_get_param _ _ _) as [x|]; [|discriminate].
  case_bool_decide; [discriminate|].
  case_bool_decide; [|discriminate]. congruence.
Qed.

Lemma post_execute_ok doc u r :
  WPSRequest.post_execute doc tt = (u, Ok r) ->
  req_operation r = py "execute" /\ req_version r = Some (py "1.0.0").
Proof.
  unfold WPSRequest.post_execute. intros H.
  apply bind_ok in H as (u1 & v & Hv & H). apply check_version_ok in Hv as ->.
  apply bind_ok in H as (u2 & idel & _ & H).
  apply bind_ok in H as (u3 & ins & _ & H).
  apply bind_ok in H as (u4 & outs & _ & H).
  destruct (xpath_abs path_RawDataOutput doc);
    destruct (xpath_rel _ doc); injection H as _ <-; split; reflexivity.
Qed.

Lemma get_execute_ok http_request u r :
  WPSRequest.get_execute http_request tt = (u, Ok r) ->
  req_operation r = py "execute" /\ req_version r = Some (py "1.0.0").
Proof.
  unfold WPSRequest.get_execute. intros H.
  apply bind_ok in H as (u1 & v & Hv & H). apply check_get_version_ok in Hv as ->.
  destruct (WPSRequest.nonempty_dict _); [|destruct (WPSRequest.nonempty_dict _)];
    injection H as _ <-; split; reflexivity.
Qed.

(** A GET request that parses. *)
Lemma init_get_ok http_request u r :
  WPSRequest.init_get http_request tt = (u, Ok r) ->
  (req_operation r = py "getcapabilities" /\ req_version r = None)
  \/ ((req_operation r = py "describeprocess" \/ req_operation r = py "execute")
      /\ req_version r = Some (py "1.0.0")).
Proof.
  unfold WPSRequest.init_get, raise.
  destruct (WPSRequest._get_get_param http_request "WSDL" None); [discriminate|].
  destruct (WPSRequest._get_get_param http_request "service" None) as [service|];
    [|discriminate].
  case_bool_decide; [discriminate|].
  destruct (negb _); [discriminate|].
  destruct (WPSRequest._get_get_param http_request "request" None) as [op|];
    [|discriminate].
  case_bool_decide; [discriminate|].
  case_bool_decide as Hcap.
  { intros [= _ <-]. left. split; [exact Hcap|reflexivity]. }
  case_bool_decide as Hdesc.
  { intros Hrun. apply bind_ok in Hrun as (u1 & v & Hv & Hrun).
    apply check_get_version_ok in Hv as ->. injection Hrun as _ <-.
    right. split; [left; exact Hdesc|reflexivity]. }
  case_bool_decide as Hex; [|discriminate].
  intros Hrun. apply get_execute_ok in Hrun as [H1 H2]. right. split; [right|]; assumption.
Qed.

(** A POST request that parses. *)
Lemma init_post_ok env doc u r :
  WPSRequest.init_post env doc tt = (u, Ok r) ->
  (req_operation r = py "getcapabilities" /\ req_version r = None)
  \/ ((req_operation r = py "describeprocess" \/ req_operation r = py "execute")
      /\ req_version r = Some (py "1.0.0")).
Proof.
  unfold WPSRequest.init_post.
  destruct (decide (tag doc = WPS "GetCapabilities")).
  { intros [= _ <-]. left. split; reflexivity. }
  destruct (decide (tag doc = WPS "DescribeProcess")).
  { intros Hrun. apply bind_ok in Hrun as (u1 & v & Hv & Hrun).
    apply check_version_ok in Hv as ->. injection Hrun as _ <-.
    right. split; [left|]; reflexivity. }
  destruct (decide (tag doc = WPS "Execute")); [|discriminate].
  intros Hrun. apply post_execute_ok in Hrun as [H1 H2]. right. split; [right|]; assumption.
Qed.

(** X4.  A request the constructor returns holds one of the three
    operations.  [getcapabilities] carries no version; [describeprocess]
    and [execute] carry the version [1.0.0], the only one that passes
    the check. *)
Theorem request_operation_and_version (env : Env) (http_request : HttpRequest)
    (r : WPSRequest) :
  (WPSRequest.init env http_request tt).2 = Ok r ->
  (req_operation r = py "getcapabilities" /\ req_version r = None)
  \/ ((req_operation r = py "describeprocess" \/ req_operation r = py "execute")
      /\ req_version r = Some (py "1.0.0")).
Proof.
  destruct (WPSRequest.init env http_request tt) as [u res] eqn:Hinit. cbn [snd].
  intros ->. revert Hinit. unfold WPSRequest.init.
  case_bool_decide as Hget; [apply init_get_ok|].
  case_bool_decide as Hpost; [|discriminate].
  destruct (http_body http_request) as [doc|]; [|discriminate].
  apply init_post_ok.
Qed.

(** The operation of a request that parses is one of three. *)
Lemma init_operation env http_request r :
  (WPSRequest.init env http_request tt).2 = Ok r ->
  req_operation r = py "getcapabilities"
  \/ req_operation r = py "describeprocess"
  \/ req_operation r = py "execute".
Proof.
  destruct (WPSRequest.init env http_request tt) as [u res] eqn:Hinit. cbn [snd].
  intros ->. revert Hinit. unfold WPSRequest.init.
  assert (Hweak : (req_operation r = py "getcapabilities" /\ req_version r = None)
                  \/ ((req_operation r = py "describeprocess"
                       \/ req_operation r = py "execute")
                      /\ req_version r = Some (py "1.0.0")) ->
                  req_operation r = py "getcapabilities"
                  \/ req_operation r = py "describeprocess"
                  \/ req_operation r = py "execute") by tauto.
  case_bool_decide as Hget; [intros Hrun; apply Hweak, (init_get_ok _ _ _ Hrun)|].
  case_bool_decide as Hpost; [|discriminate].
  destruct (http_body http_request) as [doc|]; [|discriminate].
  intros Hrun. apply Hweak, (init_post_ok _ _ _ _ Hrun).
Qed.

Lemma check_get_version_raises http_request u e :
  WPSRequest.check_get_version http_request tt = (u, Raise e) ->
  is_pywps_exception e = true.
Proof.
  unfold WPSRequest.check_get_version, raise, ret.
  destruct (WPSRequest._get_get_param _ _ _) as [x|]; [|intros [= _ <-]; reflexivity].
  case_bool_decide; [intros [= _ <-]; reflexivity|].
  case_bool_decide; [discriminate|intros [= _ <-]; reflexivity].
Qed.

Lemma bind_raise {S A B} (m : Py S A) (k : A -> Py S B) s s' e :
  bind m k s = (s', Raise e) ->
  m s = (s', Raise e) \/ exists s1 a, m s = (s1, Ok a) /\ k a s1 = (s', Raise e).
Proof.
  unfold bind. destruct (m s) as [s1 [a|e1]]; [right; eauto|intros [= <- <-]; left; reflexivity].
Qed.

Lemma init_get_raises (env : Env) (http_request : HttpRequest) (e : PyException) :
  http_method http_request = py "GET" ->
  (WPSRequest.init env http_request tt).2 = Raise e ->
  is_pywps_exception e = true.
Proof.
  intros Hget. destruct (WPSRequest.init env http_request tt) as [u res] eqn:Hinit.
  cbn [snd]. intros ->. revert Hinit. unfold WPSRequest.init.
  rewrite bool_decide_eq_true_2 by exact Hget.
  unfold WPSRequest.init_get, raise.
  destruct (WPSRequest._get_get_param http_request "WSDL" None);
    [intros [= _ <-]; reflexivity|].
  destruct (WPSRequest._get_get_param http_request "service" None) as [service|];
    [|intros [= _ <-]; reflexivity].
  case_bool_decide; [intros [= _ <-]; reflexivity|].
  destruct (negb _); [intros [= _ <-]; reflexivity|].
  destruct (WPSRequest._get_get_param http_request "request" None) as [op|];
    [|intros [= _ <-]; reflexivity].
  case_bool_decide; [intros [= _ <-]; reflexivity|].
  case_bool_decide; [discriminate|].
  case_bool_decide.
  { intros Hrun. apply bind_raise in Hrun as [Hrun|(u1 & v & _ & Hrun)]; [|discriminate].
    eapply check_get_version_raises. exact Hrun. }
  case_bool_decide; [|intros [= _ <-]; reflexivity].
  unfold WPSRequest.get_execute. intros Hrun.
  apply bind_raise in Hrun as [Hrun|(u1 & v & _ & Hrun)].
  - eapply check_get_version_raises. exact Hrun.
  - destruct (WPSRequest.nonempty_dict _); [|destruct (WPSRequest.nonempty_dict _)];
      discriminate.
Qed.

(** X5.  In a GET Execute request, [raw] is set exactly when there
    is a [RawDataOutput] parameter and no [ResponseDocument] parameter:
    a parameter that is present, even empty, parses to a dictionary that
    is not empty.  A raw request has [store_execute] and [status] set to
    ['false'], whatever the query says. *)
Theorem get_execute_raw (http_request : HttpRequest) (u : unit) (r : WPSRequest) :
  WPSRequest.get_execute http_request tt = (u, Ok r) ->
  (req_raw r = true <->
     WPSRequest._get_get_param http_request "ResponseDocument" None = None
     /\ WPSRequest._get_get_param http_request "RawDataOutput" None <> None)
  /\ (req_raw r = true ->
        req_store_execute r = py "false" /\ req_status r = py "false").
Proof.
  unfold WPSRequest.get_execute. intros H.
  apply bind_ok in H as (u1 & v & _ & H). revert H.
  destruct (WPSRequest._get_get_param http_request "ResponseDocument" None) as [rd|].
  { rewrite get_data_from_kvp_not_empty. intros [= _ <-]. cbn [req_raw].
    split; [split|]; [discriminate|intros [[=] _]|discriminate]. }
  cbn [get_data_from_kvp WPSRequest.nonempty_dict].
  destruct (WPSRequest._get_get_param http_request "RawDataOutput" None) as [raw|].
  { rewrite get_data_from_kvp_not_empty. intros [= _ <-].
    cbn [req_raw req_store_execute req_status].
    split; [split|]; [intros _; split; [reflexivity|discriminate]|reflexivity|
                      intros _; split; reflexivity]. }
  cbn [get_data_from_kvp WPSRequest.nonempty_dict]. intros [= _ <-]. cbn [req_raw].
  split; [split|]; [discriminate|intros [_ Hn]; congruence|discriminate].
Qed.

(** X4 at a concrete input. *)
Lemma request_operation_and_version_witness :
  (WPSRequest.init env0 get_describe_request tt).2 = Ok describe_request
  /\ ((req_operation describe_request = py "getcapabilities"
       /\ req_version describe_request = None)
      \/ ((req_operation describe_request = py "describeprocess"
           \/ req_operation describe_request = py "execute")
          /\ req_version describe_request = Some (py "1.0.0"))).
Proof.
  split; [reflexivity|].
  apply (request_operation_and_version env0 get_describe_request describe_request).
  reflexivity.
Defined.

(** X5 at a concrete input. *)
Lemma get_execute_raw_witness :
  WPSRequest.get_execute get_raw_request tt = (tt, Ok raw_request)
  /\ req_store_execute raw_request = py "false"
  /\ req_status raw_request = py "false".
Proof.
  split; [reflexivity|].
  apply (get_execute_raw get_raw_request tt raw_request); reflexivity.
Defined.

(* ================================================================== *)
(** * Inputs of a POST request *)
(* ================================================================== *)

(** X6.  A [wps:Input] with a [wps:LiteralData] element becomes,
    through [get_input_from_xml] and [parse_literal_inputs], a literal
    input whose data is the text of the element (['None'] when it has
    none), whose unit is the [uom] attribute (empty by default) and
    whose data type is set only by a [datatype] attribute that is not
    empty. *)
Theorem literal_input_from_xml (input_el identifier_el value_el : Element)
    (rest : list Element) :
  xpath_rel [OWS "Identifier"] input_el = [identifier_el] ->
  xpath_rel [WPS "Data"; WPS "LiteralData"] input_el = value_el :: rest ->
  exists d,
    input_from_xml input_el tt = (tt, Ok (Some (text identifier_el, d)))
    /\ parse_literal_inputs d = literal_input_of identifier_el value_el.
Proof.
  intros Hid Hlit. unfold input_from_xml. rewrite Hid. unfold bind, unpack_one, ret.
  rewrite Hlit. eexists. split; [reflexivity|].
  unfold parse_literal_inputs, literal_input_of, dict_get.
  rewrite lookup_insert_eq.
  rewrite !(lookup_insert_ne _ _ (Some (py "identifier"))) by (intros [=]).
  rewrite !(lookup_insert_ne _ _ (Some (py "uom"))) by (intros [=]).
  rewrite !(lookup_insert_ne _ _ (Some (py "data"))) by (intros [=]).
  rewrite !lookup_insert_eq. cbn [truthy].
  destruct (bool_decide (attrib_get value_el "datatype" [] = [])); reflexivity.
Qed.

(** X6 at a concrete input. *)
Lemma literal_input_from_xml_witness :
  exists d,
    input_from_xml literal_input_empty tt = (tt, Ok (Some (Some (py "distance"), d)))
    /\ parse_literal_inputs d
       = {| li_identifier := VStr (py "distance"); li_uom := VStr (py "m");
            li_data_type := None; li_data := VStr (py "None") |}.
Proof.
  destruct (literal_input_from_xml literal_input_empty
              (Elem (OWS "Identifier") ∅ (Some (py "distance")) [])
              (Elem (WPS "LiteralData") {[ "uom"%string := py "m" ]} None []) [])
    as (d & Hparse & Hlit); [reflexivity|reflexivity|].
  exists d. split; [exact Hparse|]. rewrite Hlit. reflexivity.
Defined.

(** X7.  An input given inline as [wps:ComplexData] in a POST
    body always fails in [parse_complex_inputs]: the parser stores the
    first child element as its data, and an element has no [encode].
    The files are left as they are. *)
Theorem complex_data_input_has_no_text (env : Env) (input_el : Element)
    (k : option pystr) (d : pydict) (files_ : FS) :
  xpath_rel [WPS "Data"; WPS "LiteralData"] input_el = [] ->
  xpath_rel [WPS "Data"; WPS "ComplexData"] input_el <> [] ->
  input_from_xml input_el tt = (tt, Ok (Some (k, d))) ->
  parse_complex_inputs env d files_
  = (files_, Raise (PythonError "AttributeError" (py "object has no attribute 'encode'"))).
Proof.
  intros Hlit Hcx. unfold input_from_xml. intros Hrun.
  apply bind_ok in Hrun as (u & identifier_el & _ & Hrun).
  rewrite Hlit in Hrun.
  destruct (xpath_rel [WPS "Data"; WPS "ComplexData"] input_el) as [|cx rest];
    [congruence|].
  apply bind_ok in Hrun as (u' & value_el & _ & Hrun).
  injection Hrun as _ <- <-.
  unfold parse_complex_inputs, dict_get_default, dict_get.
  rewrite !(lookup_insert_ne _ _ (Some (py "href"))) by (intros [=]).
  rewrite lookup_empty. cbn [truthy].
  rewrite !(lookup_insert_ne _ _ (Some (py "data"))) by (intros [=]).
  rewrite lookup_insert_eq. reflexivity.
Qed.

(** X7 at a concrete input. *)
Lemma complex_data_input_has_no_text_witness :
  input_from_xml complex_data_input tt
  = (tt, Ok (Some (Some (py "layer"), complex_data_dict)))
  /\ parse_complex_inputs env0 complex_data_dict fs_tmp
     = (fs_tmp, Raise (PythonError "AttributeError"
                         (py "object has no attribute 'encode'"))).
Proof.
  split; [reflexivity|].
  apply (complex_data_input_has_no_text env0 complex_data_input (Some (py "layer")));
    [reflexivity|discriminate|reflexivity].
Defined.

Lemma truthy_VStr url : url <> [] -> truthy (VStr url) = true.
Proof. intros H. cbn. rewrite bool_decide_eq_false_2 by exact H. reflexivity. Qed.

(** X8.  A referenced input whose temporary file is allocated,
    whose body is fetched, is within the limit and can be written: the
    temporary file holds the UTF-8 bytes of the body, and the input
    refers to it and to the URL, is marked as a reference and carries no
    inline data.  The size compared with the limit is the announced
    [Content-Length] when there is one, whatever the body. *)
Theorem reference_input_fetched (env : Env) (inputs : pydict) (url : pystr)
    (fs0 fs1 : FS) (tmp_file body : pystr) (content_length : option Z)
    (bytes : list N) :
  dict_get_default inputs "href" VNone = VStr url ->
  url <> [] ->
  mkstemp [] (py "tmp") (get_config_value env "server" "tempPath") fs0
    = (fs1, Ok tmp_file) ->
  urlopen env url = Ok (body, content_length) ->
  reference_size (body, content_length) <= calculated_max_megabytes env * 1024 * 1024 ->
  encode_utf8 body = Some bytes ->
  can_open_w tmp_file fs1 = true ->
  exists c,
    parse_complex_inputs env inputs fs0
    = (set_files (<[tmp_file := bytes]> (files fs1)) fs1, Ok c)
    /\ ci_file c = Some tmp_file
    /\ ci_url c = Some url
    /\ ci_as_reference c = true
    /\ ci_data c = VNone
    /\ ci_max_megabytes c = calculated_max_megabytes env.
Proof.
  intros Hhref Hurl Htmp Hopen Hsize Henc Hw.
  unfold parse_complex_inputs. rewrite Hhref, (truthy_VStr url Hurl).
  unfold bind at 1. rewrite Htmp.
  unfold fetch_reference. rewrite Hopen.
  unfold bind at 1. unfold ret at 1.
  unfold reference_size in Hsize. cbn [fst snd] in Hsize.
  rewrite bool_decide_eq_false_2 by lia.
  rewrite Henc. unfold bind, try_except, write_file. rewrite Hw.
  eexists. split; [reflexivity|]. cbn. split_and!; reflexivity.
Qed.

Lemma mkstemp_leaves_empty_file suf pre dir fs0 fs1 name :
  mkstemp suf pre dir fs0 = (fs1, Ok name) ->
  files fs0 !! name = None /\ files fs1 !! name = Some [].
Proof.
  unfold mkstemp. intros H. apply mkstemp_loop_ok in H as (Hfree & Hfiles & _).
  split; [exact Hfree|]. rewrite Hfiles. apply lookup_insert_eq.
Qed.

(** X9.  A referenced input that cannot be fetched or is larger
    than the limit is refused, with [NoApplicableCode] or
    [FileSizeExceeded], after the temporary file has been allocated: the
    file, which did not exist before, stays behind, empty.  What
    [urlopen] raises that is not an instance of [Exception] is not
    caught and leaves as it is, the file staying behind all the
    same. *)
Theorem reference_input_rejected (env : Env) (inputs : pydict) (url : pystr)
    (fs0 fs1 : FS) (tmp_file : pystr) :
  dict_get_default inputs "href" VNone = VStr url ->
  url <> [] ->
  mkstemp [] (py "tmp") (get_config_value env "server" "tempPath") fs0
    = (fs1, Ok tmp_file) ->
  match urlopen env url with
  | Raise _ => True
  | Ok fetched => reference_size fetched > calculated_max_megabytes env * 1024 * 1024
  end ->
  parse_complex_inputs env inputs fs0 = (fs1, Raise (reference_error env inputs url))
  /\ files fs0 !! tmp_file = None
  /\ files fs1 !! tmp_file = Some [].
Proof.
  intros Hhref Hurl Htmp Hbad.
  split; [|exact (mkstemp_leaves_empty_file _ _ _ _ _ _ Htmp)].
  unfold parse_complex_inputs, reference_error. rewrite Hhref, (truthy_VStr url Hurl).
  unfold bind at 1. rewrite Htmp.
  unfold fetch_reference.
  destruct (urlopen env url) as [[body cl]|e0].
  - unfold bind at 1. unfold ret at 1.
    unfold reference_size in Hbad. cbn [fst snd] in Hbad.
    rewrite bool_decide_eq_true_2 by lia. reflexivity.
  - destruct (is_Exception e0); reflexivity.
Qed.

(** X8 at a concrete input. *)
Lemma reference_input_fetched_witness :
  exists c,
    parse_complex_inputs (env_fetch (py "<gml/>") (Some 0) 0) reference_input fs_tmp
    = (set_random_names []
         (set_files {[ py "/tmp/tmpk3x9" := py "<gml/>" ]} fs_tmp), Ok c)
    /\ ci_file c = Some (py "/tmp/tmpk3x9")
    /\ ci_url c = Some (py "http://data/roads.gml").
Proof.
  destruct (reference_input_fetched (env_fetch (py "<gml/>") (Some 0) 0)
              reference_input (py "http://data/roads.gml") fs_tmp
              (set_random_names [] (set_files {[ py "/tmp/tmpk3x9" := [] ]} fs_tmp))
              (py "/tmp/tmpk3x9") (py "<gml/>") (Some 0) (py "<gml/>"))
    as (c & Hrun & Hfile & Hurl & _);
    [reflexivity|discriminate|reflexivity|reflexivity|vm_compute; discriminate
    |reflexivity|reflexivity|].
  exists c. split; [|split; assumption].
  rewrite Hrun. reflexivity.
Defined.

(** X9 at a concrete input. *)
Lemma reference_input_rejected_witness :
  parse_complex_inputs (env_fetch (py "<gml/>") None 0) reference_input fs_tmp
  = (set_random_names [] (set_files {[ py "/tmp/tmpk3x9" := [] ]} fs_tmp),
     Raise (FileSizeExceeded (file_size_message 0) (VStr (py "layer"))))
  /\ files fs_tmp !! py "/tmp/tmpk3x9" = None.
Proof.
  destruct (reference_input_rejected (env_fetch (py "<gml/>") None 0)
              reference_input (py "http://data/roads.gml") fs_tmp
              (set_random_names [] (set_files {[ py "/tmp/tmpk3x9" := [] ]} fs_tmp))
              (py "/tmp/tmpk3x9"))
    as (Hrun & Hfree & _);
    [reflexivity|discriminate|reflexivity|vm_compute; reflexivity|].
  split; [exact Hrun|exact Hfree].
Defined.

(* ================================================================== *)
(** * [FileStorage.store] and the files that exist *)
(* ================================================================== *)

Lemma os_path_abspath_absolute fs0 p :
  startswith_slash (cwd fs0) = true -> startswith_slash (os_path_abspath fs0 p) = true.
Proof.
  intros Hcwd. unfold os_path_abspath.
  destruct (startswith_slash p) eqn:Hp; [exact Hp|].
  unfold os_path_join. rewrite Hp.
  destruct (cwd fs0) as [|x c]; [discriminate|].
  destruct (_ || _); exact Hcwd.
Qed.

Lemma mkstemp_loop_files dir pre suf names fs0 :
  let out := mkstemp_loop dir pre suf names fs0 in
  dirs out.1 = dirs fs0 /\ cwd out.1 = cwd fs0 /\ st_blksize out.1 = st_blksize fs0
  /\ match out.2 with
     | Ok name =>
         files fs0 !! name = None
         /\ files out.1 = <[name := []]> (files fs0)
         /\ (startswith_slash (cwd fs0) = true -> startswith_slash name = true)
     | Raise _ => files out.1 = files fs0
     end.
Proof.
  induction names as [|n names IH]; cbn [mkstemp_loop].
  - cbn. auto.
  - destruct (negb _); [cbn; auto|].
    destruct (bool_decide (is_Some (files fs0 !! _))) eqn:Hex; [exact IH|].
    cbn. split_and!; try reflexivity.
    + apply bool_decide_eq_false in Hex.
      destruct (files fs0 !! _) eqn:Hl; [|reflexivity].
      exfalso. apply Hex. eauto.
    + apply os_path_abspath_absolute.
Qed.

Lemma os_path_join_absolute a b : startswith_slash b = true -> os_path_join a b = b.
Proof. intros H. unfold os_path_join. rewrite H. reflexivity. Qed.

Lemma store_frame (env : Env) (self : FileStorage.t) (output : Output)
    (fs0 fs1 : FS) (r : result (Z * pystr * pystr)) (path : pystr) (bytes : list N) :
  startswith_slash (cwd fs0) = true ->
  files fs0 !! path = Some bytes ->
  FileStorage.store env self output fs0 = (fs1, r) ->
  files fs1 !! path = Some bytes /\ dirs fs1 = dirs fs0.
Proof.
  intros Hcwd Hpath. unfold FileStorage.store.
  unfold bind at 1. unfold os_stat_st_blksize.
  destruct (files fs0 !! out_file output) as [src|] eqn:Hsrc;
    [|intros [= <- _]; split; [exact Hpath|reflexivity]].
  destruct (st_blksize fs0) as [b|]; [|intros [= <- _]; split; [exact Hpath|reflexivity]].
  unfold bind at 1. unfold get_free_space.
  assert (Hfree : exists r, (if bool_decide (platform_system env = py "Windows")
            then match dirs fs0 !! FileStorage.target self with
                 | Some d => (fs0, Ok (free_bytes d))
                 | None => (fs0, Ok 0)
                 end
            else match dirs fs0 !! FileStorage.target self with
                 | Some d => (fs0, Ok (f_bfree d))
                 | None => (fs0, Raise (PythonError "OSError" (py "No such file or directory")))
                 end) = (fs0, r)).
  { destruct (bool_decide _), (dirs fs0 !! _); eauto. }
  destruct Hfree as [r0 ->].
  destruct r0 as [avail|e]; [|intros [= <- _]; split; [exact Hpath|reflexivity]].
  unfold bind at 1. unfold os_stat_st_size. rewrite Hsrc.
  destruct (bool_decide (b = 0)); [intros [= <- _]; split; [exact Hpath|reflexivity]|].
  destruct (bool_decide (avail < _)); [intros [= <- _]; split; [exact Hpath|reflexivity]|].
  destruct (os_path_splitext (out_file output)) as [prefix suffix0].
  destruct (os_path_split prefix) as [file_dir file_name'].
  unfold bind at 1. unfold mkstemp.
  pose proof (mkstemp_loop_files (FileStorage.target self) file_name'
                (if bool_decide (suffix0 = []) then out_extension output else suffix0)
                (random_names fs0) fs0) as Hmk.
  cbv zeta in Hmk.
  destruct (mkstemp_loop _ _ _ _ fs0) as [fs2 [name|e]]; cbn [fst snd] in Hmk.
  - destruct Hmk as (Hd & _ & _ & Hnew & Hfiles & Habs).
    rewrite os_path_join_absolute by (apply Habs; exact Hcwd).
    unfold bind at 1. unfold shutil_copy2, write_file.
    assert (Hne : name <> path) by congruence.
    assert (Hkeep : files fs2 !! path = Some bytes).
    { rewrite Hfiles, lookup_insert_ne by exact Hne. exact Hpath. }
    destruct (files fs2 !! out_file output);
      [|intros [= <- _]; split; [exact Hkeep|exact Hd]].
    destruct (can_open_w name fs2); [|intros [= <- _]; split; [exact Hkeep|exact Hd]].
    intros [= <- _]. cbn. split; [|exact Hd].
    rewrite lookup_insert_ne by exact Hne. exact Hkeep.
  - destruct Hmk as (Hd & _ & _ & Hfiles). intros [= <- _].
    rewrite Hfiles. split; [exact Hpath|exact Hd].
Qed.

(** X10.  Whatever [FileStorage.store] ends in, a file that existed
    before the call holds the same bytes after it, and the directories
    are the same: the only file written is the one [mkstemp] has just
    created under a name that was free.  The working directory is an
    absolute path. *)
Theorem store_keeps_existing_files (env : Env) (self : FileStorage.t)
    (output : Output) (fs0 : FS) (path : pystr) (bytes : list N) :
  startswith_slash (cwd fs0) = true ->
  files fs0 !! path = Some bytes ->
  files (FileStorage.store env self output fs0).1 !! path = Some bytes
  /\ dirs (FileStorage.store env self output fs0).1 = dirs fs0.
Proof.
  intros Hcwd Hpath.
  apply (store_frame env self output fs0 _ (FileStorage.store env self output fs0).2
           path bytes Hcwd Hpath).
  apply surjective_pairing.
Qed.

(** X10 at a concrete input. *)
Lemma store_keeps_existing_files_witness :
  files (FileStorage.store env0 (FileStorage.init env0) out0 (fs_with_free 8192)).1
    !! py "/work/result.tiff" = Some (replicate 5000 0%N)
  /\ dirs (FileStorage.store env0 (FileStorage.init env0) out0 (fs_with_free 8192)).1
     = dirs (fs_with_free 8192).
Proof.
  apply (store_keeps_existing_files env0 (FileStorage.init env0) out0 (fs_with_free 8192));
    reflexivity.
Defined.

(* ================================================================== *)
(** * The response document: its status and its sections *)
(* ================================================================== *)

Lemma attrib_append c e : attrib (append c e) = attrib e.
Proof. destruct e; reflexivity. Qed.

Lemma attrib_extend cs e : attrib (extend cs e) = attrib e.
Proof. destruct e; reflexivity. Qed.

Lemma attrib_attrib_set k v e : attrib (attrib_set k v e) = <[k := v]> (attrib e).
Proof. destruct e; reflexivity. Qed.

Lemma construct_doc_shape env process self files_ st doc :
  WPSResponse._construct_doc env process (self, files_) = (st, Ok doc) ->
  exists inner tail,
    children doc
    = children (WPSResponse.process_part env process self)
      ++ [WPSResponse.status_element env inner] ++ tail
    /\ attrib doc = attrib (WPSResponse.process_part env process self)
    /\ ((tag inner = WPS "ProcessAccepted" /\ tail = []
         /\ WPSResponse.STORE_AND_UPDATE_STATUS <= resp_status self
         /\ resp_status_percentage self = 0)
        \/ (tag inner = WPS "ProcessStarted" /\ tail = []
            /\ WPSResponse.STORE_AND_UPDATE_STATUS <= resp_status self
            /\ 0 < resp_status_percentage self < 100)
        \/ (tag inner = WPS "ProcessFailed" /\ tail = []
            /\ resp_status_percentage self = -1)
        \/ (tag inner = WPS "ProcessSucceeded"
            /\ is_result_section
                 (bool_decide (req_lineage (resp_wps_request self) = py "true")) tail
            /\ resp_status_percentage self <> -1
            /\ ~ (WPSResponse.STORE_AND_UPDATE_STATUS <= resp_status self
                  /\ 0 <= resp_status_percentage self < 100))).
Proof.
  unfold WPSResponse._construct_doc.
  destruct (bool_decide (WPSResponse.STORE_AND_UPDATE_STATUS <= resp_status self)
            && bool_decide (resp_status_percentage self = 0)) eqn:Ha.
  { apply andb_true_iff in Ha as [H1%bool_decide_eq_true H2%bool_decide_eq_true].
    destruct (WPSResponse.write_response_doc _ _ _ _) as [f [[]|e]]; intros [= <- <-].
    eexists _, []. rewrite children_append, attrib_append.
    split; [reflexivity|]. split; [reflexivity|]. left. auto. }
  destruct (bool_decide (WPSResponse.STORE_AND_UPDATE_STATUS <= resp_status self)
            && bool_decide (0 < resp_status_percentage self < 100)) eqn:Hb.
  { apply andb_true_iff in Hb as [H1%bool_decide_eq_true H2%bool_decide_eq_true].
    intros [= <- <-]. eexists _, []. rewrite children_append, attrib_append.
    split; [reflexivity|]. split; [reflexivity|]. right. left. auto. }
  destruct (bool_decide (resp_status_percentage self = -1)) eqn:Hc.
  { apply bool_decide_eq_true in Hc. intros [= <- <-]. eexists _, []. rewrite children_append, attrib_append.
    split; [reflexivity|]. split; [reflexivity|]. right. right. left. auto. }
  assert (Hnot : ~ (WPSResponse.STORE_AND_UPDATE_STATUS <= resp_status self
                    /\ 0 <= resp_status_percentage self < 100)).
  { intros [H1 H2].
    apply andb_false_iff in Ha as [Ha|Ha]; apply bool_decide_eq_false in Ha; [lia|].
    apply andb_false_iff in Hb as [Hb|Hb]; apply bool_decide_eq_false in Hb; lia. }
  apply bool_decide_eq_false in Hc.
  cbv zeta. intros Hrun.
  apply bind_ok in Hrun as (s1 & doc1 & Hlin & Hrun).
  apply bind_ok in Hrun as (s2 & outs & _ & Hrun).
  injection Hrun as _ <-.
  exists (WPSResponse.text_element (WPS "ProcessSucceeded") (resp_message self)).
  destruct (bool_decide (req_lineage (resp_wps_request self) = py "true")).
  - apply bind_ok in Hlin as (s3 & ins & _ & Hlin).
    apply bind_ok in Hlin as (s4 & defs & _ & Hlin).
    injection Hlin as _ <-.
    eexists. rewrite !children_append, !attrib_append, <- !app_assoc.
    split; [reflexivity|]. split; [reflexivity|]. right. right. right.
    split; [reflexivity|]. split; [|auto]. eexists _, _, _. reflexivity.
  - injection Hlin as _ <-.
    eexists. rewrite !children_append, !attrib_append, <- !app_assoc.
    split; [reflexivity|]. split; [reflexivity|]. right. right. right.
    split; [reflexivity|]. split; [|auto]. eexists [], [], _. reflexivity.
Qed.

Lemma process_part_child_tags env process self :
  Forall (fun c => tag c ∈ [OWS "Abstract"; OWS "Metadata"; OWS "Profile";
                            OWS "WSDL"; WPS "Process"])
         (children (WPSResponse.process_part env process self)).
Proof.
  rewrite process_part_children. unfold optional_child.
  repeat apply Forall_app_2.
  - destruct (negb _); repeat constructor.
  - apply Forall_map. apply Forall_true. intros m. repeat constructor.
  - destruct (negb _); repeat constructor.
  - destruct (negb _); repeat constructor.
  - repeat constructor.
Qed.

Lemma process_part_no_child q env process self :
  q ∉ [OWS "Abstract"; OWS "Metadata"; OWS "Profile"; OWS "WSDL"; WPS "Process"] ->
  child_elements q (WPSResponse.process_part env process self) = [].
Proof.
  intros Hq. unfold child_elements. apply filter_none.
  eapply Forall_impl; [apply process_part_child_tags|].
  intros c Hc Heq. apply Hq. rewrite <- Heq. exact Hc.
Qed.

Lemma child_elements_children q doc l :
  children doc = l -> child_elements q doc = filter (fun c => tag c = q) l.
Proof. intros <-. reflexivity. Qed.

Lemma result_section_children q lineage tail :
  is_result_section lineage tail ->
  q ∉ [WPS "DataInputs"; WPS "OutputDefinitions"; WPS "ProcessOutputs"] ->
  filter (fun c => tag c = q) tail = [].
Proof.
  intros (ins & defs & outs & ->) Hq. apply filter_none.
  apply Forall_app_2; [destruct lineage|]; repeat constructor;
    cbn; intros <-; apply Hq; repeat constructor.
Qed.

Lemma status_kind_shape env doc part inner tail :
  children doc = part ++ [WPSResponse.status_element env inner] ++ tail ->
  filter (fun c => tag c = WPS "Status") part = [] ->
  filter (fun c => tag c = WPS "Status") tail = [] ->
  status_kind doc = [tag inner].
Proof.
  intros Hc Hp Ht. unfold status_kind.
  rewrite (child_elements_children _ _ _ Hc), !filter_app, Hp, Ht.
  reflexivity.
Qed.

Lemma construct_doc_status_kind env process self files_ st doc :
  WPSResponse._construct_doc env process (self, files_) = (st, Ok doc) ->
  (status_kind doc = [WPS "ProcessAccepted"]
   /\ WPSResponse.STORE_AND_UPDATE_STATUS <= resp_status self
   /\ resp_status_percentage self = 0)
  \/ (status_kind doc = [WPS "ProcessStarted"]
      /\ WPSResponse.STORE_AND_UPDATE_STATUS <= resp_status self
      /\ 0 < resp_status_percentage self < 100)
  \/ (status_kind doc = [WPS "ProcessFailed"]
      /\ resp_status_percentage self = -1)
  \/ (status_kind doc = [WPS "ProcessSucceeded"]
      /\ resp_status_percentage self <> -1
      /\ ~ (WPSResponse.STORE_AND_UPDATE_STATUS <= resp_status self
            /\ 0 <= resp_status_percentage self < 100)).
Proof.
  intros Hrun. apply construct_doc_shape in Hrun as (inner & tail & Hc & _ & Hcase).
  assert (Hpart : filter (fun c => tag c = WPS "Status")
                    (children (WPSResponse.process_part env process self)) = []).
  { apply (process_part_no_child (WPS "Status")). tag_not_listed. }
  destruct Hcase as [(Ht & -> & ?)|[(Ht & -> & ?)|[(Ht & -> & ?)|(Ht & Hsec & ?)]]];
    rewrite <- Ht.
  - left. split; [|assumption]. eapply status_kind_shape; eauto.
  - right. left. split; [|assumption]. eapply status_kind_shape; eauto.
  - right. right. left. split; [|assumption]. eapply status_kind_shape; eauto.
  - right. right. right. split; [|assumption]. eapply status_kind_shape; eauto.
    eapply result_section_children; [exact Hsec|]. tag_not_listed.
Qed.

(** X11.  Every document [_construct_doc] returns has exactly one
    element under its [wps:Status] children, and it is one of
    [ProcessAccepted], [ProcessStarted], [ProcessSucceeded] and
    [ProcessFailed], never [ProcessPaused].  Below the level
    [STORE_AND_UPDATE_STATUS] the percentage plays no part: the status
    is [ProcessFailed] for [-1] and [ProcessSucceeded] otherwise. *)
Theorem response_status_kind (env : Env) (process : Process) (self : WPSResponse)
    (files_ : FS) (st : WPSResponse * FS) (doc : Element) :
  WPSResponse._construct_doc env process (self, files_) = (st, Ok doc) ->
  exists kind,
    status_kind doc = [kind]
    /\ kind ∈ [WPS "ProcessAccepted"; WPS "ProcessStarted";
               WPS "ProcessSucceeded"; WPS "ProcessFailed"]
    /\ (resp_status self < WPSResponse.STORE_AND_UPDATE_STATUS ->
        kind = if bool_decide (resp_status_percentage self = -1)
               then WPS "ProcessFailed" else WPS "ProcessSucceeded").
Proof.
  intros Hrun.
  destruct (construct_doc_status_kind _ _ _ _ _ _ Hrun)
    as [(Hk & Hl & Hp)|[(Hk & Hl & Hp)|[(Hk & Hp)|(Hk & Hp & Hn)]]];
    eexists; (split; [exact Hk|]); (split; [repeat constructor|]); intros Hlow.
  - lia.
  - lia.
  - rewrite bool_decide_eq_true_2 by exact Hp. reflexivity.
  - rewrite bool_decide_eq_false_2 by exact Hp. reflexivity.
Qed.

(** X11 at a concrete input. *)
Lemma response_status_kind_witness :
  exists kind,
    status_kind doc_at_50 = [kind]
    /\ kind ∈ [WPS "ProcessAccepted"; WPS "ProcessStarted";
               WPS "ProcessSucceeded"; WPS "ProcessFailed"]
    /\ (resp_status response_at_50 < WPSResponse.STORE_AND_UPDATE_STATUS ->
        kind = if bool_decide (resp_status_percentage response_at_50 = -1)
               then WPS "ProcessFailed" else WPS "ProcessSucceeded").
Proof.
  apply (response_status_kind env0 (buffer_process quiet_handler false false)
           response_at_50 (fs_with_free 8192) (response_at_50, fs_with_free 8192)).
  reflexivity.
Defined.

Lemma filter_tag_singleton q (e : Element) :
  filter (fun c => tag c = q) [e] = if bool_decide (tag e = q) then [e] else [].
Proof.
  rewrite filter_cons, filter_nil. case_bool_decide.
  - rewrite decide_True by assumption. reflexivity.
  - rewrite decide_False by assumption. reflexivity.
Qed.

Lemma result_section_count q lineage tail :
  is_result_section lineage tail ->
  List.length (filter (fun c => tag c = q) tail)
  = ((if lineage && bool_decide (q = WPS "DataInputs") then 1 else 0)
     + (if lineage && bool_decide (q = WPS "OutputDefinitions") then 1 else 0)
     + (if bool_decide (q = WPS "ProcessOutputs") then 1 else 0))%nat.
Proof.
  intros (ins & defs & outs & ->).
  destruct lineage; cbn [andb app]; rewrite !filter_cons, filter_nil; cbn [tag];
    repeat (destruct (decide _) as [<-|?]);
    repeat case_bool_decide; try discriminate; try congruence; reflexivity.
Qed.

(** X12.  A document [_construct_doc] returns has one
    [wps:ProcessOutputs] child when its status is [ProcessSucceeded] and
    none otherwise; it has one [wps:DataInputs] and one
    [wps:OutputDefinitions] child when, besides, the request asks for
    the lineage, and none otherwise. *)
Theorem response_result_sections (env : Env) (process : Process) (self : WPSResponse)
    (files_ : FS) (st : WPSResponse * FS) (doc : Element) :
  WPSResponse._construct_doc env process (self, files_) = (st, Ok doc) ->
  let succeeded := bool_decide (status_kind doc = [WPS "ProcessSucceeded"]) in
  let lineage := bool_decide (req_lineage (resp_wps_request self) = py "true") in
  List.length (child_elements (WPS "ProcessOutputs") doc)
    = (if succeeded then 1 else 0)%nat
  /\ List.length (child_elements (WPS "DataInputs") doc)
     = (if succeeded && lineage then 1 else 0)%nat
  /\ List.length (child_elements (WPS "OutputDefinitions") doc)
     = (if succeeded && lineage then 1 else 0)%nat.
Proof.
  intros Hrun. cbv zeta.
  pose proof (construct_doc_status_kind _ _ _ _ _ _ Hrun) as Hkind.
  apply construct_doc_shape in Hrun as (inner & tail & Hc & _ & Hcase).
  assert (Hcount : forall q,
    q ∉ [OWS "Abstract"; OWS "Metadata"; OWS "Profile"; OWS "WSDL"; WPS "Process"] ->
    q <> WPS "Status" ->
    List.length (child_elements q doc) = List.length (filter (fun c => tag c = q) tail)).
  { intros q Hq Hs. rewrite (child_elements_children _ _ _ Hc), !filter_app, !length_app.
    fold (child_elements q (WPSResponse.process_part env process self)).
    rewrite process_part_no_child by exact Hq.
    rewrite filter_tag_singleton. cbn [tag WPSResponse.status_element].
    rewrite bool_decide_eq_false_2 by congruence. reflexivity. }
  rewrite !Hcount by (tag_not_listed || discriminate).
  destruct Hcase as [(Ht & -> & ?)|[(Ht & -> & ?)|[(Ht & -> & ?)|(Ht & Hsec & ?)]]].
  - destruct Hkind as [[-> _]|[[Hk ?]|[[Hk ?]|[Hk ?]]]]; try lia. cbn. auto.
  - destruct Hkind as [[Hk ?]|[[-> _]|[[Hk ?]|[Hk ?]]]]; try lia. cbn. auto.
  - destruct Hkind as [[Hk ?]|[[Hk ?]|[[-> _]|[Hk ?]]]]; try lia. cbn. auto.
  - destruct Hkind as [[Hk ?]|[[Hk ?]|[[Hk ?]|[-> _]]]]; try lia.
    rewrite !(result_section_count _ _ _ Hsec).
    rewrite (bool_decide_eq_true_2 ([WPS "ProcessSucceeded"] = [WPS "ProcessSucceeded"]))
      by reflexivity.
    destruct (bool_decide (req_lineage _ = _)); cbn; auto.
Qed.

(** X12 at a concrete input. *)
Lemma response_result_sections_witness :
  List.length (child_elements (WPS "ProcessOutputs") doc_at_50) = 1%nat
  /\ List.length (child_elements (WPS "DataInputs") doc_at_50) = 0%nat
  /\ List.length (child_elements (WPS "OutputDefinitions") doc_at_50) = 0%nat.
Proof.
  apply (response_result_sections env0 (buffer_process quiet_handler false false)
           response_at_50 (fs_with_free 8192) (response_at_50, fs_with_free 8192)).
  reflexivity.
Defined.

(* ================================================================== *)
(** * [update_status], [__call__] of a response, and the status file *)
(* ================================================================== *)

Lemma mapM_state {S A B} (f : A -> Py S B) (l : list A) (s : S) :
  (forall x s, (f x s).1 = s) -> (mapM f l s).1 = s.
Proof.
  intros Hf. induction l as [|x l IH]; [reflexivity|].
  cbn [mapM]. unfold bind. specialize (Hf x s).
  destruct (f x s) as [s1 [y|e]]; cbn in Hf; subst s1; [|reflexivity].
  destruct (mapM f l s) as [s2 [ys|e]]; cbn in IH; subst s2; reflexivity.
Qed.

Lemma output_objects_state {S} process self (s : S) :
  (@WPSResponse.output_objects S process self s).1 = s.
Proof.
  unfold WPSResponse.output_objects. apply mapM_state. intros [k i] s0. cbn.
  destruct (proc_outputs process !! i); reflexivity.
Qed.

Lemma lineage_inputs_state {S} env self (s : S) :
  (@WPSResponse.lineage_inputs S env self s).1 = s.
Proof.
  unfold WPSResponse.lineage_inputs. destruct (req_inputs _); try reflexivity.
  destruct (bool_decide _); reflexivity.
Qed.

Lemma bind_state {S A B} (m : Py S A) (k : A -> Py S B) (s : S) :
  (m s).1 = s -> (forall a, (k a s).1 = s) -> (bind m k s).1 = s.
Proof.
  intros Hm Hk. unfold bind. destruct (m s) as [s1 [a|e]]; cbn in Hm; subst s1.
  - apply Hk.
  - reflexivity.
Qed.

(** [_construct_doc] changes the response and the files in one state
    only: when it reports the process as accepted. *)
Lemma construct_doc_state env process self files_ :
  ~ (WPSResponse.STORE_AND_UPDATE_STATUS <= resp_status self
     /\ resp_status_percentage self = 0) ->
  (WPSResponse._construct_doc env process (self, files_)).1 = (self, files_).
Proof.
  intros Hn. unfold WPSResponse._construct_doc.
  destruct (bool_decide (WPSResponse.STORE_AND_UPDATE_STATUS <= resp_status self)
            && bool_decide (resp_status_percentage self = 0)) eqn:Ha.
  { apply andb_true_iff in Ha as [H1%bool_decide_eq_true H2%bool_decide_eq_true].
    exfalso. auto. }
  destruct (bool_decide (WPSResponse.STORE_AND_UPDATE_STATUS <= resp_status self)
            && bool_decide (0 < resp_status_percentage self < 100)); [reflexivity|].
  destruct (bool_decide (resp_status_percentage self = -1)); [reflexivity|].
  cbv zeta. apply bind_state.
  - destruct (bool_decide (req_lineage _ = _)); [|reflexivity].
    apply bind_state; [apply lineage_inputs_state|]. intros ins.
    apply bind_state; [apply output_objects_state|]. reflexivity.
  - intros d. apply bind_state; [apply output_objects_state|]. reflexivity.
Qed.

Lemma write_response_doc_ok env process doc files_ files' :
  WPSResponse.write_response_doc env process doc files_ = (files', Ok tt) ->
  exists d, doc = Some d
    /\ files' = set_files (<[proc_status_location process := tostring env d]>
                             (files files_)) files_.
Proof.
  unfold WPSResponse.write_response_doc, write_file.
  destruct (can_open_w _ _); [|discriminate].
  destruct doc as [d|]; [|discriminate].
  intros [= <-]. eauto.
Qed.

Lemma update_status_message_only env process message sp self files_ :
  sp = None \/ sp = Some 0 ->
  WPSResponse.update_status env process message sp (self, files_)
  = let self1 := set_resp_message message self in
    if bool_decide (WPSResponse.STORE_STATUS <= resp_status self) then
      let '(files', r) :=
        WPSResponse.write_response_doc env process (resp_doc self) files_ in
      ((self1, files'), r)
    else ((self1, files_), Ok tt).
Proof.
  intros [-> | ->]; unfold WPSResponse.update_status;
    rewrite ?(bool_decide_eq_false_2 (0 <> 0)) by (intros H; exact (H eq_refl));
    unfold bind, on_response, get_state, on_files, ret; cbn;
    destruct (bool_decide (WPSResponse.STORE_STATUS <= resp_status self)); reflexivity.
Qed.

Lemma set_files_lookup path bytes files_ p :
  files (set_files (<[path := bytes]> (files files_)) files_) !! p
  = if bool_decide (p = path) then Some bytes else files files_ !! p.
Proof.
  cbn. case_bool_decide as Hp.
  - subst p. apply lookup_insert_eq.
  - apply lookup_insert_ne. congruence.
Qed.

(** X13.  When [update_status] returns at a level of at least
    [STORE_STATUS], the response holds a document, the status file holds
    its serialisation, the message is the one given, and no other file
    has changed. *)
Theorem update_status_status_file (env : Env) (process : Process) (message : pystr)
    (status_percentage : option Z) (self self' : WPSResponse) (files_ files' : FS) :
  WPSResponse.STORE_STATUS <= resp_status self ->
  WPSResponse.update_status env process message status_percentage (self, files_)
  = ((self', files'), Ok tt) ->
  exists doc,
    resp_doc self' = Some doc
    /\ resp_message self' = message
    /\ files files' !! proc_status_location process = Some (tostring env doc)
    /\ forall p, p <> proc_status_location process ->
                 files files' !! p = files files_ !! p.
Proof.
  intros Hlevel.
  assert (Hsp : (exists n, status_percentage = Some n /\ n <> 0)
                \/ (status_percentage = None \/ status_percentage = Some 0)).
  { destruct status_percentage as [n|]; [|auto].
    destruct (decide (n = 0)) as [->|Hn]; [auto|left; eauto]. }
  destruct Hsp as [(n & -> & Hn)|Hsp].
  - rewrite update_status_nonzero by exact Hn. cbv zeta.
    assert (Hst : (WPSResponse._construct_doc env process
                     (set_resp_status_percentage n (set_resp_message message self),
                      files_)).1
                  = (set_resp_status_percentage n (set_resp_message message self), files_)).
    { apply construct_doc_state. cbn. lia. }
    destruct (WPSResponse._construct_doc _ _ _) as [[self2 files2] [doc|e]];
      [|discriminate].
    cbn [fst] in Hst. injection Hst as -> ->.
    cbn [resp_status set_resp_doc set_resp_status_percentage set_resp_message].
    rewrite bool_decide_eq_true_2 by exact Hlevel.
    destruct (WPSResponse.write_response_doc _ _ _ _) as [f3 r] eqn:Hw.
    intros [= <- <- ->].
    apply write_response_doc_ok in Hw as (d & [= <-] & ->).
    exists doc. split_and!; try reflexivity.
    + rewrite set_files_lookup, bool_decide_eq_true_2 by reflexivity. reflexivity.
    + intros p Hp. rewrite set_files_lookup, bool_decide_eq_false_2 by exact Hp.
      reflexivity.
  - rewrite update_status_message_only by exact Hsp. cbv zeta.
    rewrite bool_decide_eq_true_2 by exact Hlevel.
    destruct (WPSResponse.write_response_doc _ _ _ _) as [f3 r] eqn:Hw.
    intros [= <- <- ->].
    apply write_response_doc_ok in Hw as (d & Hd & ->).
    exists d. split_and!; [exact Hd|reflexivity| |].
    + rewrite set_files_lookup, bool_decide_eq_true_2 by reflexivity. reflexivity.
    + intros p Hp. rewrite set_files_lookup, bool_decide_eq_false_2 by exact Hp.
      reflexivity.
Qed.

(** X14.  Below the level [STORE_STATUS], [update_status] leaves
    the files as they are, whatever its arguments and whatever it ends
    in. *)
Theorem update_status_without_storage (env : Env) (process : Process)
    (message : pystr) (status_percentage : option Z) (self : WPSResponse)
    (files_ : FS) :
  resp_status self < WPSResponse.STORE_STATUS ->
  (WPSResponse.update_status env process message status_percentage (self, files_)).1.2
  = files_.
Proof.
  intros Hlevel.
  assert (Hsp : (exists n, status_percentage = Some n /\ n <> 0)
                \/ (status_percentage = None \/ status_percentage = Some 0)).
  { destruct status_percentage as [n|]; [|auto].
    destruct (decide (n = 0)) as [->|Hn]; [auto|left; eauto]. }
  destruct Hsp as [(n & -> & Hn)|Hsp].
  - rewrite update_status_nonzero by exact Hn. cbv zeta.
    assert (Hst : (WPSResponse._construct_doc env process
                     (set_resp_status_percentage n (set_resp_message message self),
                      files_)).1
                  = (set_resp_status_percentage n (set_resp_message message self), files_)).
    { apply construct_doc_state. cbn.
      unfold WPSResponse.STORE_AND_UPDATE_STATUS, WPSResponse.STORE_STATUS in *. lia. }
    destruct (WPSResponse._construct_doc _ _ _) as [[self2 files2] [doc|e]];
      cbn [fst] in Hst; injection Hst as -> ->.
    + cbn [resp_status set_resp_doc set_resp_status_percentage set_resp_message].
      rewrite bool_decide_eq_false_2 by lia. reflexivity.
    + reflexivity.
  - rewrite update_status_message_only by exact Hsp. cbv zeta.
    rewrite bool_decide_eq_false_2 by lia. reflexivity.
Qed.

(** X13 at a concrete input. *)
Lemma update_status_status_file_witness :
  exists doc,
    resp_doc (set_resp_message (py "halfway") stored_response) = Some doc
    /\ resp_message (set_resp_message (py "halfway") stored_response) = py "halfway"
    /\ files (set_files (<[py "/var/wps/out/status.xml" := py "<doc/>"]>
                          (files (fs_with_free 8192))) (fs_with_free 8192))
         !! proc_status_location stored_process = Some (tostring env0 doc)
    /\ forall p, p <> proc_status_location stored_process ->
         files (set_files (<[py "/var/wps/out/status.xml" := py "<doc/>"]>
                             (files (fs_with_free 8192))) (fs_with_free 8192)) !! p
         = files (fs_with_free 8192) !! p.
Proof.
  apply (update_status_status_file env0 stored_process (py "halfway") None
           stored_response); [vm_compute; discriminate|reflexivity].
Defined.

(** X14 at a concrete input. *)
Lemma update_status_without_storage_witness :
  (WPSResponse.update_status env0 (buffer_process quiet_handler false false)
     (py "done") (Some 100) (response_at_50, fs_with_free 8192)).1.2
  = fs_with_free 8192.
Proof.
  apply (update_status_without_storage env0 (buffer_process quiet_handler false false)
           (py "done") (Some 100) response_at_50 (fs_with_free 8192)).
  reflexivity.
Defined.

(** X15.  Rendering a response changes nothing, except in one
    state: at the level [STORE_AND_UPDATE_STATUS] with percentage [0]
    the message becomes ['PyWPS Process <identifier> accepted'] and the
    document, whose status is [ProcessAccepted], is written to the
    status file; if the file cannot be written the call fails with
    [NoApplicableCode]. *)
Theorem call_writes_when_accepted_only (env : Env) (process : Process)
    (self : WPSResponse) (files_ : FS) :
  let accepted :=
    WPSResponse.STORE_AND_UPDATE_STATUS <= resp_status self
    /\ resp_status_percentage self = 0 in
  let self' := set_resp_message (accepted_message process) self in
  let location := proc_status_location process in
  (~ accepted -> (WPSResponse.call env process (self, files_)).1 = (self, files_))
  /\ (accepted -> can_open_w location files_ = true ->
      exists doc,
        WPSResponse.call env process (self, files_)
        = ((self', set_files (<[location := tostring env doc]> (files files_)) files_),
           Ok doc)
        /\ status_kind doc = [WPS "ProcessAccepted"])
  /\ (accepted -> can_open_w location files_ = false ->
      WPSResponse.call env process (self, files_)
      = ((self', files_), Raise (NoApplicableCode WPSResponse.write_failed_message))).
Proof.
  cbv zeta. split; [apply construct_doc_state|].
  assert (Hacc : WPSResponse.STORE_AND_UPDATE_STATUS <= resp_status self
                 /\ resp_status_percentage self = 0 ->
     WPSResponse.call env process (self, files_)
     = let doc := append (WPSResponse._process_accepted env
                            (set_resp_message (accepted_message process) self))
                         (WPSResponse.process_part env process self) in
       let '(files', r) := WPSResponse.write_response_doc env process (Some doc) files_ in
       ((set_resp_message (accepted_message process) self, files'),
        match r with Ok _ => Ok doc | Raise e => Raise e end)).
  { intros [Hl Hp]. unfold WPSResponse.call, WPSResponse._construct_doc.
    rewrite !bool_decide_eq_true_2 by assumption. cbn [andb]. cbv zeta.
    destruct (WPSResponse.write_response_doc _ _ _ _) as [f [[]|e]]; reflexivity. }
  split; intros Ha Hw; rewrite (Hacc Ha); cbv zeta;
    destruct (write_response_doc_cases env process
                (append (WPSResponse._process_accepted env
                           (set_resp_message (accepted_message process) self))
                        (WPSResponse.process_part env process self)) files_)
      as [[Hc ->]|[Hc ->]]; try congruence.
  eexists. split; [reflexivity|].
  apply (status_kind_shape env _
           (children (WPSResponse.process_part env process self))
           (WPSResponse.text_element (WPS "ProcessAccepted")
              (accepted_message process)) []).
  - rewrite children_append. reflexivity.
  - apply (process_part_no_child (WPS "Status")). tag_not_listed.
  - reflexivity.
Qed.

(** X15 at a concrete input. *)
Lemma call_writes_when_accepted_only_witness :
  (WPSResponse.call env0 (buffer_process quiet_handler false false)
     (response_at_50, fs_with_free 8192)).1
  = (response_at_50, fs_with_free 8192).
Proof.
  apply (call_writes_when_accepted_only env0 (buffer_process quiet_handler false false)
           response_at_50 (fs_with_free 8192)).
  intros [_ H]. discriminate H.
Defined.

(* ================================================================== *)
(** * What a run of a process ends in *)
(* ================================================================== *)

Lemma update_status_nonzero_percentage env process message n self files_ r f :
  n <> 0 ->
  WPSResponse.update_status env process message (Some n) (self, files_)
  = ((r, f), Ok tt) ->
  resp_status_percentage r = n.
Proof.
  intros Hn. rewrite update_status_nonzero by exact Hn. cbv zeta.
  assert (Hst : (WPSResponse._construct_doc env process
                   (set_resp_status_percentage n (set_resp_message message self),
                    files_)).1
                = (set_resp_status_percentage n (set_resp_message message self), files_)).
  { apply construct_doc_state. cbn. lia. }
  destruct (WPSResponse._construct_doc _ _ _) as [[self2 files2] [doc|e]];
    [|discriminate].
  cbn [fst] in Hst. injection Hst as -> ->.
  destruct (bool_decide _).
  - destruct (WPSResponse.write_response_doc _ _ _ _) as [f3 r3].
    intros [= <- _ _]. reflexivity.
  - intros [= <- _]. reflexivity.
Qed.

(** What the [except] clause of [_run_process] ends in. *)
Lemma on_exception_outcome env lineno frames e r self w :
  let out := Process.on_exception env lineno frames e r (self, w) in
  trace out.1.2 = trace w
  /\ match out.2 with
     | Ok r' => resp_status_percentage r' = -1
     | Raise e' => e' = NoApplicableCode WPSResponse.write_failed_message
     end.
Proof.
  cbv zeta. unfold Process.on_exception, Process.call_response. cbn [fst].
  rewrite update_status_failed.
  destruct (bool_decide _).
  - destruct (write_response_doc_cases env self
                (append (WPSResponse._process_failed env
                           (set_resp_status_percentage (-1)
                              (set_resp_message
                                 (Process.error_message env
                                    (Process.search_handler
                                       (Process.own_frame env lineno)
                                       (Process.own_frame env lineno) frames) e) r)))
                        (WPSResponse.process_part env self
                           (set_resp_status_percentage (-1)
                              (set_resp_message
                                 (Process.error_message env
                                    (Process.search_handler
                                       (Process.own_frame env lineno)
                                       (Process.own_frame env lineno) frames) e) r))))
                (fs w)) as [[_ Hw]|[_ Hw]];
      unfold failed_response; cbn [resp_doc set_resp_doc]; rewrite Hw;
      split; reflexivity.
  - split; reflexivity.
Qed.

Lemma run_process_trace env wps_request wps_response self w :
  trace (Process._run_process env wps_request wps_response (self, w)).1.2
  = trace w ++ [HandlerInvoked (proc_identifier self)].
Proof.
  unfold Process._run_process.
  set (o := proc_handler self wps_request wps_response (proc_outputs self) (fs w)).
  destruct (h_end o) as [|type_name|e frames].
  - destruct (bool_decide _); [|reflexivity].
    unfold Process.call_response.
    destruct (WPSResponse.update_status _ _ _ _ _) as [[r f] [[]|e]]; [reflexivity|].
    destruct (is_Exception e); [|reflexivity].
    rewrite (proj1 (on_exception_outcome _ _ _ _ _ _ _)). reflexivity.
  - reflexivity.
  - destruct (is_Exception e); [|reflexivity].
    rewrite (proj1 (on_exception_outcome _ _ _ _ _ _ _)). reflexivity.
Qed.

Lemma raises_Exception_only_ret {S A} (a : A) : raises_Exception_only (@ret S A a).
Proof. intros s s' e. discriminate. Qed.

Lemma raises_Exception_only_raise {S A} (e : PyException) :
  is_Exception e = true -> raises_Exception_only (@raise S A e).
Proof. intros He s s' e' [= _ <-]. exact He. Qed.

Lemma raises_Exception_only_bind {S A B} (m : Py S A) (k : A -> Py S B) :
  raises_Exception_only m -> (forall a, raises_Exception_only (k a)) ->
  raises_Exception_only (bind m k).
Proof.
  intros Hm Hk s s' e. unfold bind.
  destruct (m s) as [s1 [a|e1]] eqn:Hms.
  - apply Hk.
  - intros [= _ <-]. exact (Hm _ _ _ Hms).
Qed.

Lemma raises_Exception_only_mapM {S A B} (f : A -> Py S B) (l : list A) :
  (forall x, raises_Exception_only (f x)) -> raises_Exception_only (mapM f l).
Proof.
  intros Hf. induction l as [|x l IH]; cbn [mapM].
  - apply raises_Exception_only_ret.
  - apply raises_Exception_only_bind; [apply Hf|]. intros y.
    apply raises_Exception_only_bind; [exact IH|]. intros ys.
    apply raises_Exception_only_ret.
Qed.

Lemma output_objects_raises {S} process self :
  raises_Exception_only (@WPSResponse.output_objects S process self).
Proof.
  apply raises_Exception_only_mapM. intros [k i]. cbn.
  destruct (proc_outputs process !! i).
  - apply raises_Exception_only_ret.
  - apply raises_Exception_only_raise. reflexivity.
Qed.

Lemma lineage_inputs_raises {S} env self :
  raises_Exception_only (@WPSResponse.lineage_inputs S env self).
Proof.
  unfold WPSResponse.lineage_inputs. destruct (req_inputs _).
  - apply raises_Exception_only_raise. reflexivity.
  - destruct (bool_decide _);
      [apply raises_Exception_only_ret|apply raises_Exception_only_raise; reflexivity].
  - apply raises_Exception_only_ret.
Qed.

Lemma write_response_doc_raises env process doc :
  raises_Exception_only (WPSResponse.write_response_doc env process doc).
Proof.
  intros files_ s' e. unfold WPSResponse.write_response_doc, write_file.
  destruct (can_open_w _ _); [destruct doc|]; intros [= _ <-]; reflexivity.
Qed.

Lemma construct_doc_raises env process :
  raises_Exception_only (WPSResponse._construct_doc env process).
Proof.
  intros [self files_] s' e. unfold WPSResponse._construct_doc.
  destruct (_ && _).
  { destruct (WPSResponse.write_response_doc _ _ _ _) as [f [[]|e1]] eqn:Hw;
      [discriminate|].
    intros [= _ <-]. exact (write_response_doc_raises _ _ _ _ _ _ Hw). }
  destruct (_ && _); [discriminate|].
  destruct (bool_decide (resp_status_percentage self = -1)); [discriminate|].
  cbv zeta. revert s' e. generalize (self, files_).
  refine (raises_Exception_only_bind _ _ _ _).
  - destruct (bool_decide (req_lineage _ = _)); [|apply raises_Exception_only_ret].
    apply raises_Exception_only_bind; [apply lineage_inputs_raises|]. intros ins.
    apply raises_Exception_only_bind; [apply output_objects_raises|]. intros outs.
    apply raises_Exception_only_ret.
  - intros doc.
    apply raises_Exception_only_bind; [apply output_objects_raises|]. intros outs.
    apply raises_Exception_only_ret.
Qed.

Lemma update_status_raises env process message status_percentage :
  raises_Exception_only (WPSResponse.update_status env process message status_percentage).
Proof.
  unfold WPSResponse.update_status.
  apply raises_Exception_only_bind; [intros [r f] s' e; discriminate|]. intros _.
  apply raises_Exception_only_bind.
  - destruct status_percentage as [n|]; [|apply raises_Exception_only_ret].
    destruct (bool_decide (n <> 0)); [|apply raises_Exception_only_ret].
    apply raises_Exception_only_bind; [intros [r f] s' e; discriminate|]. intros _.
    apply raises_Exception_only_bind; [apply construct_doc_raises|]. intros doc.
    intros [r f] s' e; discriminate.
  - intros _. apply raises_Exception_only_bind; [intros s s' e; discriminate|].
    intros st. destruct (bool_decide _); [|apply raises_Exception_only_ret].
    intros [r f] s' e. unfold on_files.
    destruct (WPSResponse.write_response_doc _ _ _ _) as [f' [[]|e1]] eqn:Hw;
      [discriminate|].
    intros [= _ <-]. exact (write_response_doc_raises _ _ _ _ _ _ Hw).
Qed.

(** How [_run_process] ends, by how the handler ends. *)
Lemma run_process_result env wps_request wps_response self w :
  let o := proc_handler self wps_request wps_response (proc_outputs self) (fs w) in
  match (Process._run_process env wps_request wps_response (self, w)).2, h_end o with
  | Ok r, ReturnsResponse =>
      resp_status_percentage r = 100 \/ resp_status_percentage r = -1
  | Ok r, Raises e _ => is_Exception e = true /\ resp_status_percentage r = -1
  | Ok _, ReturnsObject _ => False
  | Raise e', ReturnsResponse => e' = NoApplicableCode WPSResponse.write_failed_message
  | Raise e', ReturnsObject type_name =>
      e' = PythonError "AttributeError" (Process.no_attribute type_name "update_status")
  | Raise e', Raises e _ =>
      (is_Exception e = false /\ e' = e)
      \/ (is_Exception e = true
          /\ e' = NoApplicableCode WPSResponse.write_failed_message)
  end.
Proof.
  cbv zeta. unfold Process._run_process.
  set (o := proc_handler self wps_request wps_response (proc_outputs self) (fs w)).
  destruct (h_end o) as [|type_name|e frames].
  - case_bool_decide as Hpct.
    + unfold Process.call_response. cbn [fs log_event set_fs].
      destruct (WPSResponse.update_status _ _ _ _ _) as [[r f] [[]|e]] eqn:Hup.
      * left. eapply update_status_nonzero_percentage; [|exact Hup]. lia.
      * rewrite (update_status_raises _ _ _ _ _ _ _ Hup).
        match goal with
        | |- context [Process.on_exception ?a ?b ?c ?d ?r0 (?p, ?w0)] =>
            pose proof (proj2 (on_exception_outcome a b c d r0 p w0)) as H
        end.
        cbv zeta in H. destruct (Process.on_exception _ _ _ _ _ _) as [st [r'|e']];
          cbn [snd] in *; auto.
    + left. cbn [snd]. destruct (decide (resp_status_percentage (h_response o) = 100));
        [assumption|contradiction].
  - reflexivity.
  - destruct (is_Exception e) eqn:Hexc.
    + pose proof (proj2 (on_exception_outcome env 696 frames e (h_response o)
                           (set_proc_outputs (h_outputs o) self)
                           (log_event (HandlerInvoked
                                         (proc_identifier (set_proc_outputs (h_outputs o) self)))
                                      (set_fs (h_fs o) w)))) as H.
      cbv zeta in H. destruct (Process.on_exception _ _ _ _ _ _) as [st [r|e']];
        cbn [snd] in *; auto.
    + left. split; reflexivity.
Qed.

(** X16.  [_run_process] calls the handler exactly once, and how
    it ends follows how the handler ends.  The handler returns a
    response: [_run_process] returns it with percentage [100] or [-1],
    or fails with the [NoApplicableCode] of a status file that cannot
    be written.  The handler returns an object that is not a response,
    such as [None]: [_run_process] never returns, the [AttributeError]
    of the [update_status] call in its [except] clause leaves it.  The
    handler raises an instance of [Exception]: [_run_process] returns
    the response with percentage [-1] or fails with that
    [NoApplicableCode].  The handler raises anything else, such as
    [SystemExit]: the exception leaves [_run_process] as it is. *)
Theorem run_process_outcome (env : Env) (wps_request : WPSRequest)
    (wps_response : WPSResponse) (self : Process) (w : World) :
  let o := proc_handler self wps_request wps_response (proc_outputs self) (fs w) in
  let out := Process._run_process env wps_request wps_response (self, w) in
  trace out.1.2 = trace w ++ [HandlerInvoked (proc_identifier self)]
  /\ match out.2, h_end o with
     | Ok r, ReturnsResponse =>
         resp_status_percentage r = 100 \/ resp_status_percentage r = -1
     | Ok r, Raises e _ => is_Exception e = true /\ resp_status_percentage r = -1
     | Ok _, ReturnsObject _ => False
     | Raise e', ReturnsResponse =>
         e' = NoApplicableCode WPSResponse.write_failed_message
     | Raise e', ReturnsObject type_name =>
         e' = PythonError "AttributeError"
                (Process.no_attribute type_name "update_status")
     | Raise e', Raises e _ =>
         (is_Exception e = false /\ e' = e)
         \/ (is_Exception e = true
             /\ e' = NoApplicableCode WPSResponse.write_failed_message)
     end.
Proof.
  cbv zeta. split; [apply run_process_trace|apply run_process_result].
Qed.

(** X17.  [Process.execute] runs the handler exactly once, unless
    the request asks for the response to be stored: then it may also
    refuse, changing neither the files nor the trace, or start one task
    on a response that has no document yet and is at [0] percent,
    leaving the files as they are. *)
Theorem execute_runs_handler_once (env : Env) (fresh_uuid : pystr)
    (wps_request : WPSRequest) (self : Process) (w : World) :
  let out := Process.execute env fresh_uuid wps_request (self, w) in
  (req_store_execute wps_request <> py "true" ->
   trace out.1.2 = trace w ++ [HandlerInvoked (proc_identifier self)])
  /\ exists events,
       trace out.1.2 = trace w ++ events
       /\ (events = [HandlerInvoked (proc_identifier self)]
           \/ (req_store_execute wps_request = py "true"
               /\ fs out.1.2 = fs w
               /\ (events = []
                   \/ exists process r, events = [TaskStarted process wps_request r]
                                        /\ resp_doc r = None
                                        /\ resp_status_percentage r = 0))).
Proof.
  cbv zeta. unfold Process.execute, Process.check_store.
  case_bool_decide as Hstore.
  - split; [congruence|].
    case_bool_decide as Hsup.
    { exists []. rewrite app_nil_r. auto 6. }
    case_bool_decide as Hstat.
    + case_bool_decide as Hssup.
      { exists []. rewrite app_nil_r. auto 6. }
      eexists. split; [reflexivity|]. right. split_and!; try reflexivity; [done|].
      right. eexists _, _. split_and!; reflexivity.
    + rewrite run_process_trace. eexists. split; [reflexivity|]. left. reflexivity.
  - rewrite run_process_trace. split; [reflexivity|].
    eexists. split; [reflexivity|]. left. reflexivity.
Qed.

(* ================================================================== *)
(** * The registry of a service *)
(* ================================================================== *)

Lemma same_declaration_refl p : same_declaration p p.
Proof. unfold same_declaration. split_and!; reflexivity. Qed.

Lemma same_declaration_trans p q r :
  same_declaration p q -> same_declaration q r -> same_declaration p r.
Proof.
  unfold same_declaration. intros H1 H2.
  destruct H1 as (?&?&?&?&?&?&?&?&?&?), H2 as (?&?&?&?&?&?&?&?&?&?).
  split_and!; congruence.
Qed.

Lemma service_init_snoc ps p :
  processes (Service.init (ps ++ [p]))
  = <[proc_identifier p := p]> (processes (Service.init ps)).
Proof. unfold Service.init. cbn [processes]. rewrite foldl_app. reflexivity. Qed.

(** X18.  The registry [Service.__init__] builds holds every
    process of the list under its own identifier and nothing else; of
    two processes with the same identifier the later one is kept. *)
Theorem service_init_registry (ps : list Process) :
  (forall i p, processes (Service.init ps) !! i = Some p ->
               proc_identifier p = i /\ p ∈ ps)
  /\ (forall p, p ∈ ps -> is_Some (processes (Service.init ps) !! proc_identifier p))
  /\ (forall p, processes (Service.init (ps ++ [p])) !! proc_identifier p = Some p).
Proof.
  split_and!.
  - induction ps as [|q ps IH] using rev_ind; intros i p.
    + cbn. rewrite lookup_empty. discriminate.
    + rewrite service_init_snoc.
      destruct (decide (proc_identifier q = i)) as [<-|Hne].
      * rewrite lookup_insert_eq. intros [= <-]. split; [reflexivity|].
        apply elem_of_app. right. apply list_elem_of_singleton. reflexivity.
      * rewrite lookup_insert_ne by exact Hne. intros H.
        destruct (IH _ _ H) as [Hid Hin]. split; [exact Hid|].
        apply elem_of_app. left. exact Hin.
  - induction ps as [|q ps IH] using rev_ind; intros p Hin.
    + inversion Hin.
    + rewrite service_init_snoc.
      destruct (decide (proc_identifier q = proc_identifier p)) as [Heq|Hne].
      * rewrite <- Heq, lookup_insert_eq. eauto.
      * rewrite lookup_insert_ne by exact Hne. apply IH.
        apply elem_of_app in Hin as [Hin|Hin]; [exact Hin|].
        apply list_elem_of_singleton in Hin. congruence.
  - intros p. rewrite service_init_snoc. apply lookup_insert_eq.
Qed.

Lemma mark_references_declaration requested process :
  same_declaration process (Service.mark_references requested process).1.
Proof.
  revert process. induction requested as [|[k d] requested IH]; intros process.
  - apply same_declaration_refl.
  - cbn [Service.mark_references].
    destruct (dict_get_default d "asReference" (VStr (py "false")));
      try apply same_declaration_refl.
    destruct (_ && _); [apply same_declaration_refl|].
    eapply same_declaration_trans; [|apply IH].
    unfold same_declaration. split_and!; reflexivity.
Qed.

Lemma process_execute_declaration env fresh_uuid wps_request self w :
  same_declaration self (Process.execute env fresh_uuid wps_request (self, w)).1.1.
Proof.
  unfold Process.execute, Process.check_store.
  repeat case_bool_decide; cbn [fst];
    try (unfold same_declaration; split_and!; reflexivity);
    match goal with
    | |- context [Process._run_process ?e ?rq ?rs (?p, ?w0)] =>
        destruct (run_process_process e rq rs p w0) as [outs ->]
    end;
    unfold same_declaration; split_and!; reflexivity.
Qed.

Lemma execute_process_declaration env fresh_uuid wps_request process w :
  same_declaration process
    (Service.execute_process env fresh_uuid wps_request (process, w)).1.1.
Proof.
  unfold Service.execute_process.
  destruct (_ && _); [apply same_declaration_refl|].
  destruct (in_fs _ w) as [w1 [data_inputs|e]]; [|apply same_declaration_refl].
  set (req' := Service.set_req_inputs _ _).
  assert (Hmark : same_declaration process
            ((if req_raw req' then ret tt
              else Service.mark_references (map_to_list (req_outputs req'))) process).1).
  { destruct (req_raw req'); [apply same_declaration_refl|].
    apply mark_references_declaration. }
  destruct ((if req_raw req' then ret tt else _) process) as [process1 [[]|e]];
    [|exact Hmark].
  cbn [fst] in Hmark.
  pose proof (process_execute_declaration env fresh_uuid req' process1 w1) as Hex.
  destruct (Process.execute _ _ _ _) as [[process2 w2] [r|e]]; cbn [fst] in Hex.
  - eapply same_declaration_trans; [exact Hmark|].
    destruct (req_raw req'); [destruct (Service.raw_output _ _)|]; exact Hex.
  - eapply same_declaration_trans; [exact Hmark|].
    destruct (is_Exception e); exact Hex.
Qed.

(** X19.  [Service.execute] touches the process it is asked for
    only: every other entry of the registry is unchanged, no entry is
    added or removed, and what a process declares (identifier, title,
    metadata, inputs, what it supports) stays as it is.  For an
    identifier that is not registered it fails with [BadRequest] and
    changes nothing. *)
Theorem service_execute_registry (env : Env) (fresh_uuid : pystr)
    (identifier : option pystr) (wps_request : WPSRequest) (self : Service) (w : World) :
  let out := Service.execute env fresh_uuid identifier wps_request (self, w) in
  (forall i, identifier <> Some i ->
             processes out.1.1 !! i = processes self !! i)
  /\ (forall i p, processes self !! i = Some p ->
        exists p', processes out.1.1 !! i = Some p' /\ same_declaration p p')
  /\ (forall i, processes out.1.1 !! i = None <-> processes self !! i = None)
  /\ ((forall i, identifier = Some i -> processes self !! i = None) ->
      out = ((self, w), Raise (BadRequest (py "Unknown process " ++ repr identifier)))).
Proof.
  cbv zeta. unfold Service.execute.
  destruct identifier as [i0|]; cbn [mbind option_bind];
    [destruct (processes self !! i0) as [p0|] eqn:Hp0|]; cbn [option_map].
  - pose proof (execute_process_declaration env fresh_uuid wps_request p0 w) as Hdecl.
    destruct (Service.execute_process _ _ _ _) as [[p1 w1] r]. cbn [fst] in *.
    cbn [processes]. split_and!.
    + intros i Hi. apply lookup_insert_ne. congruence.
    + intros i p Hp. destruct (decide (i0 = i)) as [<-|Hne].
      * rewrite lookup_insert_eq. exists p1. split; [reflexivity|]. congruence.
      * rewrite lookup_insert_ne by exact Hne. exists p.
        split; [exact Hp|apply same_declaration_refl].
    + intros i. destruct (decide (i0 = i)) as [<-|Hne].
      * rewrite lookup_insert_eq, Hp0. split; discriminate.
      * rewrite lookup_insert_ne by exact Hne. reflexivity.
    + intros Hunknown. specialize (Hunknown i0 eq_refl). congruence.
  - split_and!; try reflexivity; eauto using same_declaration_refl.
  - split_and!; try reflexivity; eauto using same_declaration_refl.
Qed.

(* ================================================================== *)
(** * [Service.execute]: errors, results, inputs and outputs *)
(* ================================================================== *)

Lemma app_nil_inv_trace (l : list Event) e : l ++ [e] <> l.
Proof.
  intros H. apply (f_equal List.length) in H. rewrite length_app in H. cbn in H. lia.
Qed.

Lemma process_execute_raise env fresh_uuid wps_request self w st e :
  Process.execute env fresh_uuid wps_request (self, w) = (st, Raise e) ->
  trace st.2 <> trace w ->
  e = NoApplicableCode WPSResponse.write_failed_message
  \/ (exists type_name,
        e = PythonError "AttributeError" (Process.no_attribute type_name "update_status"))
  \/ is_Exception e = false.
Proof.
  unfold Process.execute, Process.check_store.
  assert (Hrun : forall r p,
            Process._run_process env wps_request r (p, w) = (st, Raise e) ->
            e = NoApplicableCode WPSResponse.write_failed_message
            \/ (exists type_name,
                  e = PythonError "AttributeError"
                        (Process.no_attribute type_name "update_status"))
            \/ is_Exception e = false).
  { intros r p H. pose proof (run_process_result env wps_request r p w) as Hr.
    cbv zeta in Hr. rewrite H in Hr. cbn [snd] in Hr.
    destruct (h_end _) as [|type_name|e0 frames].
    - left. exact Hr.
    - right. left. exists type_name. exact Hr.
    - destruct Hr as [[Hbase ->]|[_ ->]]; [right; right; exact Hbase|left; reflexivity]. }
  repeat case_bool_decide;
    try (intros [= <- _] Hne; exfalso; apply Hne; reflexivity);
    try discriminate; intros Hex _; eapply Hrun; exact Hex.
Qed.

Lemma in_fs_trace {A} (m : Py FS A) w : trace (in_fs m w).1 = trace w.
Proof. unfold in_fs. destruct (m (fs w)). reflexivity. Qed.

Lemma execute_process_raise env fresh_uuid wps_request process w st e :
  Service.execute_process env fresh_uuid wps_request (process, w) = (st, Raise e) ->
  trace st.2 <> trace w ->
  e = service_write_error env
  \/ (exists type_name,
        e = NoApplicableCode
              (py "Service error: " ++ Process.no_attribute type_name "update_status"))
  \/ is_Exception e = false
  \/ (req_raw wps_request = true /\ e = InvalidParameterValue [] VNone).
Proof.
  unfold Service.execute_process.
  destruct (_ && _); [intros [= <- _] Hne; exfalso; apply Hne; reflexivity|].
  pose proof (in_fs_trace
                (Service.parse_inputs env (proc_inputs process)
                   (req_inputs wps_request) ∅) w) as Htr.
  destruct (in_fs _ w) as [w1 [data_inputs|e1]]; cbn [fst] in Htr;
    [|intros [= <- _] Hne; cbn in Hne; congruence].
  set (req' := Service.set_req_inputs _ _).
  destruct ((if req_raw req' then ret tt else _) process) as [process1 [[]|e1]];
    [|intros [= <- _] Hne; cbn in Hne; congruence].
  destruct (Process.execute _ _ _ _) as [[process2 w2] [r|e2]] eqn:Hex.
  - change (req_raw req') with (req_raw wps_request).
    destruct (req_raw wps_request); [|discriminate].
    destruct (Service.raw_output _ _); [discriminate|].
    intros [= <- <-] _. do 3 right. split; reflexivity.
  - assert (He : forall st', st' = (process2, w2) -> trace st'.2 <> trace w ->
                   e2 = NoApplicableCode WPSResponse.write_failed_message
                   \/ (exists type_name,
                         e2 = PythonError "AttributeError"
                                (Process.no_attribute type_name "update_status"))
                   \/ is_Exception e2 = false).
    { intros st' -> Hne. eapply process_execute_raise; [exact Hex|].
      cbn [snd] in *. congruence. }
    destruct (is_Exception e2) eqn:Hexc; intros [= <- <-] Hne;
      destruct (He _ eq_refl Hne) as [->|[[type_name ->]|Hbase]].
    + left. reflexivity.
    + right. left. exists type_name. reflexivity.
    + congruence.
    + discriminate Hexc.
    + discriminate Hexc.
    + right. right. left. exact Hexc.
Qed.

(** X20.  Once [Service.execute] has started the process (the
    handler was called or a task was started), what it can raise is:
    the [NoApplicableCode] that wraps the failure to write the status
    file; the [NoApplicableCode] that wraps the [AttributeError] on a
    handler result that is not a response; an exception that is not an
    instance of [Exception], which no [except Exception] clause
    catches; or, for a raw request, [InvalidParameterValue('')] because
    no requested output is declared. *)
Theorem service_errors_after_start (env : Env) (fresh_uuid : pystr)
    (identifier : option pystr) (wps_request : WPSRequest) (self : Service)
    (w : World) (st : Service * World) (e : PyException) :
  Service.execute env fresh_uuid identifier wps_request (self, w) = (st, Raise e) ->
  trace st.2 <> trace w ->
  e = service_write_error env
  \/ (exists type_name,
        e = NoApplicableCode
              (py "Service error: " ++ Process.no_attribute type_name "update_status"))
  \/ is_Exception e = false
  \/ (req_raw wps_request = true /\ e = InvalidParameterValue [] VNone).
Proof.
  unfold Service.execute.
  destruct (identifier ≫= _) as [[i process]|];
    [|intros [= <- _] Hne; exfalso; apply Hne; reflexivity].
  destruct (Service.execute_process _ _ _ _) as [[p1 w1] r] eqn:Hex.
  intros [= <- ->] Hne. eapply execute_process_raise; [exact Hex|exact Hne].
Qed.

(** X20 at a concrete input. *)
Lemma service_errors_after_start_witness :
  (Service.execute env0 uuid0 (Some (py "echo")) raw_request_other
     (echo_service, world0)).2
  = Raise (InvalidParameterValue [] VNone)
  /\ (InvalidParameterValue [] VNone = service_write_error env0
      \/ (exists type_name,
            InvalidParameterValue [] VNone
            = NoApplicableCode
                (py "Service error: " ++ Process.no_attribute type_name "update_status"))
      \/ is_Exception (InvalidParameterValue [] VNone) = false
      \/ (req_raw raw_request_other = true
          /\ InvalidParameterValue [] VNone = InvalidParameterValue [] VNone)).
Proof.
  split; [reflexivity|].
  apply (service_errors_after_start env0 uuid0 (Some (py "echo")) raw_request_other
           echo_service world0
           (Service.execute env0 uuid0 (Some (py "echo")) raw_request_other
              (echo_service, world0)).1).
  - rewrite (surjective_pairing (Service.execute _ _ _ _ _)) at 1. reflexivity.
  - vm_compute. discriminate.
Defined.

(** A handler that returns [None]: the [AttributeError] that leaves
    [_run_process] is reported as a service error. *)
Lemma service_execute_handler_returns_none :
  (Service.execute env0 uuid0 (Some (py "echo")) echo_request
     (Service.init [echo_with forgetful_handler], world0)).2
  = Raise (NoApplicableCode
             (py "Service error: 'NoneType' object has no attribute 'update_status'")).
Proof. vm_compute. reflexivity. Qed.

(** A handler that exits: [SystemExit] passes the [except Exception]
    clauses of [_run_process] and of [Service.execute]. *)
Lemma service_execute_handler_exits :
  (Service.execute env0 uuid0 (Some (py "echo")) echo_request
     (Service.init [echo_with exiting_handler], world0)).2
  = Raise (BaseExceptionOnly "SystemExit" (py "1")).
Proof. vm_compute. reflexivity. Qed.

Lemma elem_of_flat_map {A B} (f : A -> list B) (l : list A) (x : B) :
  x ∈ flat_map f l -> exists y, y ∈ l /\ x ∈ f y.
Proof.
  induction l as [|y l IH]; cbn [flat_map]; [inversion 1|].
  intros [H|H]%elem_of_app.
  - exists y. split; [apply elem_of_cons; left; reflexivity|exact H].
  - destruct (IH H) as (z & Hz & Hx). exists z.
    split; [apply elem_of_cons; right; exact Hz|exact Hx].
Qed.

Lemma raw_output_Some requested outs o :
  Service.raw_output requested outs = Some o ->
  o ∈ outs /\ Some (out_identifier o) ∈ requested.
Proof.
  unfold Service.raw_output. intros H%head_Some_elem_of.
  apply elem_of_flat_map in H as (k & Hk & Ho).
  apply list_elem_of_filter in Ho as [-> Ho]. split; assumption.
Qed.

(** X21.  What [Service.execute] returns follows the [raw] flag: a
    raw request gets the data of an output that the process declares and
    the request names; any other request gets the response object. *)
Theorem service_execute_result (env : Env) (fresh_uuid : pystr) (i : pystr)
    (wps_request : WPSRequest) (self : Service) (w : World)
    (st : Service * World) (resp : ServiceResponse) :
  Service.execute env fresh_uuid (Some i) wps_request (self, w) = (st, Ok resp) ->
  match resp with
  | RawResponse data =>
      req_raw wps_request = true
      /\ exists process o,
           processes st.1 !! i = Some process
           /\ o ∈ proc_outputs process
           /\ out_data o = data
           /\ is_Some (req_outputs wps_request !! Some (out_identifier o))
  | ExecuteResponse r => req_raw wps_request = false
  end.
Proof.
  unfold Service.execute. cbn [mbind option_bind].
  destruct (processes self !! i) as [process|]; [|discriminate]. cbn [option_map].
  unfold Service.execute_process.
  destruct (_ && _); [discriminate|].
  destruct (in_fs _ w) as [w1 [data_inputs|e1]]; [|discriminate].
  set (req' := Service.set_req_inputs _ _).
  destruct ((if req_raw req' then ret tt else _) process) as [process1 [[]|e1]];
    [|discriminate].
  destruct (Process.execute _ _ _ _) as [[process2 w2] [r|e2]];
    [|destruct (is_Exception e2); discriminate].
  change (req_raw req') with (req_raw wps_request).
  change (req_outputs req') with (req_outputs wps_request).
  destruct (req_raw wps_request).
  - destruct (Service.raw_output _ _) as [o|] eqn:Hraw; [|discriminate].
    intros [= <- <-]. split; [reflexivity|].
    apply raw_output_Some in Hraw as [Hin Hreq].
    exists process2, o. cbn [fst processes]. rewrite lookup_insert_eq.
    split_and!; try reflexivity; [exact Hin|].
    apply list_elem_of_fmap in Hreq as ([k d] & Hk & Hkd). cbn in Hk. subst k.
    apply elem_of_map_to_list in Hkd. eauto.
  - intros [= <- <-]. reflexivity.
Qed.

Lemma parse_inputs_keys env declared inputs acc files_ files' m :
  Service.parse_inputs env declared inputs acc files_ = (files', Ok m) ->
  forall k, is_Some (m !! k)
            <-> is_Some (acc !! k)
                \/ exists inpt, inpt ∈ declared /\ is_converted inpt = true
                                /\ k = Some (in_identifier inpt).
Proof.
  revert acc files_. induction declared as [|inpt declared IH]; intros acc files_.
  - intros [= _ <-] k. split; [auto|]. intros [H|(x & Hx & _)]; [exact H|inversion Hx].
  - cbn [Service.parse_inputs].
    destruct (Service.is_InputsNone inputs); [discriminate|].
    destruct (negb _); [discriminate|].
    assert (Hstep : forall v files1,
      Service.parse_inputs env declared inputs
        (<[Some (in_identifier inpt) := v]> acc) files1 = (files', Ok m) ->
      is_converted inpt = true ->
      forall k, is_Some (m !! k)
                <-> is_Some (acc !! k)
                    \/ exists x, x ∈ inpt :: declared /\ is_converted x = true
                                 /\ k = Some (in_identifier x)).
    { intros v files1 Hrun Hconv k. rewrite (IH _ _ Hrun k). split.
      - intros [Hk|(x & Hx & Hc & ->)].
        + destruct (decide (Some (in_identifier inpt) = k)) as [<-|Hne].
          * right. exists inpt. split_and!; auto. apply elem_of_cons. auto.
          * rewrite lookup_insert_ne in Hk by exact Hne. auto.
        + right. exists x. split_and!; auto. apply elem_of_cons. auto.
      - intros [Hk|(x & Hx & Hc & ->)].
        + left. destruct (decide (Some (in_identifier inpt) = k)) as [<-|Hne].
          * rewrite lookup_insert_eq. eauto.
          * rewrite lookup_insert_ne by exact Hne. exact Hk.
        + apply elem_of_cons in Hx as [->|Hx].
          * left. rewrite lookup_insert_eq. eauto.
          * right. eauto. }
    unfold is_converted in *.
    destruct (in_class inpt) eqn:Hclass.
    + intros Hrun. apply bind_ok in Hrun as (f1 & d & _ & Hrun).
      apply bind_ok in Hrun as (f2 & c & _ & Hrun).
      eapply Hstep; [exact Hrun|reflexivity].
    + intros Hrun. apply bind_ok in Hrun as (f1 & d & _ & Hrun).
      eapply Hstep; [exact Hrun|reflexivity].
    + intros Hrun k. rewrite (IH _ _ Hrun k). split.
      * intros [Hk|(x & Hx & Hc & ->)]; [auto|].
        right. exists x. split_and!; auto. apply elem_of_cons. auto.
      * intros [Hk|(x & Hx & Hc & ->)]; [auto|].
        apply elem_of_cons in Hx as [->|Hx]; [rewrite Hclass in Hc; discriminate|].
        right. eauto.
Qed.

(** X22.  The inputs [Service.execute] hands to the process are
    those the process declares as complex or literal inputs, each under
    its identifier: what the request submits besides is dropped, and a
    declared input of another class is not converted. *)
Theorem parse_inputs_declared_only (env : Env) (declared : list Input)
    (inputs : RequestInputs) (files_ files' : FS)
    (data_inputs : gmap (option pystr) DataInput) :
  Service.parse_inputs env declared inputs ∅ files_ = (files', Ok data_inputs) ->
  forall k, is_Some (data_inputs !! k)
            <-> exists inpt, inpt ∈ declared /\ is_converted inpt = true
                             /\ k = Some (in_identifier inpt).
Proof.
  intros Hrun k. rewrite (parse_inputs_keys _ _ _ _ _ _ _ Hrun k).
  rewrite lookup_empty. split; [intros [[x [=]]|H]; exact H|auto].
Qed.

(** X21 at a concrete input. *)
Lemma service_execute_result_witness :
  req_raw raw_request_result = true
  /\ exists process o,
       processes (Service.execute env0 uuid0 (Some (py "echo")) raw_request_result
                    (echo_service, world0)).1.1 !! py "echo" = Some process
       /\ o ∈ proc_outputs process
       /\ out_data o = VNone
       /\ is_Some (req_outputs raw_request_result !! Some (out_identifier o)).
Proof.
  apply (service_execute_result env0 uuid0 (py "echo") raw_request_result
           echo_service world0
           (Service.execute env0 uuid0 (Some (py "echo")) raw_request_result
              (echo_service, world0)).1 (RawResponse VNone)).
  rewrite (surjective_pairing (Service.execute _ _ _ _ _)) at 1. reflexivity.
Defined.

(** X22 at a concrete input. *)
Lemma parse_inputs_declared_only_witness :
  exists files' data_inputs,
    Service.parse_inputs env0 declared_inputs inputs_with_extra ∅ (fs_with_free 8192)
    = (files', Ok data_inputs)
    /\ forall k, is_Some (data_inputs !! k)
                 <-> exists inpt, inpt ∈ declared_inputs /\ is_converted inpt = true
                                  /\ k = Some (in_identifier inpt).
Proof.
  eexists _, _. split; [reflexivity|].
  eapply (parse_inputs_declared_only env0 declared_inputs inputs_with_extra
            (fs_with_free 8192)).
  reflexivity.
Defined.

Lemma mark_references_list (requested : list (option pystr * pydict)) process process' :
  NoDup requested.*1 ->
  Service.mark_references requested process = (process', Ok tt) ->
  proc_outputs process'
  = map (marked_output (list_to_map requested)) (proc_outputs process)
  /\ (proc_store_supported process = py "false" ->
      Forall (fun kd => requests_reference kd.2 = false) requested).
Proof.
  revert process. induction requested as [|[k d] requested IH]; intros process Hnd.
  - intros [= <-]. split; [|constructor]. cbn [list_to_map foldr].
    unfold marked_output. rewrite <- (map_id (proc_outputs process)) at 1.
    apply map_ext. intros o. rewrite lookup_empty. reflexivity.
  - cbn [Service.mark_references]. apply NoDup_cons in Hnd as [Hk Hnd].
    destruct (dict_get_default d "asReference" (VStr (py "false"))) as [|s|] eqn:Href;
      try discriminate.
    destruct (bool_decide (lower s = py "true")
              && bool_decide (proc_store_supported process = py "false")) eqn:Hrefuse;
      [discriminate|].
    intros Hrun. destruct (IH _ Hnd Hrun) as [Houts Hflags]. split.
    + rewrite Houts. cbn [proc_outputs set_proc_outputs]. rewrite map_map.
      apply map_ext. intros o. unfold marked_output.
      cbn [list_to_map foldr fst snd].
      destruct (decide (Some (out_identifier o) = k)) as [Hid|Hid].
      * rewrite (bool_decide_eq_true_2 _ Hid). subst k.
        cbn [out_identifier set_as_reference].
        rewrite lookup_insert_eq.
        rewrite (not_elem_of_list_to_map_1 _ _ Hk).
        unfold requests_reference. rewrite Href. reflexivity.
      * rewrite (bool_decide_eq_false_2 _ Hid).
        rewrite lookup_insert_ne by congruence. reflexivity.
    + intros Hsup. constructor; [|apply Hflags; exact Hsup].
      cbn [snd]. unfold requests_reference. rewrite Href.
      rewrite Hsup in Hrefuse.
      rewrite (bool_decide_eq_true_2 (py "false" = py "false")), andb_true_r in Hrefuse
        by reflexivity.
      exact Hrefuse.
Qed.

(** X23.  After the loop over the requested outputs has succeeded,
    every declared output that the request names has [as_reference] set
    to whether its [asReference] entry spells [true], in any case, and
    the other outputs are untouched; and if the process does not support
    storage, no requested output asks for a reference. *)
Theorem mark_references_outputs (requested : gmap (option pystr) pydict)
    (process process' : Process) :
  Service.mark_references (map_to_list requested) process = (process', Ok tt) ->
  proc_outputs process' = map (marked_output requested) (proc_outputs process)
  /\ (proc_store_supported process = py "false" ->
      forall k d, requested !! k = Some d -> requests_reference d = false).
Proof.
  intros Hrun.
  destruct (mark_references_list _ _ _ (NoDup_fst_map_to_list requested) Hrun)
    as [Houts Hflags].
  rewrite list_to_map_to_list in Houts. split; [exact Houts|].
  intros Hsup k d Hkd. specialize (Hflags Hsup).
  rewrite Forall_forall in Hflags.
  apply (Hflags (k, d)). apply elem_of_map_to_list. exact Hkd.
Qed.

(** X23 at a concrete input. *)
Lemma mark_references_outputs_witness :
  proc_outputs
    (set_proc_outputs [set_as_reference true out0] (buffer_process quiet_handler true true))
  = map (marked_output result_as_reference)
        (proc_outputs (buffer_process quiet_handler true true)).
Proof.
  apply (mark_references_outputs result_as_reference
           (buffer_process quiet_handler true true)).
  vm_compute. reflexivity.
Defined.

(* ================================================================== *)
(** * [Service.describe] *)
(* ================================================================== *)

Lemma all_requested_none {S} (ids : list pystr) (s : S) :
  Forall (fun i => lower i <> py "all") ids ->
  Service.all_requested (map Some ids) s = (s, Ok false).
Proof.
  induction 1 as [|i ids Hi _ IH]; [reflexivity|].
  cbn [map Service.all_requested]. rewrite bool_decide_eq_false_2 by exact Hi. exact IH.
Qed.

Lemma all_requested_blank {S} (pre : list pystr) post (s : S) :
  Forall (fun i => lower i <> py "all") pre ->
  Service.all_requested (map Some pre ++ None :: post) s
  = (s, Raise (PythonError "AttributeError"
                 (py "'NoneType' object has no attribute 'lower'"))).
Proof.
  induction 1 as [|i ids Hi _ IH]; [reflexivity|].
  cbn [map app Service.all_requested]. rewrite bool_decide_eq_false_2 by exact Hi. exact IH.
Qed.

Lemma all_requested_found {S} (pre : list pystr) ident post (s : S) :
  lower ident = py "all" ->
  Service.all_requested (map Some pre ++ Some ident :: post) s = (s, Ok true).
Proof.
  intros Hall. induction pre as [|i pre IH].
  - cbn [map app Service.all_requested]. rewrite bool_decide_eq_true_2 by exact Hall.
    reflexivity.
  - cbn [map app Service.all_requested]. destruct (bool_decide _); [reflexivity|exact IH].
Qed.

Lemma describe_nonempty {S} env idx self identifiers (s : S) :
  identifiers <> [] ->
  Service.describe env idx self (Some identifiers) s
  = match Service.all_requested identifiers s with
    | (s1, Ok all) =>
        match (if all : bool then
                 ret (map (fun kv : pystr * Process => describe_xml env idx kv.2)
                          (map_to_list (processes self)))
               else mapM (Service.describe_one env idx self) identifiers) s1 with
        | (s2, Ok els) => (s2, Ok (xml_response (process_descriptions els)))
        | (s2, Raise e) => (s2, Raise e)
        end
    | (s1, Raise e) => (s1, Raise e)
    end.
Proof.
  intros Hne. destruct identifiers as [|i identifiers]; [congruence|].
  unfold Service.describe. unfold bind at 1.
  destruct (Service.all_requested _ s) as [s1 [all|e]]; [|reflexivity].
  unfold bind at 1. destruct all.
  - reflexivity.
  - destruct (mapM _ _ s1) as [s2 [els|e]]; reflexivity.
Qed.

Lemma describe_each {S} env idx self (ids : list pystr) (s : S) :
  match first_unknown self ids with
  | Some i => mapM (Service.describe_one env idx self) (map Some ids) s
              = (s, Raise (unknown_process i))
  | None => exists els,
      mapM (Service.describe_one env idx self) (map Some ids) s = (s, Ok els)
      /\ Forall2 (fun i el => exists p, processes self !! i = Some p
                                         /\ el = describe_xml env idx p) ids els
  end.
Proof.
  unfold first_unknown. induction ids as [|i ids IH]; cbn [find map].
  - exists []. split; [reflexivity|constructor].
  - destruct (processes self !! i) as [p|] eqn:Hp.
    + rewrite (bool_decide_eq_true_2 (is_Some (Some p))) by eauto. cbn [negb].
      assert (Hstep :
        mapM (Service.describe_one env idx self) (Some i :: map Some ids) s
        = match mapM (Service.describe_one env idx self) (map Some ids) s with
          | (s', Ok els) => (s', Ok (describe_xml env idx p :: els))
          | (s', Raise e) => (s', Raise e)
          end).
      { cbn [mapM]. unfold bind, Service.describe_one at 1. cbn [mbind option_bind].
        rewrite Hp. reflexivity. }
      rewrite Hstep. destruct (find _ ids) as [j|].
      * rewrite IH. reflexivity.
      * destruct IH as (els & -> & Hall). exists (describe_xml env idx p :: els).
        split; [reflexivity|]. constructor; [eauto|exact Hall].
    + rewrite (bool_decide_eq_false_2 (is_Some None)) by (intros [? [=]]). cbn [negb].
      cbn [mapM]. unfold bind, Service.describe_one at 1. cbn [mbind option_bind].
      rewrite Hp. reflexivity.
Qed.

(** X24.  When one of the identifiers is [all], in any case, and
    those before it are texts, [describe] describes every registered
    process exactly once, whatever else the list holds: identifiers that
    are not registered are not reported. *)
Theorem describe_all_processes {S} (env : Env) (input_describe_xml : Input -> Element)
    (self : Service) (pre : list pystr) (ident : pystr)
    (post : list (option pystr)) (s : S) :
  lower ident = py "all" ->
  exists doc,
    Service.describe env input_describe_xml self
      (Some (map Some pre ++ Some ident :: post)) s
    = (s, Ok (xml_response doc))
    /\ List.length (children doc) = size (processes self)
    /\ forall el, el ∈ children doc
                  <-> exists i p, processes self !! i = Some p
                                  /\ el = describe_xml env input_describe_xml p.
Proof.
  intros Hall. rewrite describe_nonempty by (destruct pre; discriminate).
  rewrite (all_requested_found pre ident post s Hall). unfold ret.
  eexists. split; [reflexivity|]. cbn [children process_descriptions]. split.
  - rewrite length_map. apply length_map_to_list.
  - intros el. rewrite list_elem_of_fmap. split.
    + intros ([i p] & -> & Hip). apply elem_of_map_to_list in Hip. eauto.
    + intros (i & p & Hip & ->). exists (i, p). split; [reflexivity|].
      apply elem_of_map_to_list. exact Hip.
Qed.

(** X24 at a concrete input. *)
Lemma describe_all_processes_witness :
  exists doc,
    Service.describe env0 input_describe_xml0 service0
      (Some (map Some [py "buffer"] ++ Some (py "ALL") :: [Some (py "nothing"); None])) tt
    = (tt, Ok (xml_response doc))
    /\ List.length (children doc) = size (processes service0)
    /\ forall el, el ∈ children doc
                  <-> exists i p, processes service0 !! i = Some p
                                  /\ el = describe_xml env0 input_describe_xml0 p.
Proof.
  apply (describe_all_processes env0 input_describe_xml0 service0
           [py "buffer"] (py "ALL") [Some (py "nothing"); None] tt).
  reflexivity.
Defined.

(** X25.  Without [all] among the identifiers, [describe] fails
    with [InvalidParameterValue] for the first identifier that is not
    registered; when all are registered it returns one description for
    each, in the order of the request, repeated when the identifier is
    repeated. *)
Theorem describe_listed_processes {S} (env : Env)
    (input_describe_xml : Input -> Element) (self : Service) (ids : list pystr) (s : S) :
  ids <> [] ->
  Forall (fun i => lower i <> py "all") ids ->
  match first_unknown self ids with
  | Some i =>
      Service.describe env input_describe_xml self (Some (map Some ids)) s
      = (s, Raise (unknown_process i))
  | None =>
      exists doc,
        Service.describe env input_describe_xml self (Some (map Some ids)) s
        = (s, Ok (xml_response doc))
        /\ Forall2 (fun i el => exists p, processes self !! i = Some p
                                           /\ el = describe_xml env input_describe_xml p)
                   ids (children doc)
  end.
Proof.
  intros Hne Hnoall. rewrite describe_nonempty by (destruct ids; [congruence|discriminate]).
  rewrite (all_requested_none ids s Hnoall).
  pose proof (describe_each env input_describe_xml self ids s) as Heach.
  destruct (first_unknown self ids) as [i|].
  - rewrite Heach. reflexivity.
  - destruct Heach as (els & -> & Hall). eexists. split; [reflexivity|exact Hall].
Qed.

(** X25 at a concrete input. *)
Lemma describe_listed_processes_witness :
  Service.describe env0 input_describe_xml0 service0
    (Some (map Some [py "buffer"; py "nothing"; py "buffer"])) tt
  = (tt, Raise (unknown_process (py "nothing"))).
Proof.
  apply (describe_listed_processes env0 input_describe_xml0 service0
           [py "buffer"; py "nothing"; py "buffer"] tt); [discriminate|].
  repeat constructor; discriminate.
Defined.

(** X26.  [describe] fails with [MissingParameterValue] when the
    identifiers are [None] or the empty list, and with [AttributeError]
    when an identifier without text comes before any [all]: the search
    for [all] calls [lower] on it. *)
Theorem describe_without_identifier {S} (env : Env)
    (input_describe_xml : Input -> Element) (self : Service) (s : S) :
  Service.describe env input_describe_xml self None s
    = (s, Raise (MissingParameterValue [] (VStr (py "identifier"))))
  /\ Service.describe env input_describe_xml self (Some []) s
     = (s, Raise (MissingParameterValue [] (VStr (py "identifier"))))
  /\ forall pre post,
       Forall (fun i => lower i <> py "all") pre ->
       Service.describe env input_describe_xml self
         (Some (map Some pre ++ None :: post)) s
       = (s, Raise (PythonError "AttributeError"
                      (py "'NoneType' object has no attribute 'lower'"))).
Proof.
  split_and!; try reflexivity.
  intros pre post Hpre. rewrite describe_nonempty by (destruct pre; discriminate).
  rewrite (all_requested_blank pre post s Hpre). reflexivity.
Qed.

(* ================================================================== *)
(** * [Process.describe_xml] *)
(* ================================================================== *)

Lemma describe_xml_children env idx self :
  children (describe_xml env idx self)
  = description_head self
    ++ match proc_inputs self with
       | [] => []
       | _ :: _ => [Elem (E "DataInputs") ∅ None (map idx (proc_inputs self))]
       end
    ++ [Elem (E "ProcessOutputs") ∅ None
          (map (output_describe_xml env) (proc_outputs self))].
Proof.
  unfold describe_xml, description_head, optional_child.
  rewrite children_append.
  destruct (proc_inputs self) as [|inpt inputs]; cbn [map];
  destruct (negb (bool_decide (proc_wsdl self = [])));
  destruct (negb (bool_decide (proc_abstract self = [])));
  destruct (bool_decide (proc_status_supported self = py "true"));
  destruct (bool_decide (proc_store_supported self = py "true"));
  rewrite ?children_append, ?children_extend, ?children_append, ?children_attrib_set;
  cbn [children]; rewrite <- ?app_assoc; reflexivity.
Qed.

Lemma description_head_tags self :
  Forall (fun c => tag c ∈ [OWS "Identifier"; OWS "Title"; OWS "Abstract";
                            OWS "Metadata"; WPS "Profile"; WPS "WSDL"])
         (description_head self).
Proof.
  unfold description_head, optional_child. repeat apply Forall_app_2.
  - repeat constructor.
  - destruct (negb _); repeat constructor.
  - apply Forall_map, Forall_true. intros m. repeat constructor.
  - apply Forall_map, Forall_true. intros m. repeat constructor.
  - destruct (negb _); repeat constructor.
Qed.

(** X27.  In a process description the [ProcessOutputs] element
    is always there, as the last child, with one child per declared
    output; a [DataInputs] element is there only when the process
    declares an input; and the attributes [storeSupported] and
    [statusSupported] are there, with the value [true], only when the
    process supports it. *)
Theorem describe_xml_inputs_and_outputs (env : Env)
    (input_describe_xml : Input -> Element) (self : Process) :
  let doc := describe_xml env input_describe_xml self in
  last (children doc)
    = Some (Elem (E "ProcessOutputs") ∅ None
              (map (output_describe_xml env) (proc_outputs self)))
  /\ child_elements (E "ProcessOutputs") doc
     = [Elem (E "ProcessOutputs") ∅ None
          (map (output_describe_xml env) (proc_outputs self))]
  /\ child_elements (E "DataInputs") doc
     = (if Service.is_nil (proc_inputs self) then []
        else [Elem (E "DataInputs") ∅ None
                (map input_describe_xml (proc_inputs self))])
  /\ (attrib doc !! "storeSupported"%string
      = if bool_decide (proc_store_supported self = py "true")
        then Some (py "true") else None)
  /\ (attrib doc !! "statusSupported"%string
      = if bool_decide (proc_status_supported self = py "true")
        then Some (py "true") else None).
Proof.
  cbv zeta.
  assert (Hhead : forall q, q = E "ProcessOutputs" \/ q = E "DataInputs" ->
            filter (fun c => tag c = q) (description_head self) = []).
  { intros q Hq. apply filter_none.
    eapply Forall_impl; [apply description_head_tags|].
    intros c Hc Heq. cbv beta in Hc. rewrite Heq in Hc.
    destruct Hq as [-> | ->]; revert Hc; tag_not_listed. }
  split_and!.
  - rewrite describe_xml_children, !app_assoc. apply last_snoc.
  - unfold child_elements. rewrite describe_xml_children, !filter_app, Hhead by auto.
    destruct (proc_inputs self); reflexivity.
  - unfold child_elements. rewrite describe_xml_children, !filter_app, Hhead by auto.
    destruct (proc_inputs self); reflexivity.
  - unfold describe_xml. rewrite attrib_append.
    destruct (proc_inputs self) as [|inpt inputs]; cbn [map];
    destruct (negb (bool_decide (proc_wsdl self = [])));
    destruct (negb (bool_decide (proc_abstract self = [])));
    rewrite ?attrib_append, ?attrib_extend, ?attrib_append;
    destruct (bool_decide (proc_status_supported self = py "true"));
    case_bool_decide as Hs; rewrite ?attrib_attrib_set; cbn [attrib];
    rewrite ?(lookup_insert_ne _ "statusSupported"%string) by discriminate;
    rewrite ?lookup_insert_eq, ?Hs; try reflexivity;
    rewrite lookup_insert_ne by discriminate; apply lookup_empty.
  - unfold describe_xml. rewrite attrib_append.
    destruct (proc_inputs self) as [|inpt inputs]; cbn [map];
    destruct (negb (bool_decide (proc_wsdl self = [])));
    destruct (negb (bool_decide (proc_abstract self = [])));
    rewrite ?attrib_append, ?attrib_extend, ?attrib_append;
    destruct (bool_decide (proc_store_supported self = py "true"));
    case_bool_decide as Hs; rewrite ?attrib_attrib_set; cbn [attrib];
    rewrite ?lookup_insert_eq, ?Hs; try reflexivity;
    rewrite ?(lookup_insert_ne _ "storeSupported"%string) by discriminate;
    rewrite lookup_insert_ne by discriminate; apply lookup_empty.
Qed.

(* ================================================================== *)
(** * [Service.get_capabilities] *)
(* ================================================================== *)

Lemma tag_attrib_set k v e : tag (attrib_set k v e) = tag e.
Proof. destruct e; reflexivity. Qed.

Lemma tag_append c e : tag (append c e) = tag e.
Proof. destruct e; reflexivity. Qed.

Lemma tag_extend cs e : tag (extend cs e) = tag e.
Proof. destruct e; reflexivity. Qed.

Lemma tag_append_text q v e : tag (Service.append_text q v e) = tag e.
Proof. unfold Service.append_text. destruct (negb _); [apply tag_append|reflexivity]. Qed.

Lemma tag_append_nonempty c e : tag (Service.append_nonempty c e) = tag e.
Proof.
  unfold Service.append_nonempty. destruct (Service.is_nil _); [reflexivity|apply tag_append].
Qed.

Lemma children_append_text q v e :
  children (Service.append_text q v e) = children e ++ optional_child q v.
Proof.
  unfold Service.append_text, optional_child.
  destruct (negb _); [apply children_append|rewrite app_nil_r; reflexivity].
Qed.

Lemma children_append_nonempty c e :
  children (Service.append_nonempty c e)
  = children e ++ (if Service.is_nil (children c) then [] else [c]).
Proof.
  unfold Service.append_nonempty.
  destruct (Service.is_nil _); [rewrite app_nil_r; reflexivity|apply children_append].
Qed.

Lemma tag_service_identification env :
  tag (Service.service_identification env) = OWS "ServiceIdentification".
Proof.
  unfold Service.service_identification.
  rewrite tag_append_text, tag_extend, tag_append, tag_extend, tag_append.
  destruct (negb _); rewrite ?tag_append, tag_append_text; reflexivity.
Qed.

Lemma tag_service_contact env : tag (Service.service_contact env) = OWS "ServiceContact".
Proof.
  unfold Service.service_contact. destruct (negb _); [|reflexivity].
  rewrite tag_append_nonempty, !tag_append_text, tag_append. reflexivity.
Qed.

Lemma tag_service_provider env :
  tag (Service.service_provider env) = OWS "ServiceProvider".
Proof.
  unfold Service.service_provider. rewrite tag_append_nonempty.
  destruct (negb _); rewrite ?tag_append; reflexivity.
Qed.

Lemma service_contact_children env :
  Service.is_nil (children (Service.service_contact env))
  = bool_decide (get_config_value env "provider" "individualName" = []).
Proof.
  unfold Service.service_contact. destruct (bool_decide _); cbn [negb]; [reflexivity|].
  rewrite children_append_nonempty, !children_append_text, children_append.
  reflexivity.
Qed.

Lemma service_provider_contact env :
  child_elements (OWS "ServiceContact") (Service.service_provider env)
  = if bool_decide (get_config_value env "provider" "individualName" = [])
    then [] else [Service.service_contact env].
Proof.
  unfold child_elements, Service.service_provider.
  rewrite children_append_nonempty, filter_app, service_contact_children.
  assert (Hprov : forall e,
            filter (fun c => tag c = OWS "ServiceContact")
              (children (if negb (bool_decide
                                    (get_config_value env "provider" "providerSite" = []))
                         then append (Service.href_element (OWS "ProviderSite")
                                        (get_config_value env "provider" "providerSite")) e
                         else e))
            = filter (fun c => tag c = OWS "ServiceContact") (children e)).
  { intros e. destruct (negb _); [|reflexivity].
    rewrite children_append, filter_app. cbn. rewrite app_nil_r. reflexivity. }
  rewrite Hprov. cbn [children]. rewrite filter_tag_singleton. cbn [tag].
  rewrite bool_decide_eq_false_2 by discriminate. cbn [app].
  destruct (bool_decide (get_config_value env "provider" "individualName" = []));
    [reflexivity|].
  rewrite filter_tag_singleton, tag_service_contact.
  rewrite bool_decide_eq_true_2 by reflexivity. reflexivity.
Qed.

Lemma flat_map_singleton {A} (l : list A) : flat_map (fun c => [c]) l = l.
Proof. induction l as [|x l IH]; [reflexivity|]. cbn. rewrite IH. reflexivity. Qed.

Lemma xpath_rel_cons q rest e :
  xpath_rel (q :: rest) e = flat_map (xpath_rel rest) (child_elements q e).
Proof. reflexivity. Qed.

Lemma xpath_rel_step q e :
  xpath_rel [q] e = child_elements q e.
Proof. cbn [xpath_rel]. apply flat_map_singleton. Qed.

Lemma tag_capabilities_xml p : tag (capabilities_xml p) = WPS "Process".
Proof.
  unfold capabilities_xml.
  destruct (negb (bool_decide (proc_version p = py "None")));
  destruct (negb (bool_decide (proc_wsdl p = [])));
  destruct (negb (bool_decide (proc_profile p = [])));
  destruct (negb (bool_decide (proc_abstract p = [])));
  rewrite ?tag_attrib_set, ?tag_append, ?tag_extend, ?tag_append; reflexivity.
Qed.

Lemma filter_all {A} (P : A -> Prop) `{forall x, Decision (P x)} (l : list A) :
  Forall P l -> filter P l = l.
Proof.
  induction 1 as [|x l Hx _ IH]; [reflexivity|].
  rewrite filter_cons, decide_True by exact Hx. rewrite IH. reflexivity.
Qed.

Lemma filter_tag_cons q (e : Element) l :
  filter (fun c => tag c = q) (e :: l)
  = (if bool_decide (tag e = q) then [e] else []) ++ filter (fun c => tag c = q) l.
Proof.
  rewrite filter_cons. case_bool_decide.
  - rewrite decide_True by assumption. reflexivity.
  - rewrite decide_False by assumption. reflexivity.
Qed.

(** X28.  [get_capabilities] always returns: the language list is
    never empty.  The document has six children, in a fixed order; the
    process offerings are the capabilities of the registered processes;
    the provider has a [ServiceContact] exactly when an individual name
    is configured; the supported languages are the configured ones and
    the default language is the first of them. *)
Theorem get_capabilities_document {S} (env : Env) (self : Service) (s : S) :
  exists doc,
    Service.get_capabilities env self s = (s, Ok (xml_response doc))
    /\ map tag (children doc)
       = [OWS "ServiceIdentification"; OWS "ServiceProvider"; OWS "OperationsMetadata";
          WPS "ProcessOfferings"; WPS "Languages"; WPS "WSDL"]
    /\ (forall el, el ∈ xpath_rel [WPS "ProcessOfferings"; WPS "Process"] doc
                   <-> exists i p, processes self !! i = Some p /\ el = capabilities_xml p)
    /\ xpath_rel [OWS "ServiceProvider"; OWS "ServiceContact"] doc
       = (if bool_decide (get_config_value env "provider" "individualName" = [])
          then [] else [Service.service_contact env])
    /\ map text (xpath_rel [WPS "Languages"; WPS "Supported"; OWS "Language"] doc)
       = map Some (configured_languages env)
    /\ map text (xpath_rel [WPS "Languages"; WPS "Default"; OWS "Language"] doc)
       = [head (configured_languages env)].
Proof.
  unfold Service.get_capabilities. cbv zeta. unfold bind, item0, configured_languages.
  destruct (split "," (get_config_value env "wps" "lang")) as [|l0 ls] eqn:Hl;
    [exfalso; exact (split_not_nil _ _ Hl)|].
  unfold ret. eexists. split; [reflexivity|].
  match goal with
  | |- context [map tag (children ?d)] => set (doc := d)
  end.
  assert (Hc : exists om ws,
            children doc
            = [Service.service_identification env; Service.service_provider env; om;
               Elem (WPS "ProcessOfferings") ∅ None
                 (map (fun kv : pystr * Process => capabilities_xml kv.2)
                      (map_to_list (processes self)));
               Elem (WPS "Languages") ∅ None
                 [Elem (WPS "Default") ∅ None
                    [WPSResponse.text_element (OWS "Language") l0];
                  Elem (WPS "Supported") ∅ None
                    (map (WPSResponse.text_element (OWS "Language")) (l0 :: ls))];
               ws]
            /\ tag om = OWS "OperationsMetadata" /\ tag ws = WPS "WSDL").
  { eexists _, _. subst doc. rewrite !children_append, !children_attrib_set.
    cbn [children app]. split_and!; reflexivity. }
  clearbody doc. destruct Hc as (om & ws & Hc & Hom & Hws).
  assert (Hchild : forall q,
            child_elements q doc
            = filter (fun c => tag c = q)
                [Service.service_identification env; Service.service_provider env; om;
                 Elem (WPS "ProcessOfferings") ∅ None
                   (map (fun kv : pystr * Process => capabilities_xml kv.2)
                        (map_to_list (processes self)));
                 Elem (WPS "Languages") ∅ None
                   [Elem (WPS "Default") ∅ None
                      [WPSResponse.text_element (OWS "Language") l0];
                    Elem (WPS "Supported") ∅ None
                      (map (WPSResponse.text_element (OWS "Language")) (l0 :: ls))];
                 ws]).
  { intros q. unfold child_elements. rewrite Hc. reflexivity. }
  split_and!.
  - rewrite Hc. cbn [map]. rewrite tag_service_identification, tag_service_provider, Hom, Hws.
    reflexivity.
  - intros el. rewrite xpath_rel_cons, Hchild.
    rewrite !filter_tag_cons, filter_nil, tag_service_identification,
      tag_service_provider, Hom, Hws. cbn [tag]. eval_tags. cbn [app].
    cbn [flat_map]. rewrite app_nil_r, xpath_rel_step.
    unfold child_elements. cbn [children].
    rewrite filter_all.
    + rewrite list_elem_of_fmap. split.
      * intros ([i p] & -> & Hip). apply elem_of_map_to_list in Hip. eauto.
      * intros (i & p & Hip & ->). exists (i, p). split; [reflexivity|].
        apply elem_of_map_to_list. exact Hip.
    + apply Forall_map, Forall_true. intros kv. apply tag_capabilities_xml.
  - rewrite xpath_rel_cons, Hchild.
    rewrite !filter_tag_cons, filter_nil, tag_service_identification,
      tag_service_provider, Hom, Hws. cbn [tag]. eval_tags. cbn [app].
    cbn [flat_map]. rewrite app_nil_r, xpath_rel_step.
    apply service_provider_contact.
  - rewrite xpath_rel_cons, Hchild.
    rewrite !filter_tag_cons, filter_nil, tag_service_identification,
      tag_service_provider, Hom, Hws. cbn [tag]. eval_tags. cbn [app].
    cbn [flat_map]. rewrite app_nil_r, xpath_rel_cons.
    unfold child_elements at 1. cbn [children].
    rewrite !filter_tag_cons, filter_nil. cbn [tag]. eval_tags. cbn [app].
    cbn [flat_map]. rewrite app_nil_r, xpath_rel_step.
    unfold child_elements. cbn [children]. rewrite filter_all.
    + rewrite map_map. reflexivity.
    + apply Forall_map, Forall_true. reflexivity.
  - rewrite xpath_rel_cons, Hchild.
    rewrite !filter_tag_cons, filter_nil, tag_service_identification,
      tag_service_provider, Hom, Hws. cbn [tag]. eval_tags. cbn [app].
    cbn [flat_map]. rewrite app_nil_r, xpath_rel_cons.
    unfold child_elements at 1. cbn [children].
    rewrite !filter_tag_cons, filter_nil. cbn [tag]. eval_tags. cbn [app].
    reflexivity.
Qed.

(* ================================================================== *)
(** * [Service.__call__] *)
(* ================================================================== *)

Lemma get_capabilities_returns {S} env self (s : S) :
  exists doc, Service.get_capabilities env self s = (s, Ok (xml_response doc)).
Proof.
  unfold Service.get_capabilities. cbv zeta. unfold bind, item0.
  destruct (split "," (get_config_value env "wps" "lang")) as [|l0 ls] eqn:Hl;
    [exfalso; exact (split_not_nil _ _ Hl)|].
  eexists. reflexivity.
Qed.

Lemma dispatch_parsed env idx fresh_uuid http_request st :
  Service.dispatch env idx fresh_uuid http_request st
  = match (WPSRequest.init env http_request tt).2 with
    | Raise e => (st, Raise e)
    | Ok wps_request =>
        if bool_decide (req_operation wps_request = py "getcapabilities") then
          returned CapabilitiesResponse (Service.get_capabilities env st.1 st)
        else if bool_decide (req_operation wps_request = py "describeprocess") then
          returned DescribeResponse
            (Service.describe env idx st.1 (req_identifiers wps_request) st)
        else if bool_decide (req_operation wps_request = py "execute") then
          returned ExecuteResult
            (Service.execute env fresh_uuid (req_identifier wps_request) wps_request st)
        else (st, Raise (PythonError "RuntimeError"
                           (py "Unknown operation "
                            ++ repr (Some (req_operation wps_request)))))
    end.
Proof.
  unfold Service.dispatch, returned. unfold bind at 1. unfold pure_py.
  destruct (WPSRequest.init env http_request tt) as [u [r|e]]; cbn [snd]; [|reflexivity].
  repeat case_bool_decide; unfold bind, get_state, ret, raise; cbn [fst snd].
  - destruct (Service.get_capabilities env st.1 st) as [s [x|e]]; reflexivity.
  - destruct (Service.describe env idx st.1 (req_identifiers r) st) as [s [x|e]];
      reflexivity.
  - destruct (Service.execute env fresh_uuid (req_identifier r) r st) as [s [x|e]];
      reflexivity.
  - reflexivity.
Qed.

(** X29.  The [try] block of [__call__] always ends in one of the
    three operations or in the exception of the request constructor: the
    branch that raises [RuntimeError] is never reached.  A
    [getcapabilities] request always gets its document. *)
Theorem dispatch_operations (env : Env) (input_describe_xml : Input -> Element)
    (fresh_uuid : pystr) (http_request : HttpRequest) (st : Service * World) :
  match (WPSRequest.init env http_request tt).2 with
  | Raise e =>
      Service.dispatch env input_describe_xml fresh_uuid http_request st = (st, Raise e)
  | Ok wps_request =>
      (req_operation wps_request = py "getcapabilities"
       /\ exists doc,
            Service.get_capabilities env st.1 st = (st, Ok (xml_response doc))
            /\ Service.dispatch env input_describe_xml fresh_uuid http_request st
               = (st, Ok (CapabilitiesResponse (xml_response doc))))
      \/ (req_operation wps_request = py "describeprocess"
          /\ Service.dispatch env input_describe_xml fresh_uuid http_request st
             = returned DescribeResponse
                 (Service.describe env input_describe_xml st.1
                    (req_identifiers wps_request) st))
      \/ (req_operation wps_request = py "execute"
          /\ Service.dispatch env input_describe_xml fresh_uuid http_request st
             = returned ExecuteResult
                 (Service.execute env fresh_uuid (req_identifier wps_request)
                    wps_request st))
  end.
Proof.
  rewrite dispatch_parsed.
  pose proof (init_operation env http_request) as Hop.
  destruct (WPSRequest.init env http_request tt).2 as [r|e]; [|reflexivity].
  destruct (Hop r eq_refl) as [Hcap|[Hdesc|Hex]].
  - left. split; [exact Hcap|]. rewrite bool_decide_eq_true_2 by exact Hcap.
    destruct (get_capabilities_returns env st.1 st) as [doc Hdoc].
    exists doc. split; [exact Hdoc|]. rewrite Hdoc. reflexivity.
  - right. left. split; [exact Hdesc|]. rewrite Hdesc.
    rewrite bool_decide_eq_false_2 by discriminate.
    rewrite bool_decide_eq_true_2 by reflexivity. reflexivity.
  - right. right. split; [exact Hex|]. rewrite Hex.
    rewrite !bool_decide_eq_false_2 by discriminate.
    rewrite bool_decide_eq_true_2 by reflexivity. reflexivity.
Qed.

(** X30.  A GET request that the constructor rejects is rejected
    with an exception of [pywps.exceptions], never with a built-in
    error; [__call__] returns it to the client when it is an HTTP
    exception, as it is or as the [NoApplicableCode] made of its
    description and code, and leaves the service and the world
    unchanged. *)
Theorem get_request_errors_are_answered (env : Env) (classes : ExceptionClasses)
    (input_describe_xml : Input -> Element) (fresh_uuid : pystr)
    (http_request : HttpRequest) (st : Service * World) (e : PyException) :
  http_method http_request = py "GET" ->
  (WPSRequest.init env http_request tt).2 = Raise e ->
  is_pywps_exception e = true
  /\ (is_HTTPException classes e = true ->
      Service.call env classes input_describe_xml fresh_uuid http_request st
      = (st, Ok (error_response classes e)))
  /\ (is_HTTPException classes e = false ->
      Service.call env classes input_describe_xml fresh_uuid http_request st
      = (st, Raise e)).
Proof.
  intros Hget Hraise.
  pose proof (init_get_raises env http_request e Hget Hraise) as Hpywps.
  split; [exact Hpywps|].
  assert (Hexc : is_Exception e = true)
    by (destruct e; try reflexivity; discriminate Hpywps).
  unfold Service.call, try_except. rewrite dispatch_parsed, Hraise. cbv beta iota.
  rewrite Hexc.
  unfold error_response.
  split; intros ->; [destruct (is_NoApplicableCode classes e)|]; reflexivity.
Qed.

(** X30 at a concrete input. *)
Lemma get_request_errors_are_answered_witness :
  Service.call env0 classes0 input_describe_xml0 uuid0 get_without_service
    (service0, world0)
  = (service0, world0,
     Ok (ErrorResponse (MissingParameterValue (py "service") (VStr (py "service"))))).
Proof.
  apply (get_request_errors_are_answered env0 classes0 input_describe_xml0 uuid0
           get_without_service (service0, world0)
           (MissingParameterValue (py "service") (VStr (py "service"))));
    reflexivity.
Defined.
